(** * Observability-System: the request telemetry middleware of app/server.js

    A shallow embedding of [src/app/server.js]: the Prometheus instruments,
    the log file sink, the manual OpenTelemetry spans of the three
    demonstration routes and the Express pipeline that ties them together.

    Conventions.
    - A JavaScript Number is the exact rational value of a finite binary64;
      every arithmetic operation of the source rounds its exact result to
      the nearest binary64 (ties to even), see [Binary64].  The exponent
      range is taken unbounded: no value of this program comes near the
      overflow or the subnormal range.
    - A BigInt is a [Z].
    - The outcomes of the calls whose result the program cannot determine
      (clock readings, [Math.random()], the time of day, a failing disk, a
      throwing [res.json]) are the fields of [Env], one record per request.
    - Effectful code runs in the monad [M]: state passing over [State] with
      JavaScript exceptions. *)

From Stdlib Require Import ZArith QArith Qround Qabs Qpower Lia Lqa String Ascii List.
From stdpp Require Import gmap strings list.

Open Scope Z_scope.

(** ** IEEE-754 binary64 arithmetic on exact values *)

Module Binary64.

(** Bits of the stored significand: a binary64 has 53 significant bits. *)
Definition mantissa_bits : Z := 52.

Definition pow2 (k : Z) : Q := (2 ^ k)%Q.

Definition Qltb (a b : Q) : bool := negb (Qle_bool b a).

(** For [q > 0], the [e] with [2^e <= q < 2^(e+1)]. *)
Definition binade (q : Q) : Z :=
  let e0 := Z.log2 (Qnum q) - Z.log2 (Zpos (Qden q)) in
  if Qle_bool (pow2 e0) q then e0 else e0 - 1.

(** Nearest integer, ties to even. *)
Definition rne (t : Q) : Z :=
  let f := Qfloor t in
  match Qcompare (t - inject_Z f) (1 # 2) with
  | Lt => f
  | Gt => f + 1
  | Eq => if Z.even f then f else f + 1
  end.

(** The unit in the last place of the binade of [q]. *)
Definition ulp (q : Q) : Q := pow2 (binade q - mantissa_bits).

Definition round_pos (q : Q) : Q :=
  Qred (inject_Z (rne (q / ulp q)) * ulp q).

Definition round (q : Q) : Q :=
  match Qcompare q 0 with
  | Eq => 0%Q
  | Gt => round_pos q
  | Lt => Qred (- round_pos (- q))
  end.

(** A rational is a binary64 when rounding leaves its value unchanged. *)
Definition representable (q : Q) : Prop := (round q == q)%Q.

Definition add (a b : Q) : Q := round (a + b).
Definition mul (a b : Q) : Q := round (a * b).
Definition div (a b : Q) : Q := round (a / b).

(** [Number(n)] for a BigInt [n]. *)
Definition of_bigint (n : Z) : Q := round (inject_Z n).

(** A decimal literal of the source text. *)
Definition literal (q : Q) : Q := round q.

(** [Math.floor]. *)
Definition floor (q : Q) : Z := Qfloor q.

End Binary64.

(** ** Strings of the runtime: Number to String, JSON.stringify *)

Module JSString.

Definition dquote : ascii := ascii_of_nat 34.
Definition backslash : ascii := ascii_of_nat 92.
Definition newline : ascii := ascii_of_nat 10.

Definition digit_char (d : Z) : ascii := ascii_of_nat (48 + Z.to_nat d).

(** Decimal digits of a non-negative integer, most significant first. *)
Fixpoint digits_go (fuel : nat) (z : Z) (acc : string) : string :=
  match fuel with
  | O => acc
  | S fuel' =>
      let acc' := String (digit_char (z mod 10)) acc in
      if z / 10 =? 0 then acc' else digits_go fuel' (z / 10) acc'
  end.

Definition digits (z : Z) : string :=
  digits_go (S (Z.to_nat (Z.log2 z))) z EmptyString.

Fixpoint zeros (n : nat) : string :=
  match n with
  | O => EmptyString
  | S n' => String "0" (zeros n')
  end.

Definition pow10 (k : Z) : Q := (10 ^ k)%Q.

Fixpoint lead_zeros (fuel : nat) (q : Q) (j : Z) : Z :=
  match fuel with
  | O => j
  | S fuel' =>
      if Binary64.Qltb (q * pow10 j) (1 # 10)
      then lead_zeros fuel' q (j + 1)
      else j
  end.

(** For [q > 0], the [n] with [10^(n-1) <= q < 10^n]. *)
Definition decimal_exponent (q : Q) : Z :=
  if Qle_bool 1 q
  then Z.of_nat (String.length (digits (Qfloor q)))
  else - lead_zeros (S (Z.to_nat (Z.log2 (Zpos (Qden q))))) q 0.

(** The significands [s] of [k] digits for which [s * 10^(n-k)] reads back
    as [v], the nearer one first (ECMA-262, Number::toString, step 5). *)
Definition candidates (v : Q) (k : Z) : option (Z * Z) :=
  let n0 := decimal_exponent v in
  let unit := pow10 (n0 - k) in
  let lo := Qfloor (v / unit) in
  let hi := lo + 1 in
  let ok s := Qeq_bool (Binary64.round (inject_Z s * unit)) v in
  let norm s := if s =? 10 ^ k then (10 ^ (k - 1), n0 + 1) else (s, n0) in
  match ok lo, ok hi with
  | true, true =>
      if Qle_bool (v - inject_Z lo * unit) (inject_Z hi * unit - v)
      then Some (norm lo)
      else Some (norm hi)
  | true, false => Some (norm lo)
  | false, true => Some (norm hi)
  | false, false => None
  end.

(** The least number of digits [k], with its significand and exponent. *)
Fixpoint shortest (fuel : nat) (v : Q) (k : Z) : Z * Z * Z :=
  match fuel with
  | O => (k, Qfloor (v / pow10 (decimal_exponent v - k)), decimal_exponent v)
  | S fuel' =>
      match candidates v k with
      | Some (s, n) => (k, s, n)
      | None => shortest fuel' v (k + 1)
      end
  end.

Definition exponent_part (n : Z) : string :=
  String "e" (String (if 0 <=? n - 1 then "+"%char else "-"%char)
                     (digits (Z.abs (n - 1)))).

Definition take (n : Z) (s : string) : string :=
  String.substring 0 (Z.to_nat n) s.

Definition drop (n : Z) (s : string) : string :=
  String.substring (Z.to_nat n) (String.length s - Z.to_nat n) s.

Definition Number_toString_pos (v : Q) : string :=
  let '(k, s, n) := shortest 17 v 1 in
  let ds := digits s in
  if (k <=? n) && (n <=? 21) then ds ++ zeros (Z.to_nat (n - k))
  else if (0 <? n) && (n <=? 21) then take n ds ++ String "." (drop n ds)
  else if (-6 <? n) && (n <=? 0)
       then String "0" (String "." (zeros (Z.to_nat (- n)) ++ ds))
  else if k =? 1 then ds ++ exponent_part n
  else take 1 ds ++ String "." (drop 1 ds) ++ exponent_part n.

(** [String(v)] and the rendering of a Number by [JSON.stringify]. *)
Definition Number_toString (v : Q) : string :=
  match Qcompare v 0 with
  | Eq => String "0" EmptyString
  | Gt => Number_toString_pos v
  | Lt => String "-" (Number_toString_pos (- v))
  end.

Definition hex_char (d : nat) : ascii :=
  if (d <? 10)%nat then ascii_of_nat (48 + d) else ascii_of_nat (87 + d).

(** One character of a string between the quotes of a JSON text. *)
Definition quote_char (c : ascii) : string :=
  let n := nat_of_ascii c in
  if Ascii.eqb c dquote then String backslash (String dquote EmptyString)
  else if Ascii.eqb c backslash then String backslash (String backslash EmptyString)
  else if (n =? 8)%nat then String backslash "b"
  else if (n =? 9)%nat then String backslash "t"
  else if (n =? 10)%nat then String backslash "n"
  else if (n =? 12)%nat then String backslash "f"
  else if (n =? 13)%nat then String backslash "r"
  else if (n <? 32)%nat
       then String backslash
              (String "u" (String "0" (String "0"
                 (String (hex_char (n / 16)) (String (hex_char (n mod 16)) EmptyString)))))
  else String c EmptyString.

Fixpoint quote_chars (s : string) : string :=
  match s with
  | EmptyString => EmptyString
  | String c s' => quote_char c ++ quote_chars s'
  end.

Definition quote (s : string) : string :=
  String dquote (quote_chars s ++ String dquote EmptyString).

End JSString.

(** ** Dates of the runtime: Date.prototype.toISOString *)

Module JSDate.

(** The digits of [z], with zeros in front up to [width] characters. *)
Definition pad (width : nat) (z : Z) : string :=
  let ds := JSString.digits z in
  (JSString.zeros (width - String.length ds) ++ ds)%string.

(** Year, month and day of the proleptic Gregorian calendar for a number
    of days since 1970-01-01. *)
Definition civil (days : Z) : Z * Z * Z :=
  let z := days + 719468 in
  let era := z / 146097 in
  let doe := z - era * 146097 in
  let yoe := (doe - doe / 1460 + doe / 36524 - doe / 146096) / 365 in
  let doy := doe - (365 * yoe + yoe / 4 - yoe / 100) in
  let mp := (5 * doy + 2) / 153 in
  let d := doy - (153 * mp + 2) / 5 + 1 in
  let m := if mp <? 10 then mp + 3 else mp - 9 in
  let y := yoe + era * 400 + (if m <=? 2 then 1 else 0) in
  (y, m, d).

Definition year_string (y : Z) : string :=
  if (0 <=? y) && (y <=? 9999) then pad 4 y
  else String (if y <? 0 then "-"%char else "+"%char) (pad 6 (Z.abs y)).

(** [new Date(t).toISOString()] for [t] milliseconds since the epoch. *)
Definition toISOString (t : Z) : string :=
  let '(y, m, d) := civil (t / 86400000) in
  let ms_of_day := t mod 86400000 in
  (year_string y ++ String "-" (pad 2 m ++ String "-" (pad 2 d ++ String "T"
     (pad 2 (ms_of_day / 3600000) ++ String ":"
        (pad 2 (ms_of_day / 60000 mod 60) ++ String ":"
           (pad 2 (ms_of_day / 1000 mod 60) ++ String "."
              (pad 3 (ms_of_day mod 1000) ++ "Z")))))))%string.

End JSDate.

(** ** JSON values and JSON.stringify *)

#[warnings="-register-all"]
Inductive JSON : Type :=
| JBool (b : bool)
| JNum (v : Q)
| JStr (s : string)
| JObj (fields : list (string * JSON)).

Module JSONText.

Fixpoint commas (l : list string) : string :=
  match l with
  | [] => EmptyString
  | [x] => x
  | x :: rest => x ++ String "," (commas rest)
  end.

(** [JSON.stringify(j)] without indentation. *)
Fixpoint stringify (j : JSON) : string :=
  match j with
  | JBool true => "true"
  | JBool false => "false"
  | JNum v => JSString.Number_toString v
  | JStr s => JSString.quote s
  | JObj fields =>
      String "{"
        (commas (map (fun kv : string * JSON =>
                        (JSString.quote (fst kv) ++ String ":" (stringify (snd kv)))%string)
                     fields)
         ++ "}")
  end.

End JSONText.

(** ** POSIX paths ([path.resolve], [path.join]) and the file system *)

Module Path.

Definition slash : ascii := ascii_of_nat 47.

Fixpoint split_go (s cur : string) : list string :=
  match s with
  | EmptyString => [cur]
  | String c s' =>
      if Ascii.eqb c slash
      then cur :: split_go s' EmptyString
      else split_go s' (cur ++ String c EmptyString)
  end.

Definition split (s : string) : list string := split_go s EmptyString.

(** One segment applied to an absolute path: empty and [.] segments
    vanish, [..] climbs (and stays at the root). *)
Definition step (acc : list string) (seg : string) : list string :=
  if String.eqb seg EmptyString then acc
  else if String.eqb seg "." then acc
  else if String.eqb seg ".." then removelast acc
  else acc ++ [seg].

Definition normalize (base : list string) (segs : list string) : list string :=
  fold_left step segs base.

Definition isAbsolute (p : string) : bool :=
  match p with
  | String c _ => Ascii.eqb c slash
  | EmptyString => false
  end.

(** [path.resolve(p)] in a process whose working directory is [cwd]. *)
Definition resolve (cwd : list string) (p : string) : list string :=
  if isAbsolute p then normalize [] (split p) else normalize cwd (split p).

(** [path.join(dir, name)] for an absolute [dir]. *)
Definition join (dir : list string) (name : string) : list string :=
  normalize dir (split name).

Definition to_string (p : list string) : string :=
  match p with
  | [] => String slash EmptyString
  | _ => fold_right (fun seg acc => String slash (seg ++ acc)) EmptyString p
  end.

End Path.

Record FS : Type := {
  fs_dirs : gset (list string);
  fs_files : gmap (list string) string
}.

Module Fs.

Definition is_dir (p : list string) (fs : FS) : bool :=
  bool_decide (p = [] ∨ p ∈ fs_dirs fs).

Definition is_file (p : list string) (fs : FS) : bool :=
  bool_decide (is_Some (fs_files fs !! p)).

(** [fs.existsSync]. *)
Definition existsSync (p : list string) (fs : FS) : bool :=
  is_dir p fs || is_file p fs.

(** The path and its ancestors below the root, shortest first. *)
Fixpoint prefixes (p : list string) : list (list string) :=
  match p with
  | [] => []
  | seg :: rest => [seg] :: map (cons seg) (prefixes rest)
  end.

(** [fs.mkdirSync(p, {recursive: true})]: [None] when it throws because
    a file stands where a directory is needed. *)
Definition mkdirSync_recursive (p : list string) (fs : FS) : option FS :=
  if existsb (fun q => is_file q fs) (prefixes p) then None
  else Some {| fs_dirs := fs_dirs fs ∪ list_to_set (prefixes p);
               fs_files := fs_files fs |}.

(** Opening with flag [a]: the file is created when absent; [None] when
    the open fails. *)
Definition open_append (p : list string) (fs : FS) : option FS :=
  if is_dir (removelast p) fs && negb (is_dir p fs) then
    Some {| fs_dirs := fs_dirs fs;
            fs_files := <[p := default EmptyString (fs_files fs !! p)]> (fs_files fs) |}
  else None.

Definition append (p : list string) (chunk : string) (fs : FS) : FS :=
  {| fs_dirs := fs_dirs fs;
     fs_files := <[p := (default EmptyString (fs_files fs !! p) ++ chunk)%string]> (fs_files fs) |}.

Definition read (p : list string) (fs : FS) : string :=
  default EmptyString (fs_files fs !! p).

End Fs.

(** ** prom-client instruments *)

(** The label values [(method, route, status_code)] of one series. *)
Definition Labels : Type := string * string * string.

Record Histogram : Type := {
  hist_buckets : list (Q * Z);  (* upper bound, cumulative count *)
  hist_sum : Q;
  hist_count : Z
}.

Module Prom.

(** [buckets: [0.005, 0.01, 0.025, 0.05, 0.1, 0.25, 0.5, 1, 2.5, 5, 10]] *)
Definition buckets : list Q :=
  map Binary64.literal
      [5 # 1000; 1 # 100; 25 # 1000; 5 # 100; 1 # 10; 25 # 100; 5 # 10;
       1 # 1; 25 # 10; 5 # 1; 10 # 1]%Q.

Definition empty_histogram : Histogram :=
  {| hist_buckets := map (fun ub => (ub, 0)) buckets;
     hist_sum := 0%Q;
     hist_count := 0 |}.

(** [Counter.inc(labels)]: a series not seen before starts at zero. *)
Definition inc `{Countable K} (labels : K) (m : gmap K Z) : gmap K Z :=
  <[labels := default 0 (m !! labels) + 1]> m.

Definition value `{Countable K} (labels : K) (m : gmap K Z) : Z :=
  default 0 (m !! labels).

Definition observe_one (v : Q) (h : Histogram) : Histogram :=
  {| hist_buckets :=
       map (fun b : Q * Z => if Qle_bool v (fst b) then (fst b, snd b + 1) else b)
           (hist_buckets h);
     hist_sum := Binary64.add (hist_sum h) v;
     hist_count := hist_count h + 1 |}.

(** [Histogram.observe(labels, v)]. *)
Definition observe (labels : Labels) (v : Q)
           (m : gmap Labels Histogram) : gmap Labels Histogram :=
  <[labels := observe_one v (default empty_histogram (m !! labels))]> m.

Definition series (labels : Labels) (m : gmap Labels Histogram) : Histogram :=
  default empty_histogram (m !! labels).

End Prom.

Record Registry : Type := {
  httpRequests : gmap Labels Z;
  httpDuration : gmap Labels Histogram;
  successRequests : gmap string Z;
  errorRequests : gmap string Z
}.

(** ** Spans, requests, responses *)

Inductive SpanStatusCode : Type := UNSET | OK | ERROR.

Record SpanStatus : Type := {
  code : SpanStatusCode;
  message : option string
}.

Record Span : Type := {
  span_name : string;
  span_status : SpanStatus;
  span_ended : bool;
  span_end_calls : nat
}.

(** The routes registered with [app.get]. *)
Inductive Route : Type := RootRoute | WorkRoute | ErrorRoute | MetricsRoute.

(** [req.route.path] of a matched route. *)
Definition route_path (r : Route) : string :=
  match r with
  | RootRoute => "/"
  | WorkRoute => "/work"
  | ErrorRoute => "/error"
  | MetricsRoute => "/metrics"
  end.

(** What Express does with a request: the JSON body parser rejects its
    body with a status (400 for malformed JSON), or no route matches it and
    the default handler answers 404, or it is dispatched to the handler of
    a route. *)
Inductive Dispatch : Type :=
| Rejected (status : Z)
| Unmatched
| Matched (r : Route).

(** An incoming request as the application sees it; [req_path] is the path
    of the URL ([None]: undefined). *)
Record Request : Type := {
  req_method : string;
  req_path : option string;
  req_dispatch : Dispatch
}.

(** [req.route]: set by the router when it dispatches to a route. *)
Definition req_route (req : Request) : option Route :=
  match req_dispatch req with
  | Matched r => Some r
  | _ => None
  end.

Inductive Body : Type :=
| BJson (j : JSON)
| BMetrics (snapshot : Registry)
| BDefault (text : string)
| BEmpty.

(** A listener of the response's [finish] event: the closure created by
    the middleware, with the [start] it captures. *)
Inductive Listener : Type :=
| MetricsOnFinish (start : Z).

Record Response : Type := {
  statusCode : Z;
  res_body : option Body;
  res_finished : bool;
  res_listeners : list Listener
}.

(** Results of the calls that depend on the outside world, per request. *)
Record Env : Type := {
  hrtime_start : Z;              (* process.hrtime.bigint() in the middleware *)
  hrtime_finish : Z;             (* process.hrtime.bigint() in the finish callback *)
  random1 : Q;                   (* first Math.random() *)
  random2 : Q;                   (* second Math.random() *)
  now_ms : Z;                    (* the time of new Date(), in ms since the epoch *)
  write_error : option string;   (* the append to the log file fails *)
  json_error : option string;    (* res.json throws *)
  headers_fresh : bool           (* fresh(req.headers, {etag, last-modified}) *)
}.

(** The calls the application makes, in the order it makes them. *)
Inductive Call : Type :=
| CStartSpan (name : string)
| CSetStatus (st : SpanStatus)
| CSpanEnd
| CResStatus (status : Z)
| CResJson (body : JSON)
| CResEnd
| CSetTimeout (ms : Z)
| CLogger (level : string) (obj : JSON) (msg : string)
| CCounterInc (metric : string) (labels : list string)
| CHistogramObserve (metric : string) (labels : list string) (v : Q)
| CLogStreamWrite (chunk : string).

Inductive ProcStatus : Type :=
| Running
| Crashed (err : string).

Record State : Type := {
  registry : Registry;
  fs : FS;
  logFile : list string;
  stdout : list (string * JSON * string);
  stderr : list string;
  proc : ProcStatus;
  rejections : list string;
  res : Response;
  span : option Span;
  calls : list Call
}.

Definition with_registry (f : Registry -> Registry) (s : State) : State :=
  {| registry := f (registry s); fs := fs s; logFile := logFile s;
     stdout := stdout s; stderr := stderr s; proc := proc s;
     rejections := rejections s; res := res s; span := span s;
     calls := calls s |}.

Definition with_fs (f : FS -> FS) (s : State) : State :=
  {| registry := registry s; fs := f (fs s); logFile := logFile s;
     stdout := stdout s; stderr := stderr s; proc := proc s;
     rejections := rejections s; res := res s; span := span s;
     calls := calls s |}.

Definition with_stdout (f : list (string * JSON * string) -> list (string * JSON * string))
           (s : State) : State :=
  {| registry := registry s; fs := fs s; logFile := logFile s;
     stdout := f (stdout s); stderr := stderr s; proc := proc s;
     rejections := rejections s; res := res s; span := span s;
     calls := calls s |}.

Definition with_crash (err : string) (s : State) : State :=
  {| registry := registry s; fs := fs s; logFile := logFile s;
     stdout := stdout s; stderr := stderr s ++ [err]; proc := Crashed err;
     rejections := rejections s; res := res s; span := span s;
     calls := calls s |}.

Definition with_rejection (err : string) (s : State) : State :=
  {| registry := registry s; fs := fs s; logFile := logFile s;
     stdout := stdout s; stderr := stderr s; proc := proc s;
     rejections := rejections s ++ [err]; res := res s; span := span s;
     calls := calls s |}.

Definition with_res (f : Response -> Response) (s : State) : State :=
  {| registry := registry s; fs := fs s; logFile := logFile s;
     stdout := stdout s; stderr := stderr s; proc := proc s;
     rejections := rejections s; res := f (res s); span := span s;
     calls := calls s |}.

Definition with_span (f : option Span -> option Span) (s : State) : State :=
  {| registry := registry s; fs := fs s; logFile := logFile s;
     stdout := stdout s; stderr := stderr s; proc := proc s;
     rejections := rejections s; res := res s; span := f (span s);
     calls := calls s |}.

Definition with_call (c : Call) (s : State) : State :=
  {| registry := registry s; fs := fs s; logFile := logFile s;
     stdout := stdout s; stderr := stderr s; proc := proc s;
     rejections := rejections s; res := res s; span := span s;
     calls := calls s ++ [c] |}.

(** ** The effect monad: state and exceptions *)

Inductive Outcome (A : Type) : Type :=
| Done (a : A)
| Thrown (err : string).

Arguments Done {A} a.
Arguments Thrown {A} err.

Definition M (A : Type) : Type := State -> Outcome A * State.

Definition ret {A : Type} (a : A) : M A := fun s => (Done a, s).

Definition bind {A B : Type} (m : M A) (k : A -> M B) : M B :=
  fun s =>
    match m s with
    | (Done a, s') => k a s'
    | (Thrown err, s') => (Thrown err, s')
    end.

Definition throw {A : Type} (err : string) : M A := fun s => (Thrown err, s).

Declare Scope js_scope.
Delimit Scope js_scope with js.
Bind Scope js_scope with M.

Notation "x <- m ;; k" := (bind m (fun x => k))
  (at level 100, m at next level, k at level 200, right associativity) : js_scope.
Notation "m ;; k" := (bind m (fun _ => k))
  (at level 100, k at level 200, right associativity) : js_scope.

Open Scope js_scope.

(** [try { body } catch (err) { handler err }] *)
Definition try_catch {A : Type} (body : M A) (handler : string -> M A) : M A :=
  fun s =>
    match body s with
    | (Done a, s') => (Done a, s')
    | (Thrown err, s') => handler err s'
    end.

(** [try { body } finally { cleanup }]: the cleanup runs on every
    completion of the body, a [return] and a [throw] included. *)
Definition try_finally {A : Type} (body : M A) (cleanup : M unit) : M A :=
  fun s =>
    match body s with
    | (r, s') =>
        match cleanup s' with
        | (Done _, s'') => (r, s'')
        | (Thrown err, s'') => (Thrown err, s'')
        end
    end.

Definition get : M State := fun s => (Done s, s).

Definition modify (f : State -> State) : M unit := fun s => (Done tt, f s).

Definition call (c : Call) : M unit := modify (with_call c).

(** ** The objects the handlers act on *)

(** [span.setStatus(st)]: ignored once the span has ended. *)
Definition span_setStatus (st : SpanStatus) : M unit :=
  call (CSetStatus st) ;;
  modify (with_span (option_map (fun sp =>
    if span_ended sp then sp
    else {| span_name := span_name sp; span_status := st;
            span_ended := span_ended sp; span_end_calls := span_end_calls sp |}))).

(** [span.end()] *)
Definition span_end : M unit :=
  call CSpanEnd ;;
  modify (with_span (option_map (fun sp =>
    {| span_name := span_name sp; span_status := span_status sp;
       span_ended := true; span_end_calls := S (span_end_calls sp) |}))).

(** [tracer.startActiveSpan(name, async (span) => fn)] *)
Definition startActiveSpan (name : string) (fn : M unit) : M unit :=
  call (CStartSpan name) ;;
  modify (with_span (fun _ =>
    Some {| span_name := name;
            span_status := {| code := UNSET; message := None |};
            span_ended := false; span_end_calls := O |})) ;;
  fn.

(** [res.status(status)] *)
Definition res_status (status : Z) : M unit :=
  call (CResStatus status) ;;
  modify (with_res (fun r =>
    {| statusCode := status; res_body := res_body r;
       res_finished := res_finished r; res_listeners := res_listeners r |})).

Definition send (b : Body) (r : Response) : Response :=
  {| statusCode := statusCode r; res_body := Some b;
     res_finished := true; res_listeners := res_listeners r |}.

(** The statuses for which Express validates freshness: 2xx and 304. *)
Definition cacheable (status : Z) : bool :=
  if 200 <=? status then (if status <? 300 then true else status =? 304) else false.

(** The request is a GET or a HEAD whose validators ([If-None-Match],
    [If-Modified-Since]) match the response about to be sent;
    [If-None-Match: *] matches every response.  The comparison of the
    validators with the entity tag of the body is the library's and is
    taken from [headers_fresh]. *)
Definition conditional (env : Env) (req : Request) : bool :=
  (String.eqb (req_method req) "GET" || String.eqb (req_method req) "HEAD")
  && headers_fresh env.

(** [req.fresh] of Express, read when the response has [status]. *)
Definition req_fresh (env : Env) (req : Request) (status : Z) : bool :=
  if cacheable status then conditional env req else false.

(** [res.send(chunk)] of Express, which [res.json] ends with, for a GET: a
    fresh request is answered 304, and a 204 or a 304 carries no body.
    The requests dispatched to the routes, which are registered with
    [app.get], are GETs here. *)
Definition res_send (env : Env) (req : Request) (chunk : Body) (r : Response) : Response :=
  let status := if req_fresh env req (statusCode r) then 304 else statusCode r in
  send (if status =? 204 then BEmpty else if status =? 304 then BEmpty else chunk)
       {| statusCode := status; res_body := res_body r;
          res_finished := res_finished r; res_listeners := res_listeners r |}.

(** [res.json(body)] *)
Definition res_json (env : Env) (req : Request) (body : JSON) : M unit :=
  call (CResJson body) ;;
  match json_error env with
  | Some err => throw err
  | None =>
      s <- get ;;
      if res_finished (res s) then throw "ERR_HTTP_HEADERS_SENT"
      else modify (with_res (res_send env req (BJson body)))
  end.

(** [res.on('finish', listener)] *)
Definition res_on_finish (l : Listener) : M unit :=
  modify (with_res (fun r =>
    {| statusCode := statusCode r; res_body := res_body r;
       res_finished := res_finished r; res_listeners := res_listeners r ++ [l] |})).

(** [logger.info], [logger.warn], [logger.error] of pino: one line on the
    standard output. *)
Definition logger (level : string) (obj : JSON) (msg : string) : M unit :=
  call (CLogger level obj msg) ;;
  modify (with_stdout (fun out => out ++ [(level, obj, msg)])).

(** The listeners of the log stream's [error] event: server.js registers
    none. *)
Definition logStream_error_listeners : list (string -> M unit) := [].

(** [emitter.emit('error', err)]: with no listener the error is thrown
    out of the event loop, reported on the standard error and ends the
    process. *)
Fixpoint run_error_listeners (ls : list (string -> M unit)) (err : string) : M unit :=
  match ls with
  | [] => ret tt
  | l :: rest => l err ;; run_error_listeners rest err
  end.

Definition emit_error (ls : list (string -> M unit)) (err : string) : M unit :=
  match ls with
  | [] => modify (with_crash err)
  | _ => run_error_listeners ls err
  end.

(** [logStream.write(chunk)] on the append stream of [logFile].  The
    requests are served one after the other, and the failure of a write
    is delivered as the [error] event before the next one is served. *)
Definition logStream_write (env : Env) (chunk : string) : M unit :=
  call (CLogStreamWrite chunk) ;;
  match write_error env with
  | None => s <- get ;; modify (with_fs (Fs.append (logFile s) chunk))
  | Some err => emit_error logStream_error_listeners err
  end.

(** server.js, lines 41-43 *)
Definition logToFile (env : Env) (message : JSON) : M unit :=
  logStream_write env
    (JSDate.toISOString (now_ms env)
     ++ String " " (JSONText.stringify message ++ String JSString.newline EmptyString)).

(** ** The metrics and log middleware (server.js, lines 83-106) *)

(** A string operand of [||] is falsy when undefined or empty. *)
Definition truthy (v : option string) : bool :=
  match v with
  | Some s => negb (String.eqb s EmptyString)
  | None => false
  end.

(** [a || b] *)
Definition js_or (a b : option string) : option string :=
  if truthy a then a else b.

(** [req.route?.path || req.path || 'unknown'] *)
Definition route_label (req : Request) : string :=
  default EmptyString
    (js_or (js_or (option_map route_path (req_route req)) (req_path req))
           (Some "unknown")).

Definition inc_httpRequests (labels : Labels) (r : Registry) : Registry :=
  {| httpRequests := Prom.inc labels (httpRequests r);
     httpDuration := httpDuration r;
     successRequests := successRequests r;
     errorRequests := errorRequests r |}.

Definition observe_httpDuration (labels : Labels) (v : Q) (r : Registry) : Registry :=
  {| httpRequests := httpRequests r;
     httpDuration := Prom.observe labels v (httpDuration r);
     successRequests := successRequests r;
     errorRequests := errorRequests r |}.

Definition inc_successRequests (route : string) (r : Registry) : Registry :=
  {| httpRequests := httpRequests r;
     httpDuration := httpDuration r;
     successRequests := Prom.inc route (successRequests r);
     errorRequests := errorRequests r |}.

Definition inc_errorRequests (route : string) (r : Registry) : Registry :=
  {| httpRequests := httpRequests r;
     httpDuration := httpDuration r;
     successRequests := successRequests r;
     errorRequests := Prom.inc route (errorRequests r) |}.

Definition labels_list (labels : Labels) : list string :=
  [fst (fst labels); snd (fst labels); snd labels].

(** [Number(process.hrtime.bigint() - start) / 1e9] *)
Definition duration (start finish : Z) : Q :=
  Binary64.div (Binary64.of_bigint (finish - start)) (inject_Z (10 ^ 9)).

(** The record written to the log, line 100. *)
Definition logEntry (method route : string) (status : Z) (delta : Q) : JSON :=
  JObj [("method", JStr method); ("route", JStr route);
        ("status", JNum (inject_Z status)); ("duration_s", JNum delta)].

(** [res.statusCode >= 200 && res.statusCode < 400], line 94. *)
Definition is_success (status : Z) : bool :=
  (200 <=? status) && (status <? 400).

(** The callback of [res.on('finish', ...)], lines 86-103. *)
Definition on_finish (env : Env) (req : Request) (start : Z) : M unit :=
  let delta := duration start (hrtime_finish env) in
  let route := route_label req in
  s <- get ;;
  let status := statusCode (res s) in
  let labels : Labels :=
    (req_method req, route, JSString.Number_toString (inject_Z status)) in
  call (CCounterInc "app_http_requests_total" (labels_list labels)) ;;
  modify (with_registry (inc_httpRequests labels)) ;;
  call (CHistogramObserve "app_http_request_duration_seconds" (labels_list labels) delta) ;;
  modify (with_registry (observe_httpDuration labels delta)) ;;
  (if is_success status
   then call (CCounterInc "app_http_success_total" [route]) ;;
        modify (with_registry (inc_successRequests route))
   else call (CCounterInc "app_http_error_total" [route]) ;;
        modify (with_registry (inc_errorRequests route))) ;;
  let entry := logEntry (req_method req) route status delta in
  logger "info" entry "request_finished" ;;
  logToFile env entry.

(** [app.use((req, res, next) => ...)]: the clock is read, the listener is
    registered, the rest of the pipeline runs. *)
Definition metrics_middleware (env : Env) (next : M unit) : M unit :=
  let start := hrtime_start env in
  res_on_finish (MetricsOnFinish start) ;;
  next.

(** ** The routes (server.js, lines 112-156) *)

Definition status_of (c : SpanStatusCode) (msg : option string) : SpanStatus :=
  {| code := c; message := msg |}.

(** [GET /] *)
Definition root_handler (env : Env) (req : Request) : M unit :=
  startActiveSpan "root_route"
    (res_json env req (JObj [("ok", JBool true); ("message", JStr "Hello from demo app")]) ;;
     span_setStatus (status_of OK None) ;;
     span_end).

(** [Math.floor(Math.random() * 500)] *)
Definition simulated_ms (u : Q) : Z :=
  Binary64.floor (Binary64.mul u (inject_Z 500)).

(** [Math.random() < 0.1] *)
Definition random_failure (u : Q) : bool :=
  Binary64.Qltb u (Binary64.literal (1 # 10)).

(** [GET /work].  The [return] of the failure branch leaves the [try]
    block: the code after the [if] is the other branch here. *)
Definition work_handler (env : Env) (req : Request) : M unit :=
  startActiveSpan "work_route"
    (try_finally
       (try_catch
          (let ms := simulated_ms (random1 env) in
           call (CSetTimeout ms) ;;
           if random_failure (random2 env) then
             logger "warn" (JObj [("path", JStr "/work"); ("reason", JStr "random_failure")])
                    "simulated_error" ;;
             span_setStatus (status_of ERROR (Some "Random failure")) ;;
             span_end ;;
             res_status 500 ;;
             res_json env req
               (JObj [("ok", JBool false); ("error", JStr "Random failure occurred")])
           else
             res_json env req
               (JObj [("ok", JBool true); ("simulated_ms", JNum (inject_Z ms))]) ;;
             span_setStatus (status_of OK None))
          (fun err =>
             span_setStatus (status_of ERROR (Some err)) ;;
             throw err))
       span_end).

(** [GET /error] *)
Definition error_handler (env : Env) (req : Request) : M unit :=
  startActiveSpan "error_route"
    (logger "error" (JObj [("path", JStr "/error")]) "forced_error" ;;
     res_status 500 ;;
     res_json env req
       (JObj [("ok", JBool false); ("error", JStr "Simulated server error")]) ;;
     span_setStatus (status_of ERROR (Some "Forced error")) ;;
     span_end).

(** [GET /metrics]: the body is the registry as it stands; its text
    rendering is not modelled. *)
Definition metrics_handler : M unit :=
  s <- get ;;
  call CResEnd ;;
  modify (with_res (send (BMetrics (registry s)))).

(** ** The Express pipeline *)

(** The default handler of Express ends the response with the given
    status: 404 when no route matched, the status of the error when a
    middleware passed one to [next]. *)
Definition finalhandler (status : Z) (text : string) : M unit :=
  modify (with_res (fun r =>
    {| statusCode := status; res_body := Some (BDefault text);
       res_finished := true; res_listeners := res_listeners r |})).

Definition router (env : Env) (req : Request) : M unit :=
  match req_route req with
  | Some RootRoute => root_handler env req
  | Some WorkRoute => work_handler env req
  | Some ErrorRoute => error_handler env req
  | Some MetricsRoute => metrics_handler
  | None => finalhandler 404 "Not Found"
  end.

(** [app.use(express.json())], line 80: a body it rejects goes to
    [next(err)], and Express then skips every middleware and route that is
    not an error handler. *)
Definition express_json (req : Request) (next : M unit) : M unit :=
  match req_dispatch req with
  | Rejected status => finalhandler status "Bad Request"
  | _ => next
  end.

(** The middleware and routes in the order server.js registers them. *)
Definition app (env : Env) (req : Request) : M unit :=
  express_json req (metrics_middleware env (router env req)).

Definition run_listener (env : Env) (req : Request) (l : Listener) : M unit :=
  match l with
  | MetricsOnFinish start => on_finish env req start
  end.

(** The [finish] event of the response. *)
Fixpoint emit_finish (env : Env) (req : Request) (ls : list Listener) : M unit :=
  match ls with
  | [] => ret tt
  | l :: rest => run_listener env req l ;; emit_finish env req rest
  end.

Definition fresh_response : Response :=
  {| statusCode := 200; res_body := None; res_finished := false; res_listeners := [] |}.

Definition new_exchange (s : State) : State :=
  with_span (fun _ => None) (with_res (fun _ => fresh_response) s).

(** The pipeline of one request up to the point where server.js has ended
    its response or abandoned it.  An exception leaving an [async] route
    handler rejects the promise of the handler; server.js has no error
    handler of its own, and what the framework does with the rejection is
    left out: the rejection is recorded and the response stays as it is. *)
Definition handled (env : Env) (req : Request) (s : State) : State :=
  match app env req (new_exchange s) with
  | (Done _, s') => s'
  | (Thrown err, s') => with_rejection err s'
  end.

(** One request from its arrival to the end of its [finish] listeners; a
    response that is never ended emits no [finish].  A process that has
    crashed serves nothing.  The connection of the request stays open
    until its response has been sent: a response ended on a connection
    that the client has dropped emits [close] and no [finish], and such a
    request is outside the requests served here. *)
Definition handle_request (env : Env) (req : Request) (s : State) : State :=
  match proc s with
  | Crashed _ => s
  | Running =>
      let s1 := handled env req s in
      if res_finished (res s1)
      then snd (emit_finish env req (res_listeners (res s1)) s1)
      else s1
  end.

(** A request is completed when the process served it and its response
    has been ended. *)
Definition completed (env : Env) (req : Request) (s : State) : bool :=
  match proc s with
  | Crashed _ => false
  | Running => res_finished (res (handle_request env req s))
  end.

Fixpoint serve (reqs : list (Env * Request)) (s : State) : State :=
  match reqs with
  | [] => s
  | (env, req) :: rest => serve rest (handle_request env req s)
  end.

(** ** Process start (server.js, lines 34-38 and 47-78) *)

Definition empty_registry : Registry :=
  {| httpRequests := ∅; httpDuration := ∅; successRequests := ∅; errorRequests := ∅ |}.

(** [path.resolve(process.env.LOGS_DIR || '/app/logs')] *)
Definition logsDir (LOGS_DIR : option string) (cwd : list string) : list string :=
  Path.resolve cwd (default EmptyString (js_or LOGS_DIR (Some "/app/logs"))).

Definition initial_state (disk : FS) (file : list string) (status : ProcStatus) : State :=
  {| registry := empty_registry; fs := disk; logFile := file;
     stdout := []; stderr := []; proc := status; rejections := [];
     res := fresh_response; span := None; calls := [] |}.

(** The state after the top level of server.js has run: [None] when
    [fs.mkdirSync] throws. *)
Definition start (LOGS_DIR : option string) (cwd : list string) (disk : FS) : option State :=
  let dir := logsDir LOGS_DIR cwd in
  disk1 ← (if Fs.existsSync dir disk then Some disk else Fs.mkdirSync_recursive dir disk);
  let file := Path.join dir "app.log" in
  match Fs.open_append file disk1 with
  | Some disk2 => Some (initial_state disk2 file Running)
  | None =>
      Some (snd (emit_error logStream_error_listeners "open failed"
                   (initial_state disk1 file Running)))
  end.

(** ** Vocabulary of the properties *)

(** The calls made while a request was handled. *)
Definition new_calls (s s' : State) : list Call :=
  drop (length (calls s)) (calls s').

Definition is_span_start (c : Call) : bool :=
  match c with CStartSpan _ => true | _ => false end.

Definition is_span_end (c : Call) : bool :=
  match c with CSpanEnd => true | _ => false end.

Definition is_registry_call (c : Call) : bool :=
  match c with
  | CCounterInc _ _ | CHistogramObserve _ _ _ => true
  | _ => false
  end.

Definition is_log_write (c : Call) : bool :=
  match c with CLogStreamWrite _ => true | _ => false end.

Definition is_telemetry (c : Call) : bool :=
  is_registry_call c || is_log_write c.

Definition count (p : Call -> bool) (l : list Call) : nat :=
  length (filter (fun c => p c = true) l).

Definition rejected (req : Request) : bool :=
  match req_dispatch req with
  | Rejected _ => true
  | _ => false
  end.

(** The label values of the request counter and of the histogram. *)
Definition finish_labels (req : Request) (status : Z) : Labels :=
  (req_method req, route_label req, JSString.Number_toString (inject_Z status)).

(** The line of the log file for a request. *)
Definition log_line (env : Env) (req : Request) (start status : Z) : string :=
  (JSDate.toISOString (now_ms env) ++ String " "
     (JSONText.stringify
        (logEntry (req_method req) (route_label req) status
                  (duration start (hrtime_finish env)))
      ++ String JSString.newline EmptyString))%string.

(** The calls of one run of the finish callback. *)
Definition finish_calls (env : Env) (req : Request) (start status : Z) : list Call :=
  let delta := duration start (hrtime_finish env) in
  [CCounterInc "app_http_requests_total" (labels_list (finish_labels req status));
   CHistogramObserve "app_http_request_duration_seconds"
     (labels_list (finish_labels req status)) delta;
   (if is_success status
    then CCounterInc "app_http_success_total" [route_label req]
    else CCounterInc "app_http_error_total" [route_label req]);
   CLogger "info" (logEntry (req_method req) (route_label req) status delta)
     "request_finished";
   CLogStreamWrite (log_line env req start status)].

(** The registry after one run of the finish callback. *)
Definition record (req : Request) (status : Z) (delta : Q) (r : Registry) : Registry :=
  (if is_success status
   then inc_successRequests (route_label req)
   else inc_errorRequests (route_label req))
    (observe_httpDuration (finish_labels req status) delta
       (inc_httpRequests (finish_labels req status) r)).

(** The series [k] of a counter went up by one and no other series moved. *)
Definition bumped `{Countable K} (k : K) (before after : gmap K Z) : Prop :=
  forall r, Prom.value r after = Prom.value r before + (if decide (r = k) then 1 else 0).

Definition untouched `{Countable K} (before after : gmap K Z) : Prop :=
  forall r, Prom.value r after = Prom.value r before.

(** The histogram took one observation [v] in the series [k], and no other
    series moved. *)
Definition observed (k : Labels) (v : Q) (before after : gmap Labels Histogram) : Prop :=
  Prom.series k after = Prom.observe_one v (Prom.series k before) /\
  forall r, r <> k -> Prom.series r after = Prom.series r before.

(** Exactly one of the two outcome counters went up by one, in the series
    of the route, chosen by the status of the response. *)
Definition classified_once (req : Request) (s s' : State) : Prop :=
  let route := route_label req in
  if is_success (statusCode (res s'))
  then bumped route (successRequests (registry s)) (successRequests (registry s')) /\
       untouched (errorRequests (registry s)) (errorRequests (registry s'))
  else bumped route (errorRequests (registry s)) (errorRequests (registry s')) /\
       untouched (successRequests (registry s)) (successRequests (registry s')).

(** One increment of the request counter, one observation and one line in
    the log file. *)
Definition recorded_once (env : Env) (req : Request) (s s' : State) : Prop :=
  let status := statusCode (res s') in
  let labels := finish_labels req status in
  bumped labels (httpRequests (registry s)) (httpRequests (registry s')) /\
  observed labels (duration (hrtime_start env) (hrtime_finish env))
           (httpDuration (registry s)) (httpDuration (registry s')) /\
  Fs.read (logFile s) (fs s')
  = (Fs.read (logFile s) (fs s) ++ log_line env req (hrtime_start env) status)%string.

(** The response of a GET to /work as the specification gives it: 500 with
    the error body on the failure branch, 200 with the delay otherwise. *)
Definition work_response (env : Env) (s' : State) : Prop :=
  if random_failure (random2 env)
  then statusCode (res s') = 500 /\
       res_body (res s')
       = Some (BJson (JObj [("ok", JBool false);
                            ("error", JStr "Random failure occurred")]))
  else statusCode (res s') = 200 /\
       res_body (res s')
       = Some (BJson (JObj [("ok", JBool true);
                            ("simulated_ms", JNum (inject_Z (simulated_ms (random1 env))))])).

(** A failing log write leaves the process running. *)
Definition write_failure_swallowed (env : Env) (req : Request) (s : State) : Prop :=
  proc (handle_request env req s) = Running.

Fixpoint chars (s : string) : list ascii :=
  match s with
  | EmptyString => []
  | String c s' => c :: chars s'
  end.

(** The text has no line break. *)
Definition plain (s : string) : Prop := ~ In JSString.newline (chars s).

(** The text is one line: it ends with its only line break. *)
Definition one_line (text : string) : Prop :=
  exists body, text = (body ++ String JSString.newline EmptyString)%string /\
               plain body.

Definition is_digit (c : ascii) : bool :=
  (48 <=? nat_of_ascii c)%nat && (nat_of_ascii c <=? 57)%nat.

(** [width] decimal digits. *)
Definition digits_field (width : nat) (s : string) : bool :=
  (String.length s =? width)%nat && forallb is_digit (chars s).

(** The shape [YYYY-MM-DDTHH:mm:ss.sssZ] of ISO 8601. *)
Definition iso8601_utc (text : string) : Prop :=
  exists Y M D h m s f : string,
    digits_field 4 Y = true /\ digits_field 2 M = true /\ digits_field 2 D = true /\
    digits_field 2 h = true /\ digits_field 2 m = true /\ digits_field 2 s = true /\
    digits_field 3 f = true /\
    text = (Y ++ String "-" (M ++ String "-" (D ++ String "T"
              (h ++ String ":" (m ++ String ":" (s ++ String "." (f ++ "Z")))))))%string.

(** The directory named by [LOGS_DIR], [/app/logs] when it is unset or
    empty. *)
Definition logs_dir_name (LOGS_DIR : option string) : string :=
  match LOGS_DIR with
  | Some d => if String.eqb d EmptyString then "/app/logs" else d
  | None => "/app/logs"
  end.

(** The text [s] between two double quotes, as it stands. *)
Definition in_quotes (s : string) : string :=
  String JSString.dquote (s ++ String JSString.dquote EmptyString).

(** A character that a JSON text carries as it is: no control character,
    no double quote, no backslash. *)
Definition verbatim_char (c : ascii) : bool :=
  (32 <=? nat_of_ascii c)%nat
  && negb (Ascii.eqb c JSString.dquote) && negb (Ascii.eqb c JSString.backslash).

Definition verbatim (s : string) : bool := forallb verbatim_char (chars s).

(** The JSON text of a log record, written out, from the texts of its four
    values. *)
Definition log_json (method route status duration_s : string) : string :=
  String "{"
    (in_quotes "method" ++ String ":"
       (method ++ String ","
          (in_quotes "route" ++ String ":"
             (route ++ String ","
                (in_quotes "status" ++ String ":"
                   (status ++ String ","
                      (in_quotes "duration_s" ++ String ":"
                         (duration_s ++ String "}" EmptyString)))))))).

(** The three decimal digits of a status code. *)
Definition three_digits (status : Z) : string :=
  String (JSString.digit_char (status / 100))
    (String (JSString.digit_char (status / 10 mod 10))
       (String (JSString.digit_char (status mod 10)) EmptyString)).

(** The same environment with a disk that takes the write. *)
Definition write_ok (env : Env) : Env :=
  {| hrtime_start := hrtime_start env; hrtime_finish := hrtime_finish env;
     random1 := random1 env; random2 := random2 env; now_ms := now_ms env;
     write_error := None; json_error := json_error env;
     headers_fresh := headers_fresh env |}.

(** ** Sample inputs *)

Module Sample.

Definition disk : FS := {| fs_dirs := ∅; fs_files := ∅ |}.

(** The state after start with [LOGS_DIR] unset on an empty disk. *)
Definition s0 : State :=
  default (initial_state disk [] Running) (start None [] disk).

Definition env (u1 u2 : Q) (werr : option string) : Env :=
  {| hrtime_start := 1000; hrtime_finish := 1235567;
     random1 := u1; random2 := u2;
     now_ms := 1704067200000;
     write_error := werr; json_error := None; headers_fresh := false |}.

Definition env_ok : Env := env (1 # 2) (1 # 2) None.

(** The draws of [env_ok] for a conditional GET whose validators match
    ([If-None-Match: *]). *)
Definition env_conditional : Env :=
  {| hrtime_start := 1000; hrtime_finish := 1235567;
     random1 := 1 # 2; random2 := 1 # 2;
     now_ms := 1704067200000;
     write_error := None; json_error := None; headers_fresh := true |}.
Definition env_fail : Env := env (1 # 2) (1 # 16) None.
Definition env_disk_full : Env := env (1 # 2) (1 # 2) (Some "ENOSPC").

Definition get (path : string) (d : Dispatch) : Request :=
  {| req_method := "GET"; req_path := Some path; req_dispatch := d |}.

(** A request whose JSON body is malformed. *)
Definition bad_body : Request :=
  {| req_method := "POST"; req_path := Some "/"; req_dispatch := Rejected 400 |}.

End Sample.

(** ** Vocabulary of the further properties *)

(** The request runs the finish callback: it is completed and the body
    parser let it through. *)
Definition recorded (env : Env) (req : Request) (s : State) : bool :=
  completed env req s && negb (rejected req).

(** No series of the counter went down. *)
Definition grows `{Countable K} (before after : gmap K Z) : Prop :=
  forall r, Prom.value r before <= Prom.value r after.

(** The sum of the weights of the series of an instrument. *)
Definition weighted `{Countable K} {A : Type} (w : K -> A -> Z) (m : gmap K A) : Z :=
  map_fold (fun k v acc => w k v + acc) 0 m.

(** The sum of all the series of a counter. *)
Definition total `{Countable K} (m : gmap K Z) : Z :=
  weighted (fun _ v => v) m.

(** The number of observations of all the series of the histogram. *)
Definition observations (m : gmap Labels Histogram) : Z :=
  weighted (fun _ h => hist_count h) m.

(** The sum of the series of the request counter whose route is [r]. *)
Definition route_total (r : string) (m : gmap Labels Z) : Z :=
  weighted (fun k v => if decide (snd (fst k) = r) then v else 0) m.

(** The number of line breaks of a text. *)
Fixpoint line_count (text : string) : Z :=
  match text with
  | EmptyString => 0
  | String c rest => (if Ascii.eqb c JSString.newline then 1 else 0) + line_count rest
  end.

(** The books of the registry: every request counted is counted once as a
    success or as an error, in total and route by route, and observed once
    by the histogram. *)
Definition balanced (r : Registry) : Prop :=
  total (httpRequests r) = total (successRequests r) + total (errorRequests r) /\
  observations (httpDuration r) = total (httpRequests r) /\
  forall route,
    route_total route (httpRequests r)
    = Prom.value route (successRequests r) + Prom.value route (errorRequests r).

(** Neither [.] nor [..] nor an empty name. *)
Definition clean_segment (seg : string) : Prop :=
  seg <> EmptyString /\ seg <> "."%string /\ seg <> ".."%string.

(** The disk [after] is the disk [before] with text appended to the file
    [p], and nothing else changed. *)
Definition appended_to (p : list string) (before after : FS) : Prop :=
  fs_dirs after = fs_dirs before /\
  (forall q, q <> p -> fs_files after !! q = fs_files before !! q) /\
  (is_Some (fs_files before !! p) -> is_Some (fs_files after !! p)) /\
  exists suffix, Fs.read p after = (Fs.read p before ++ suffix)%string.

(** The routes whose handler answers with [res.json]. *)
Definition answers_json (req : Request) : bool :=
  match req_route req with
  | Some RootRoute | Some WorkRoute | Some ErrorRoute => true
  | _ => false
  end.

(** [res.json] throws in the handler of the request. *)
Definition json_fails (env : Env) (req : Request) : bool :=
  answers_json req && bool_decide (is_Some (json_error env)).

(** The lines [request_finished] of the standard output. *)
Definition finished_lines (out : list (string * JSON * string)) : Z :=
  Z.of_nat (length (filter (fun e => snd e = "request_finished"%string) out)).

(** Two registries hold the same counts: the same counters, and in every
    series of the histogram the same bucket counts and the same number of
    observations.  The sums of the histogram are left out. *)
Definition same_counts (r1 r2 : Registry) : Prop :=
  httpRequests r1 = httpRequests r2 /\
  successRequests r1 = successRequests r2 /\
  errorRequests r1 = errorRequests r2 /\
  forall k,
    hist_buckets (Prom.series k (httpDuration r1))
    = hist_buckets (Prom.series k (httpDuration r2)) /\
    hist_count (Prom.series k (httpDuration r1))
    = hist_count (Prom.series k (httpDuration r2)).

(** ** More sample inputs *)

Module More.

(** A failing [GET /work], a [GET /] and a successful [GET /work]. *)
Definition mixed : list (Env * Request) :=
  [(Sample.env_fail, Sample.get "/work" (Matched WorkRoute));
   (Sample.env_ok, Sample.get "/" (Matched RootRoute));
   (Sample.env_ok, Sample.get "/work" (Matched WorkRoute))].

(** [res.json] throws. *)
Definition env_json_throws : Env :=
  {| hrtime_start := 1000; hrtime_finish := 1235567;
     random1 := 1 # 2; random2 := 1 # 2;
     now_ms := 1704067200000;
     write_error := None; json_error := Some "ERR_STREAM_DESTROYED";
     headers_fresh := false |}.

(** A request whose log write fails between two requests. *)
Definition crashing : list (Env * Request) :=
  [(Sample.env_ok, Sample.get "/" (Matched RootRoute));
   (Sample.env_disk_full, Sample.get "/error" (Matched ErrorRoute));
   (Sample.env_ok, Sample.get "/" (Matched RootRoute))].

(** A disk that holds a log of an earlier run and another file. *)
Definition used_disk : FS :=
  {| fs_dirs := {[ ["app"%string]; ["app"%string; "logs"%string] ]};
     fs_files := {[ ["app"%string; "logs"%string; "app.log"%string] := "old line"%string;
                    ["app"%string; "server.js"%string] := "code"%string ]} |}.

Definition s1 : State :=
  default (initial_state used_disk [] Running) (start None [] used_disk).

End More.

(** * Properties *)

(** ** Rounding to binary64 *)

Module Binary64Facts.
Import Binary64.
Local Open Scope Q_scope.

Lemma pow2_pos k : 0 < pow2 k.
Proof. unfold pow2. apply Qpower_0_lt. reflexivity. Qed.

Lemma pow2_add a b : pow2 (a + b) == pow2 a * pow2 b.
Proof. unfold pow2. apply Qpower_plus. discriminate. Qed.

Lemma pow2_sub a b : pow2 (a - b) == pow2 a / pow2 b.
Proof. unfold pow2. apply Qpower_minus. discriminate. Qed.

Lemma pow2_Z k : (0 <= k)%Z -> pow2 k == inject_Z (2 ^ k).
Proof. intros Hk. unfold pow2. rewrite Zpower_Qpower by assumption. reflexivity. Qed.

Lemma pow2_lt_inv a b : pow2 a < pow2 b -> (a < b)%Z.
Proof. intros H. apply (Qpower_lt_compat_l_inv 2); [exact H | reflexivity]. Qed.

Lemma log2_bounds (n : Z) :
(0 < n)%Z -> pow2 (Z.log2 n) <= inject_Z n < pow2 (Z.log2 n + 1).
Proof.
intros Hn. destruct (Z.log2_spec n Hn) as [Hlo Hhi].
assert (Hln := Z.log2_nonneg n).
rewrite !pow2_Z by lia.
split; [rewrite <- Zle_Qle; exact Hlo | rewrite <- Zlt_Qlt; exact Hhi].
Qed.

Lemma frac_le (x y n d : Q) :
0 < y -> 0 < d -> x * d <= n * y -> x / y <= n / d.
Proof.
intros Hy Hd H.
apply Qle_shift_div_l; [exact Hd |].
assert (E : x / y * d == x * d / y) by (field; lra). rewrite E.
apply Qle_shift_div_r; [exact Hy | exact H].
Qed.

Lemma frac_lt (x y n d : Q) :
0 < y -> 0 < d -> n * y < x * d -> n / d < x / y.
Proof.
intros Hy Hd H.
apply Qlt_shift_div_l; [exact Hy |].
assert (E : n / d * y == n * y / d) by (field; lra). rewrite E.
apply Qlt_shift_div_r; [exact Hd | exact H].
Qed.

(** The difference of the binary logarithms of numerator and denominator
  misses the binade by at most one. *)
Lemma binade_wide (n : Z) (d : positive) :
(0 < n)%Z ->
pow2 (Z.log2 n - Z.log2 (Zpos d) - 1) <= n # d /\
n # d < pow2 (Z.log2 n - Z.log2 (Zpos d) + 1).
Proof.
intros Hn.
destruct (log2_bounds n Hn) as [Hn1 Hn2].
destruct (log2_bounds (Zpos d) eq_refl) as [Hd1 Hd2].
assert (Hdpos : 0 < inject_Z (Zpos d)) by reflexivity.
assert (Hnpos : 0 < inject_Z n) by (rewrite Zlt_Qlt in Hn; exact Hn).
assert (Hp1 := pow2_pos (Z.log2 n)).
assert (Hp2 := pow2_pos (Z.log2 (Zpos d))).
assert (Hp3 := pow2_pos (Z.log2 (Zpos d) + 1)).
assert (Hp4 := pow2_pos (Z.log2 n + 1)).
rewrite (Qmake_Qdiv n d).
split.
- replace (Z.log2 n - Z.log2 (Zpos d) - 1)%Z
    with (Z.log2 n - (Z.log2 (Zpos d) + 1))%Z by lia.
  rewrite pow2_sub. apply frac_le; [assumption | assumption |]. nra.
- replace (Z.log2 n - Z.log2 (Zpos d) + 1)%Z
    with (Z.log2 n + 1 - Z.log2 (Zpos d))%Z by lia.
  rewrite pow2_sub. apply frac_lt; [assumption | assumption |]. nra.
Qed.

Lemma binade_spec (q : Q) :
0 < q -> pow2 (binade q) <= q /\ q < pow2 (binade q + 1).
Proof.
intros Hq. destruct q as [n d].
assert (Hn : (0 < n)%Z) by (unfold Qlt in Hq; simpl in Hq; lia).
destruct (binade_wide n d Hn) as [Hlo Hhi].
unfold binade. cbn [Qnum Qden].
destruct (Qle_bool (pow2 (Z.log2 n - Z.log2 (Zpos d))) (n # d)) eqn:Htest.
- apply Qle_bool_iff in Htest. split; assumption.
- split; [exact Hlo |].
  replace (Z.log2 n - Z.log2 (Zpos d) - 1 + 1)%Z
    with (Z.log2 n - Z.log2 (Zpos d))%Z by lia.
  apply Qnot_le_lt. intros Hle. apply Qle_bool_iff in Hle. congruence.
Qed.

Lemma rne_error (t : Q) : Qabs (inject_Z (rne t) - t) <= 1 # 2.
Proof.
assert (Hlo := Qfloor_le t). assert (Hhi := Qlt_floor t).
rewrite inject_Z_plus in Hhi. change (inject_Z 1) with 1 in Hhi.
apply Qabs_Qle_condition. unfold rne.
destruct (Qcompare_spec (t - inject_Z (Qfloor t)) (1 # 2)) as [He | Hl | Hg].
- destruct (Z.even (Qfloor t));
    [| rewrite inject_Z_plus; change (inject_Z 1) with 1]; split; lra.
- split; lra.
- rewrite inject_Z_plus. change (inject_Z 1) with 1. split; lra.
Qed.

Lemma rne_nonneg (t : Q) : 0 <= t -> (0 <= rne t)%Z.
Proof.
intros Ht. assert (H0 : (0 <= Qfloor t)%Z).
{ change 0%Z with (Qfloor 0). apply Qfloor_resp_le. exact Ht. }
unfold rne. destruct (Qcompare _ _); [destruct (Z.even _) | |]; lia.
Qed.

Lemma round_pos_eq (q : Q) : round_pos q == inject_Z (rne (q / ulp q)) * ulp q.
Proof. unfold round_pos. apply Qred_correct. Qed.

Lemma ulp_pos (q : Q) : 0 < ulp q.
Proof. apply pow2_pos. Qed.

Lemma ulp_le (q : Q) : 0 < q -> ulp q <= q * pow2 (-52).
Proof.
intros Hq. destruct (binade_spec q Hq) as [Hlo _].
unfold ulp, mantissa_bits.
replace (binade q - 52)%Z with (binade q + -52)%Z by lia.
rewrite pow2_add. apply Qmult_le_compat_r; [exact Hlo |].
apply Qlt_le_weak, pow2_pos.
Qed.

Lemma round_pos_error (q : Q) :
0 < q -> Qabs (round_pos q - q) <= q * pow2 (-53).
Proof.
intros Hq. assert (Hu := ulp_pos q). assert (Hle := ulp_le q Hq).
assert (He := rne_error (q / ulp q)).
apply Qabs_Qle_condition in He. apply Qabs_Qle_condition.
rewrite round_pos_eq.
set (m := inject_Z (rne (q / ulp q))) in *.
assert (Hq' : q == q / ulp q * ulp q) by (field; lra).
assert (H52 : pow2 (-52) == 2 * pow2 (-53)) by reflexivity.
set (t := q / ulp q) in *. set (u := ulp q) in *. set (p := pow2 (-53)) in *.
assert (Hp : 0 < p) by apply pow2_pos.
rewrite H52 in Hle.
split; nra.
Qed.

(** Rounding a non-negative value moves it by at most half a unit in the
  last place: a relative error of [2^-53]. *)
Lemma round_error (q : Q) : 0 <= q -> Qabs (round q - q) <= q * pow2 (-53).
Proof.
intros Hq. unfold round.
destruct (Qcompare_spec q 0) as [He | Hl | Hg].
- rewrite He. apply Qabs_Qle_condition. split; vm_compute; discriminate.
- lra.
- apply round_pos_error. exact Hg.
Qed.

Lemma round_nonneg (q : Q) : 0 <= q -> 0 <= round q.
Proof.
intros Hq. unfold round.
destruct (Qcompare_spec q 0) as [He | Hl | Hg]; [lra | lra |].
rewrite round_pos_eq.
apply Qmult_le_0_compat; [| apply Qlt_le_weak, ulp_pos].
change 0 with (inject_Z 0). rewrite <- Zle_Qle. apply rne_nonneg.
apply Qle_shift_div_l; [apply ulp_pos | lra].
Qed.

Lemma binade_half (u : Q) : 1 # 2 <= u -> u < 1 -> binade u = (-1)%Z.
Proof.
intros Hlo Hhi. assert (Hu : 0 < u) by lra.
destruct (binade_spec u Hu) as [H1 H2].
assert (Ha : pow2 (binade u) < pow2 0) by (change (pow2 0) with 1; lra).
assert (Hb : pow2 (-1) < pow2 (binade u + 1))
  by (change (pow2 (-1)) with (1 # 2); lra).
apply pow2_lt_inv in Ha, Hb. lia.
Qed.

(** The largest binary64 below one is [1 - 2^-53]. *)
Lemma representable_below_one (u : Q) :
representable u -> 0 <= u -> u < 1 -> u <= 1 - pow2 (-53).
Proof.
intros Hr H0 H1.
assert (Hp : pow2 (-53) == 1 # 9007199254740992) by reflexivity.
destruct (Qlt_le_dec u (1 # 2)) as [Hsmall | Hbig]; [rewrite Hp; lra |].
unfold representable, round in Hr.
destruct (Qcompare_spec u 0) as [He | Hl | Hg]; [lra | lra |].
rewrite round_pos_eq in Hr. unfold ulp in Hr.
rewrite (binade_half u Hbig H1) in Hr.
change (-1 - mantissa_bits)%Z with (-53)%Z in Hr.
set (m := rne (u / pow2 (-53))) in *.
rewrite Hp in Hr.
assert (HmQ : inject_Z m < 9007199254740992) by lra.
assert (Hm : (m < 9007199254740992)%Z) by (rewrite Zlt_Qlt; exact HmQ).
assert (Hm' : (m <= 9007199254740991)%Z) by lia.
rewrite Zle_Qle in Hm'.
change (inject_Z 9007199254740991) with 9007199254740991 in Hm'.
rewrite Hp. lra.
Qed.

End Binary64Facts.

(** ** Running the model *)

Ltac js_exec :=
  cbv [on_finish logToFile logStream_write emit_error logStream_error_listeners
       run_error_listeners bind ret throw get modify call logger try_catch try_finally
       span_setStatus span_end startActiveSpan res_status res_json res_on_finish send
       res_send req_fresh cacheable Z.leb Z.ltb Z.eqb Z.compare Pos.compare
       Pos.compare_cont Pos.eqb
       root_handler work_handler error_handler metrics_handler finalhandler
       with_registry with_fs with_stdout with_crash with_rejection with_res with_span
       with_call registry fs logFile stdout stderr proc rejections res span calls
       statusCode res_body res_finished res_listeners
       span_name span_status span_ended span_end_calls option_map
       fst snd new_exchange fresh_response status_of].

Ltac finish_cases env :=
  js_exec; destruct (is_success _); destruct (write_error env); reflexivity.

Lemma on_finish_registry env req start s :
  registry (snd (on_finish env req start s))
  = record req (statusCode (res s)) (duration start (hrtime_finish env)) (registry s).
Proof. unfold record. finish_cases env. Qed.

Lemma on_finish_calls env req start s :
  calls (snd (on_finish env req start s))
  = calls s ++ finish_calls env req start (statusCode (res s)).
Proof.
  unfold finish_calls, log_line, finish_labels. js_exec.
  destruct (is_success _); destruct (write_error env);
    rewrite <- !app_assoc; reflexivity.
Qed.

Lemma on_finish_res env req start s :
  res (snd (on_finish env req start s)) = res s.
Proof. finish_cases env. Qed.

Lemma on_finish_span env req start s :
  span (snd (on_finish env req start s)) = span s.
Proof. finish_cases env. Qed.

Lemma on_finish_logFile env req start s :
  logFile (snd (on_finish env req start s)) = logFile s.
Proof. finish_cases env. Qed.

Lemma on_finish_fs env req start s :
  fs (snd (on_finish env req start s))
  = match write_error env with
    | None => Fs.append (logFile s) (log_line env req start (statusCode (res s))) (fs s)
    | Some _ => fs s
    end.
Proof. unfold log_line. finish_cases env. Qed.

Lemma on_finish_proc env req start s :
  proc (snd (on_finish env req start s))
  = match write_error env with
    | None => proc s
    | Some err => Crashed err
    end.
Proof. finish_cases env. Qed.

Lemma on_finish_stderr env req start s :
  stderr (snd (on_finish env req start s))
  = match write_error env with
    | None => stderr s
    | Some err => stderr s ++ [err]
    end.
Proof. finish_cases env. Qed.

Ltac fresh_cases env req :=
  try (match goal with
       | |- context [conditional env req] => destruct (conditional env req)
       end).

Ltac handler_cases env req :=
  unfold handled, app, express_json, metrics_middleware, router, req_route, rejected;
  destruct (req_dispatch req) as [st | | []];
  js_exec;
  destruct (json_error env); try destruct (random_failure (random2 env));
  fresh_cases env req.

(** The handlers touch neither the registry nor the log file. *)
Lemma handled_frame env req s :
  registry (handled env req s) = registry s /\
  fs (handled env req s) = fs s /\
  logFile (handled env req s) = logFile s /\
  proc (handled env req s) = proc s /\
  stderr (handled env req s) = stderr s.
Proof. handler_cases env req; repeat split; reflexivity. Qed.

Lemma handled_calls env req s :
  exists pre,
    calls (handled env req s) = calls s ++ pre /\
    forallb (fun c => negb (is_telemetry c)) pre = true.
Proof.
  handler_cases env req; rewrite <- ?app_assoc;
    first [ eexists; split; [reflexivity | reflexivity]
          | exists []; split; [symmetry; apply app_nil_r | reflexivity] ].
Qed.

Lemma handled_listeners env req s :
  res_listeners (res (handled env req s))
  = if rejected req then [] else [MetricsOnFinish (hrtime_start env)].
Proof. handler_cases env req; reflexivity. Qed.

(** A request the body parser lets through runs the finish callback once,
    when its response ends; another request runs nothing after its
    handlers. *)
Lemma handle_request_eq env req s :
  proc s = Running ->
  handle_request env req s
  = if res_finished (res (handled env req s)) && negb (rejected req)
    then snd (on_finish env req (hrtime_start env) (handled env req s))
    else handled env req s.
Proof.
  intros Hrun. unfold handle_request. rewrite Hrun. cbv zeta.
  rewrite handled_listeners.
  destruct (res_finished _); [| reflexivity].
  destruct (rejected req); [reflexivity |].
  cbn [emit_finish run_listener andb negb]. unfold bind at 1.
  destruct (on_finish env req (hrtime_start env) (handled env req s)) as [[[]|err] s'];
    reflexivity.
Qed.

Lemma completed_handled env req s :
  completed env req s = true ->
  proc s = Running /\ res_finished (res (handled env req s)) = true.
Proof.
  unfold completed. destruct (proc s) eqn:Hrun; [| discriminate].
  rewrite handle_request_eq by exact Hrun.
  destruct (res_finished (res (handled env req s))) eqn:Hfin.
  - intros _. split; reflexivity.
  - cbn [andb]. rewrite Hfin. discriminate.
Qed.

(** What a request that is recorded leaves behind. *)
Lemma recorded_request env req s :
  completed env req s = true -> rejected req = false ->
  handle_request env req s
  = snd (on_finish env req (hrtime_start env) (handled env req s)) /\
  res (handle_request env req s) = res (handled env req s).
Proof.
  intros Hdone Hrej. destruct (completed_handled _ _ _ Hdone) as [Hrun Hfin].
  rewrite handle_request_eq by exact Hrun. rewrite Hfin, Hrej. cbn [andb negb].
  split; [reflexivity | apply on_finish_res].
Qed.

Lemma new_calls_app (s s' : State) (l : list Call) :
  calls s' = calls s ++ l -> new_calls s s' = l.
Proof. intros H. unfold new_calls. rewrite H. apply drop_app_length. Qed.

Lemma recorded_calls env req s :
  completed env req s = true -> rejected req = false ->
  exists pre,
    new_calls s (handle_request env req s)
    = pre ++ finish_calls env req (hrtime_start env)
               (statusCode (res (handle_request env req s))) /\
    forallb (fun c => negb (is_telemetry c)) pre = true.
Proof.
  intros Hdone Hrej. destruct (recorded_request _ _ _ Hdone Hrej) as [Heq Hres].
  destruct (handled_calls env req s) as [pre [Hpre Hquiet]].
  exists pre. split; [| exact Hquiet].
  apply new_calls_app. rewrite Hres. rewrite Heq at 1.
  rewrite on_finish_calls, Hpre, <- app_assoc. reflexivity.
Qed.

Lemma recorded_registry env req s :
  completed env req s = true -> rejected req = false ->
  registry (handle_request env req s)
  = record req (statusCode (res (handle_request env req s)))
           (duration (hrtime_start env) (hrtime_finish env)) (registry s).
Proof.
  intros Hdone Hrej. destruct (recorded_request _ _ _ Hdone Hrej) as [Heq Hres].
  destruct (handled_frame env req s) as [Hreg _].
  rewrite Hres. rewrite Heq at 1. rewrite on_finish_registry, Hreg. reflexivity.
Qed.

(** The calls of a request: those of its handlers, none of which touches
    the telemetry, then those of the finish callback if it runs, which it
    does for a completed request that the body parser let through. *)
Lemma request_calls env req s :
  exists pre,
    forallb (fun c => negb (is_telemetry c)) pre = true /\
    (new_calls s (handle_request env req s) = pre \/
     completed env req s = true /\ rejected req = false /\
     new_calls s (handle_request env req s)
     = pre ++ finish_calls env req (hrtime_start env)
                (statusCode (res (handle_request env req s)))).
Proof.
  destruct (proc s) eqn:Hrun.
  - destruct (res_finished (res (handled env req s)) && negb (rejected req)) eqn:Hrec.
    + apply andb_prop in Hrec as [Hfin Hrej].
      apply negb_true_iff in Hrej.
      assert (Hdone : completed env req s = true).
      { unfold completed. rewrite Hrun, handle_request_eq, Hfin, Hrej by exact Hrun.
        cbn [andb negb]. rewrite on_finish_res. exact Hfin. }
      destruct (recorded_calls _ _ _ Hdone Hrej) as [pre [Hnew Hquiet]].
      exists pre. split; [exact Hquiet | right]. repeat split; assumption.
    + destruct (handled_calls env req s) as [pre [Hpre Hquiet]].
      exists pre. split; [exact Hquiet | left].
      apply new_calls_app. rewrite handle_request_eq, Hrec by exact Hrun. exact Hpre.
  - exists []. split; [reflexivity | left].
    unfold handle_request. rewrite Hrun. unfold new_calls. apply drop_all.
Qed.

Lemma quiet_lookup (pre : list Call) (i : nat) (c : Call) :
  forallb (fun c => negb (is_telemetry c)) pre = true ->
  pre !! i = Some c -> is_telemetry c = false.
Proof.
  intros Hquiet Hi. rewrite forallb_forall in Hquiet.
  apply negb_true_iff, Hquiet, list_elem_of_In, (list_elem_of_lookup_2 _ i), Hi.
Qed.

(** A call on the registry or on the log stream is a call of the finish
    callback of a recorded request. *)
Lemma telemetry_in_finish env req s c :
  In c (new_calls s (handle_request env req s)) -> is_telemetry c = true ->
  completed env req s = true /\ rejected req = false /\
  In c (finish_calls env req (hrtime_start env)
          (statusCode (res (handle_request env req s)))).
Proof.
  intros Hin Htel.
  destruct (request_calls env req s) as [pre [Hquiet [Hnew | (Hdone & Hrej & Hnew)]]];
    rewrite Hnew in Hin.
  - rewrite forallb_forall in Hquiet. apply Hquiet in Hin.
    rewrite Htel in Hin. discriminate.
  - apply in_app_or in Hin as [Hin | Hin].
    + rewrite forallb_forall in Hquiet. apply Hquiet in Hin.
      rewrite Htel in Hin. discriminate.
    + repeat split; assumption.
Qed.

(** ** Counters and histograms *)

Lemma inc_bumped `{Countable K} (k : K) (m : gmap K Z) : bumped k m (Prom.inc k m).
Proof.
  intros r. unfold Prom.value, Prom.inc.
  destruct (decide (r = k)) as [-> | Hne].
  - rewrite lookup_insert_eq. reflexivity.
  - rewrite lookup_insert_ne by congruence. lia.
Qed.

Lemma untouched_refl `{Countable K} (m : gmap K Z) : untouched m m.
Proof. intros r. reflexivity. Qed.

Lemma observe_observed (k : Labels) (v : Q) (m : gmap Labels Histogram) :
  observed k v m (Prom.observe k v m).
Proof.
  unfold observed, Prom.series, Prom.observe. split.
  - rewrite lookup_insert_eq. reflexivity.
  - intros r Hne. rewrite lookup_insert_ne by congruence. reflexivity.
Qed.

(** ** The outcome counters *)

(** C2, as amended: for every completed request that the JSON body parser
    registered ahead of the middleware does not reject, the middleware
    increments exactly one of successRequests and errorRequests, in the
    series of the route label: successRequests when 200 <= status < 400,
    errorRequests otherwise; the other counter does not move. *)
Theorem completed_request_classified_once env req s :
  completed env req s = true -> rejected req = false ->
  classified_once req s (handle_request env req s).
Proof.
  intros Hdone Hrej. unfold classified_once. cbv zeta.
  rewrite (recorded_registry _ _ _ Hdone Hrej). unfold record.
  destruct (is_success (statusCode (res (handle_request env req s)))).
  - split; [apply inc_bumped | apply untouched_refl].
  - split; [apply inc_bumped | apply untouched_refl].
Qed.

Lemma completed_request_classified_once_witness :
  classified_once (Sample.get "/" (Matched RootRoute)) Sample.s0
    (handle_request Sample.env_ok (Sample.get "/" (Matched RootRoute)) Sample.s0).
Proof.
  apply completed_request_classified_once; vm_compute; reflexivity.
Defined.

(** C2 as stated fails: a request whose body the JSON parser rejects is
    completed with status 400 and neither counter moves. *)
Lemma rejected_body_not_classified :
  completed Sample.env_ok Sample.bad_body Sample.s0 = true /\
  ~ classified_once Sample.bad_body Sample.s0
      (handle_request Sample.env_ok Sample.bad_body Sample.s0).
Proof.
  split; [vm_compute; reflexivity |].
  unfold classified_once. cbv zeta.
  replace (statusCode (res (handle_request Sample.env_ok Sample.bad_body Sample.s0)))
    with 400 by (vm_compute; reflexivity).
  cbn [is_success Z.leb Z.ltb andb Z.compare Pos.compare Pos.compare_cont].
  intros [Hbump _]. specialize (Hbump "/"%string).
  vm_compute in Hbump. discriminate.
Qed.

(** ** One record per request *)

Lemma read_append (p : list string) (chunk : string) (d : FS) :
  Fs.read p (Fs.append p chunk d) = (Fs.read p d ++ chunk)%string.
Proof. unfold Fs.read, Fs.append. cbn [fs_files]. rewrite lookup_insert_eq. reflexivity. Qed.

Lemma quiet_filter (pre : list Call) :
  forallb (fun c => negb (is_telemetry c)) pre = true ->
  filter (fun c => is_telemetry c = true) pre = [].
Proof.
  induction pre as [| c pre IH]; [reflexivity |].
  cbn [forallb]. intros H. apply andb_prop in H as [Hc Hpre].
  rewrite filter_cons. destruct (decide (is_telemetry c = true)) as [Ht | _].
  - rewrite Ht in Hc. discriminate.
  - apply IH, Hpre.
Qed.

Lemma finish_calls_telemetry env req start status :
  filter (fun c => is_telemetry c = true) (finish_calls env req start status)
  = [CCounterInc "app_http_requests_total" (labels_list (finish_labels req status));
     CHistogramObserve "app_http_request_duration_seconds"
       (labels_list (finish_labels req status)) (duration start (hrtime_finish env));
     (if is_success status
      then CCounterInc "app_http_success_total" [route_label req]
      else CCounterInc "app_http_error_total" [route_label req]);
     CLogStreamWrite (log_line env req start status)].
Proof. unfold finish_calls. destruct (is_success status); reflexivity. Qed.

(** C3, as amended: every completed request that the JSON body parser does
    not reject produces exactly one increment of the request counter and
    exactly one histogram observation, both labelled (method, route,
    status_code), and exactly one write to the log stream, after one
    increment of an outcome counter; the write appends exactly its one
    line to the log file when it does not fail. *)
Theorem completed_request_recorded_once env req s :
  completed env req s = true -> rejected req = false ->
  let s' := handle_request env req s in
  let status := statusCode (res s') in
  let labels := finish_labels req status in
  let delta := duration (hrtime_start env) (hrtime_finish env) in
  bumped labels (httpRequests (registry s)) (httpRequests (registry s')) /\
  observed labels delta (httpDuration (registry s)) (httpDuration (registry s')) /\
  filter (fun c => is_telemetry c = true) (new_calls s s')
  = [CCounterInc "app_http_requests_total" (labels_list labels);
     CHistogramObserve "app_http_request_duration_seconds" (labels_list labels) delta;
     (if is_success status
      then CCounterInc "app_http_success_total" [route_label req]
      else CCounterInc "app_http_error_total" [route_label req]);
     CLogStreamWrite (log_line env req (hrtime_start env) status)] /\
  (write_error env = None -> recorded_once env req s s').
Proof.
  intros Hdone Hrej. cbv zeta.
  assert (Hreg := recorded_registry _ _ _ Hdone Hrej).
  assert (Hbump : bumped (finish_labels req (statusCode (res (handle_request env req s))))
                    (httpRequests (registry s))
                    (httpRequests (registry (handle_request env req s)))).
  { rewrite Hreg. unfold record. destruct (is_success _); apply inc_bumped. }
  assert (Hobs : observed (finish_labels req (statusCode (res (handle_request env req s))))
                   (duration (hrtime_start env) (hrtime_finish env))
                   (httpDuration (registry s))
                   (httpDuration (registry (handle_request env req s)))).
  { rewrite Hreg. unfold record. destruct (is_success _); apply observe_observed. }
  split; [exact Hbump |]. split; [exact Hobs |]. split.
  - destruct (recorded_calls _ _ _ Hdone Hrej) as [pre [Hnew Hquiet]].
    rewrite Hnew, filter_app, (quiet_filter _ Hquiet), finish_calls_telemetry.
    reflexivity.
  - intros Hwrite. unfold recorded_once. cbv zeta.
    split; [exact Hbump |]. split; [exact Hobs |].
    destruct (recorded_request _ _ _ Hdone Hrej) as [Heq Hres].
    destruct (handled_frame env req s) as (_ & Hfs & Hfile & _).
    rewrite Hres. rewrite Heq at 1.
    rewrite on_finish_fs, Hwrite, Hfile, Hfs. apply read_append.
Qed.

Lemma completed_request_recorded_once_witness :
  recorded_once Sample.env_ok (Sample.get "/" (Matched RootRoute)) Sample.s0
    (handle_request Sample.env_ok (Sample.get "/" (Matched RootRoute)) Sample.s0).
Proof.
  apply (completed_request_recorded_once Sample.env_ok
           (Sample.get "/" (Matched RootRoute)) Sample.s0);
    vm_compute; reflexivity.
Defined.

(** C3 as stated fails: a request whose body the JSON parser rejects is
    completed and the request counter does not move. *)
Lemma rejected_body_not_recorded :
  completed Sample.env_ok Sample.bad_body Sample.s0 = true /\
  ~ recorded_once Sample.env_ok Sample.bad_body Sample.s0
      (handle_request Sample.env_ok Sample.bad_body Sample.s0).
Proof.
  split; [vm_compute; reflexivity |].
  intros [Hbump _].
  specialize (Hbump ("POST", "/", "400")%string).
  vm_compute in Hbump. discriminate.
Qed.

(** ** Order of the finish callback *)

(** The finish callback ends with the write to the log stream, issued in
    a state in which the registry holds the record of the request, the
    line of the standard output has been logged and the log file has not
    been touched. *)
Lemma on_finish_at_write env req start s :
  exists s_w,
    snd (on_finish env req start s)
    = snd (logStream_write env (log_line env req start (statusCode (res s))) s_w) /\
    registry s_w
    = record req (statusCode (res s)) (duration start (hrtime_finish env)) (registry s) /\
    calls s_w = calls s ++ removelast (finish_calls env req start (statusCode (res s))) /\
    fs s_w = fs s /\
    res s_w = res s.
Proof.
  exists {| registry := record req (statusCode (res s)) (duration start (hrtime_finish env))
                          (registry s);
            fs := fs s; logFile := logFile s;
            stdout := stdout s ++ [("info"%string,
                                    logEntry (req_method req) (route_label req)
                                      (statusCode (res s))
                                      (duration start (hrtime_finish env)),
                                    "request_finished"%string)];
            stderr := stderr s; proc := proc s; rejections := rejections s;
            res := res s; span := span s;
            calls := calls s
                     ++ removelast (finish_calls env req start (statusCode (res s))) |}.
  split; [| repeat split].
  unfold record, finish_calls, log_line, finish_labels. cbn [removelast]. js_exec.
  destruct (is_success _); destruct (write_error env);
    rewrite <- !app_assoc; reflexivity.
Qed.

(** C4: within the calls of one request, a write to the log stream comes
    after the increment of the request counter, the histogram observation
    and the increment of the outcome counter of that request, in this
    order, and after every call on the registry; and the write is the last
    step of the request, issued in a state that every earlier call of the
    request has led to, in which the registry already holds the request
    (its series of the request counter and its outcome counter are up by
    one, the histogram has taken its duration, and the registry does not
    change afterwards) and the log file is still as it was: no line is
    written for a request whose metrics have not been recorded. *)
Theorem registry_updates_before_log_write env req s j chunk :
  let s' := handle_request env req s in
  let status := statusCode (res s') in
  let labels := labels_list (finish_labels req status) in
  new_calls s s' !! j = Some (CLogStreamWrite chunk) ->
  (exists i1 i2 i3,
     (i1 < i2 < i3)%nat /\ (i3 < j)%nat /\
     new_calls s s' !! i1 = Some (CCounterInc "app_http_requests_total" labels) /\
     new_calls s s' !! i2
     = Some (CHistogramObserve "app_http_request_duration_seconds" labels
               (duration (hrtime_start env) (hrtime_finish env))) /\
     new_calls s s' !! i3
     = Some (if is_success status
             then CCounterInc "app_http_success_total" [route_label req]
             else CCounterInc "app_http_error_total" [route_label req])) /\
  (forall i c, new_calls s s' !! i = Some c -> is_registry_call c = true -> (i < j)%nat) /\
  (exists s_w,
     s' = snd (logStream_write env chunk s_w) /\
     new_calls s s_w = take j (new_calls s s') /\
     fs s_w = fs s /\
     registry s' = registry s_w /\
     bumped (finish_labels req status)
            (httpRequests (registry s)) (httpRequests (registry s_w)) /\
     observed (finish_labels req status) (duration (hrtime_start env) (hrtime_finish env))
              (httpDuration (registry s)) (httpDuration (registry s_w)) /\
     if is_success status
     then bumped (route_label req)
                 (successRequests (registry s)) (successRequests (registry s_w)) /\
          untouched (errorRequests (registry s)) (errorRequests (registry s_w))
     else bumped (route_label req)
                 (errorRequests (registry s)) (errorRequests (registry s_w)) /\
          untouched (successRequests (registry s)) (successRequests (registry s_w))).
Proof.
  cbv zeta. intros Hj.
  destruct (request_calls env req s) as [pre [Hquiet [Hnew | (Hdone & Hrej & Hnew)]]].
  { rewrite Hnew in Hj. apply (quiet_lookup _ _ _ Hquiet) in Hj. discriminate. }
  assert (Hjpos : j = (length pre + 4)%nat).
  { rewrite Hnew in Hj. destruct (decide (j < length pre)%nat) as [Hlt | Hge].
    - rewrite lookup_app_l in Hj by exact Hlt.
      apply (quiet_lookup _ _ _ Hquiet) in Hj. discriminate.
    - rewrite lookup_app_r in Hj by lia.
      unfold finish_calls in Hj.
      destruct (j - length pre)%nat as [| [| [| [| [| k]]]]] eqn:Hk;
        cbn in Hj; try discriminate; try lia.
      destruct (is_success _); discriminate. }
  subst j.
  assert (Hchunk : chunk = log_line env req (hrtime_start env)
                             (statusCode (res (handle_request env req s)))).
  { rewrite Hnew, lookup_app_r in Hj by lia.
    replace (length pre + 4 - length pre)%nat with 4%nat in Hj by lia.
    cbn in Hj. injection Hj as <-. reflexivity. }
  split; [| split].
  - rewrite Hnew.
    exists (length pre), (length pre + 1)%nat, (length pre + 2)%nat.
    repeat split; try lia.
    + rewrite lookup_app_r by lia. replace (length pre - length pre)%nat with 0%nat by lia.
      reflexivity.
    + rewrite lookup_app_r by lia.
      replace (length pre + 1 - length pre)%nat with 1%nat by lia. reflexivity.
    + rewrite lookup_app_r by lia.
      replace (length pre + 2 - length pre)%nat with 2%nat by lia. reflexivity.
  - rewrite Hnew. intros i c Hi Hc.
    destruct (decide (i < length pre)%nat) as [Hlt | Hge]; [lia |].
    rewrite lookup_app_r in Hi by lia.
    destruct (i - length pre)%nat as [| [| [| [| [| k]]]]] eqn:Hk;
      cbn in Hi; try lia; try discriminate.
    injection Hi as <-. discriminate.
  - destruct (recorded_request _ _ _ Hdone Hrej) as [Heq Hres].
    destruct (handled_frame env req s) as (Hreg & Hfs & _).
    destruct (on_finish_at_write env req (hrtime_start env) (handled env req s))
      as (s_w & Hlast & Hrec & Hcalls & Hfs_w & _).
    rewrite <- Hres in Hlast, Hrec, Hcalls. rewrite <- Heq, <- Hchunk in Hlast.
    rewrite Hreg in Hrec.
    assert (Hcalls' : calls (handle_request env req s)
                      = calls (handled env req s)
                        ++ finish_calls env req (hrtime_start env)
                             (statusCode (res (handle_request env req s)))).
    { rewrite Hres. rewrite Heq at 1. apply on_finish_calls. }
    assert (Hpre : calls (handled env req s) = calls s ++ pre).
    { unfold new_calls in Hnew. rewrite Hcalls' in Hnew.
      destruct (handled_calls env req s) as (pre' & Hpre' & _).
      rewrite Hpre', <- app_assoc, drop_app_length in Hnew.
      apply app_inv_tail in Hnew. rewrite Hpre', Hnew. reflexivity. }
    exists s_w. split; [exact Hlast |]. split.
    { rewrite Hnew. unfold new_calls.
      rewrite Hcalls, Hpre, <- app_assoc, drop_app_length.
      rewrite take_app_add'; [| reflexivity]. reflexivity. }
    split; [rewrite Hfs_w; exact Hfs |].
    split; [rewrite Hrec; apply recorded_registry; assumption |].
    rewrite Hrec. unfold record.
    destruct (is_success (statusCode (res (handle_request env req s))));
      cbn [httpRequests successRequests errorRequests httpDuration
           inc_successRequests inc_errorRequests observe_httpDuration inc_httpRequests];
      (split; [apply inc_bumped |]); (split; [apply observe_observed |]);
      split; first [apply inc_bumped | apply untouched_refl].
Qed.

Lemma registry_updates_before_log_write_witness :
  new_calls Sample.s0
    (handle_request Sample.env_ok (Sample.get "/" (Matched RootRoute)) Sample.s0) !! 8%nat
  = Some (CLogStreamWrite
            (log_line Sample.env_ok (Sample.get "/" (Matched RootRoute)) 1000 200)) /\
  new_calls Sample.s0
    (handle_request Sample.env_ok (Sample.get "/" (Matched RootRoute)) Sample.s0) !! 6%nat
  = Some (CCounterInc "app_http_success_total" ["/"%string]) /\
  (6 < 8)%nat.
Proof.
  assert (Hwrite :
    new_calls Sample.s0
      (handle_request Sample.env_ok (Sample.get "/" (Matched RootRoute)) Sample.s0) !! 8%nat
    = Some (CLogStreamWrite
              (log_line Sample.env_ok (Sample.get "/" (Matched RootRoute)) 1000 200)))
    by (vm_compute; reflexivity).
  assert (Hinc :
    new_calls Sample.s0
      (handle_request Sample.env_ok (Sample.get "/" (Matched RootRoute)) Sample.s0) !! 6%nat
    = Some (CCounterInc "app_http_success_total" ["/"%string]))
    by (vm_compute; reflexivity).
  split; [exact Hwrite |]. split; [exact Hinc |].
  exact (proj1 (proj2 (registry_updates_before_log_write Sample.env_ok
                         (Sample.get "/" (Matched RootRoute)) Sample.s0 8 _ Hwrite))
           6%nat _ Hinc eq_refl).
Defined.

(** ** Spans *)

(** What [GET /work] leaves when the failure branch is taken and the
    response can be sent. *)
Lemma work_failure_run env req s :
  proc s = Running -> req_dispatch req = Matched WorkRoute ->
  json_error env = None -> random_failure (random2 env) = true ->
  handle_request env req s
  = snd (on_finish env req (hrtime_start env) (handled env req s)) /\
  calls (handled env req s)
  = calls s ++
    [CStartSpan "work_route"; CSetTimeout (simulated_ms (random1 env));
     CLogger "warn" (JObj [("path", JStr "/work"); ("reason", JStr "random_failure")])
       "simulated_error";
     CSetStatus (status_of ERROR (Some "Random failure")); CSpanEnd;
     CResStatus 500;
     CResJson (JObj [("ok", JBool false); ("error", JStr "Random failure occurred")]);
     CSpanEnd] /\
  span (handled env req s)
  = Some {| span_name := "work_route";
            span_status := status_of ERROR (Some "Random failure");
            span_ended := true; span_end_calls := 2 |} /\
  res (handled env req s)
  = {| statusCode := 500;
       res_body := Some (BJson (JObj [("ok", JBool false);
                                      ("error", JStr "Random failure occurred")]));
       res_finished := true;
       res_listeners := [MetricsOnFinish (hrtime_start env)] |}.
Proof.
  intros Hrun Hroute Hjson Hfail.
  assert (Hcalls_res :
    calls (handled env req s)
    = calls s ++
      [CStartSpan "work_route"; CSetTimeout (simulated_ms (random1 env));
       CLogger "warn" (JObj [("path", JStr "/work"); ("reason", JStr "random_failure")])
         "simulated_error";
       CSetStatus (status_of ERROR (Some "Random failure")); CSpanEnd;
       CResStatus 500;
       CResJson (JObj [("ok", JBool false); ("error", JStr "Random failure occurred")]);
       CSpanEnd] /\
    span (handled env req s)
    = Some {| span_name := "work_route";
              span_status := status_of ERROR (Some "Random failure");
              span_ended := true; span_end_calls := 2 |} /\
    res (handled env req s)
    = {| statusCode := 500;
         res_body := Some (BJson (JObj [("ok", JBool false);
                                        ("error", JStr "Random failure occurred")]));
         res_finished := true;
         res_listeners := [MetricsOnFinish (hrtime_start env)] |}).
  { unfold handled, app, express_json, metrics_middleware, router, req_route.
    rewrite Hroute. js_exec. rewrite Hjson, Hfail. js_exec.
    rewrite <- !app_assoc. repeat split; reflexivity. }
  split; [| exact Hcalls_res].
  destruct Hcalls_res as (_ & _ & Hres).
  rewrite handle_request_eq by exact Hrun.
  unfold rejected. rewrite Hroute, Hres. reflexivity.
Qed.

(** C1 fails on the failure branch of [GET /work]: the branch calls
    [span.end()] itself and returns inside the [try] block, whose [finally]
    calls [span.end()] again; one [startActiveSpan] is followed by two
    calls of [end()]. *)
Theorem work_failure_ends_span_twice env req s :
  proc s = Running -> req_dispatch req = Matched WorkRoute ->
  json_error env = None -> random_failure (random2 env) = true ->
  let s' := handle_request env req s in
  count is_span_start (new_calls s s') = 1%nat /\
  count is_span_end (new_calls s s') = 2%nat /\
  option_map span_end_calls (span s') = Some 2%nat.
Proof.
  intros Hrun Hroute Hjson Hfail. cbv zeta.
  destruct (work_failure_run env req s Hrun Hroute Hjson Hfail)
    as (Heq & Hcalls & Hspan & Hres).
  assert (Hnew : new_calls s (handle_request env req s)
                 = [CStartSpan "work_route"; CSetTimeout (simulated_ms (random1 env));
                    CLogger "warn"
                      (JObj [("path", JStr "/work"); ("reason", JStr "random_failure")])
                      "simulated_error";
                    CSetStatus (status_of ERROR (Some "Random failure")); CSpanEnd;
                    CResStatus 500;
                    CResJson (JObj [("ok", JBool false);
                                    ("error", JStr "Random failure occurred")]);
                    CSpanEnd]
                   ++ finish_calls env req (hrtime_start env) 500).
  { apply new_calls_app. rewrite Heq, on_finish_calls, Hcalls, Hres, <- app_assoc.
    reflexivity. }
  rewrite Hnew, Heq, on_finish_span, Hspan. unfold finish_calls.
  repeat split.
Qed.

Lemma work_failure_ends_span_twice_witness :
  count is_span_end
    (new_calls Sample.s0
       (handle_request Sample.env_fail (Sample.get "/work" (Matched WorkRoute)) Sample.s0))
  = 2%nat.
Proof.
  apply (work_failure_ends_span_twice Sample.env_fail
           (Sample.get "/work" (Matched WorkRoute)) Sample.s0);
    vm_compute; reflexivity.
Defined.

(** On the other branch of [GET /work] the span is ended once, by the
    [finally] block alone. *)
Lemma work_success_ends_span_once env req s :
  proc s = Running -> req_dispatch req = Matched WorkRoute ->
  json_error env = None -> random_failure (random2 env) = false ->
  option_map span_end_calls (span (handled env req s)) = Some 1%nat.
Proof.
  intros Hrun Hroute Hjson Hfail.
  unfold handled, app, express_json, metrics_middleware, router, req_route.
  rewrite Hroute. js_exec. rewrite Hjson, Hfail. js_exec. reflexivity.
Qed.

(** [GET /] and [GET /error] call [span.end()] on the straight path only:
    when [res.json] throws, the span they opened is never ended. *)
Lemma root_throw_leaves_span_open env req s err :
  proc s = Running -> req_dispatch req = Matched RootRoute ->
  json_error env = Some err ->
  option_map span_end_calls (span (handle_request env req s)) = Some 0%nat /\
  count is_span_end (new_calls s (handle_request env req s)) = 0%nat.
Proof.
  intros Hrun Hroute Hjson.
  unfold handle_request; rewrite Hrun.
  unfold new_calls, handled, app, express_json, metrics_middleware, router, req_route.
  rewrite Hroute. js_exec. rewrite Hjson. js_exec.
  split; [reflexivity |].
  rewrite <- !app_assoc, drop_app_length. reflexivity.
Qed.

(** ** The demonstration routes *)

Lemma pow2_53 : (Binary64.pow2 (-53) == 1 # 9007199254740992)%Q.
Proof. reflexivity. Qed.

(** [Math.floor(Math.random() * 500)] is an integer of [[0, 500)]: the
    product of the largest binary64 below one with 500 still rounds below
    500. *)
Lemma simulated_ms_range (u : Q) :
  Binary64.representable u -> (0 <= u)%Q -> (u < 1)%Q ->
  0 <= simulated_ms u < 500.
Proof.
  intros Hrep H0 H1.
  assert (Hmax := Binary64Facts.representable_below_one u Hrep H0 H1).
  assert (Hx : (0 <= u * inject_Z 500)%Q).
  { change (inject_Z 500) with 500%Q. lra. }
  assert (Herr := Binary64Facts.round_error _ Hx).
  assert (Hnn := Binary64Facts.round_nonneg _ Hx).
  apply Qabs_Qle_condition in Herr.
  rewrite pow2_53 in Herr, Hmax.
  change (inject_Z 500) with 500%Q in *.
  unfold simulated_ms, Binary64.floor, Binary64.mul.
  change (inject_Z 500) with 500%Q.
  set (r := Binary64.round (u * 500)) in *.
  split.
  - change 0 with (Qfloor 0). apply Qfloor_resp_le. exact Hnn.
  - assert (Hr : (r < 500)%Q) by nra.
    assert (Hf := Qfloor_le r).
    assert (Hlt : (inject_Z (Qfloor r) < inject_Z 500)%Q).
    { change (inject_Z 500) with 500%Q. lra. }
    rewrite <- Zlt_Qlt in Hlt. exact Hlt.
Qed.

(** The integer is the integer part of [500 * u], up to the rounding of
    the product. *)
Lemma simulated_ms_near (u : Q) :
  (0 <= u)%Q ->
  (inject_Z (simulated_ms u) <= 500 * u * (1 + Binary64.pow2 (-53)) /\
   500 * u * (1 - Binary64.pow2 (-53)) < inject_Z (simulated_ms u) + 1)%Q.
Proof.
  intros H0.
  assert (Hx : (0 <= u * inject_Z 500)%Q).
  { change (inject_Z 500) with 500%Q. lra. }
  assert (Herr := Binary64Facts.round_error _ Hx).
  apply Qabs_Qle_condition in Herr.
  unfold simulated_ms, Binary64.floor, Binary64.mul.
  change (inject_Z 500) with 500%Q in *.
  set (r := Binary64.round (u * 500)) in *.
  assert (Hlo := Qfloor_le r). assert (Hhi := Qlt_floor r).
  rewrite inject_Z_plus in Hhi. change (inject_Z 1) with 1%Q in Hhi.
  split; lra.
Qed.

(** The draws whose scaled value lies in [[m, m + 1)], a relative margin of
    [2^-52] apart from its ends, all give [m]. *)
Lemma simulated_ms_interval (u : Q) (m : Z) :
  0 <= m ->
  (inject_Z m * (1 + Binary64.pow2 (-52)) <= 500 * u)%Q ->
  (500 * u <= (inject_Z m + 1) * (1 - Binary64.pow2 (-52)))%Q ->
  simulated_ms u = m.
Proof.
  intros Hm Hlo Hhi.
  assert (Hp : (Binary64.pow2 (-52) == 1 # 4503599627370496)%Q) by reflexivity.
  rewrite Hp in Hlo, Hhi.
  assert (HmQ : (0 <= inject_Z m)%Q).
  { change 0%Q with (inject_Z 0). rewrite <- Zle_Qle. exact Hm. }
  assert (Hx : (0 <= u * inject_Z 500)%Q).
  { change (inject_Z 500) with 500%Q. lra. }
  assert (Herr := Binary64Facts.round_error _ Hx).
  apply Qabs_Qle_condition in Herr. rewrite pow2_53 in Herr.
  unfold simulated_ms, Binary64.floor, Binary64.mul.
  change (inject_Z 500) with 500%Q in *.
  set (r := Binary64.round (u * 500)) in *.
  assert (Hr : (inject_Z m <= r /\ r < inject_Z m + 1)%Q) by (split; lra).
  destruct Hr as [Hr1 Hr2].
  assert (H1 : m <= Qfloor r).
  { rewrite <- (Qfloor_Z m). apply Qfloor_resp_le. exact Hr1. }
  assert (H2 : Qfloor r < m + 1).
  { rewrite Zlt_Qlt, inject_Z_plus. change (inject_Z 1) with 1%Q.
    assert (Hf := Qfloor_le r). lra. }
  lia.
Qed.

(** The test [Math.random() < 0.1] compares with the binary64 nearest to
    one tenth. *)
Lemma random_failure_iff (u : Q) :
  random_failure u = true <-> (u < 3602879701896397 # 36028797018963968)%Q.
Proof.
  unfold random_failure, Binary64.Qltb.
  change (Binary64.literal (1 # 10)) with (3602879701896397 # 36028797018963968)%Q.
  rewrite negb_true_iff. split.
  - intros Hb. apply Qnot_le_lt. intros Hle. apply Qle_bool_iff in Hle. congruence.
  - intros Hlt. destruct (Qle_bool _ u) eqn:Hb; [| reflexivity].
    apply Qle_bool_iff in Hb. lra.
Qed.

Lemma tenth_literal_near :
  (Qabs ((3602879701896397 # 36028797018963968) - (1 # 10)) < 1 # 100000000000000000)%Q.
Proof. reflexivity. Qed.

Lemma conditional_get env req :
  req_method req = "GET"%string -> conditional env req = headers_fresh env.
Proof. intros Hget. unfold conditional. rewrite Hget. reflexivity. Qed.

(** C5 as stated fails: a conditional GET to /work whose validators match
    ([If-None-Match: *]) is answered 304 with no body on the success
    branch, not 200 with the delay. *)
Lemma conditional_work_not_200 :
  req_method (Sample.get "/work" (Matched WorkRoute)) = "GET"%string /\
  random_failure (random2 Sample.env_conditional) = false /\
  ~ work_response Sample.env_conditional
      (handle_request Sample.env_conditional (Sample.get "/work" (Matched WorkRoute))
         Sample.s0).
Proof.
  split; [reflexivity |]. split; [reflexivity |].
  unfold work_response. change (random_failure (random2 Sample.env_conditional)) with false.
  cbv iota. intros [Hstatus _]. vm_compute in Hstatus. discriminate.
Qed.

(** C5, as amended: a GET dispatched to /work sleeps [ms = floor(u1 * 500)]
    milliseconds, an integer of [0, 500) determined by the first draw [u1]
    of [Math.random()]; when the second draw [u2] is below 0.1 it responds
    500 with body {ok:false, error:"Random failure occurred"} and sets the
    span status to ERROR with message "Random failure"; otherwise it sets
    the span status to OK and responds 200 with body {ok:true,
    simulated_ms: ms}, the same [ms], unless the GET is conditional and
    its validators match the response, in which case [res.json] answers
    304 with no body.  The draws are uniform on [0, 1): the threshold, the
    binary64 nearest to 1/10, is the probability of the failure branch,
    and the draws that give a value [m] are those of
    [[m/500, (m+1)/500)], an interval of length 1/500, up to a relative
    margin of [2^-52] at its ends. *)
Theorem work_route_behaviour env req s :
  proc s = Running -> req_dispatch req = Matched WorkRoute ->
  req_method req = "GET"%string ->
  json_error env = None ->
  Binary64.representable (random1 env) ->
  (0 <= random1 env)%Q -> (random1 env < 1)%Q ->
  let s' := handle_request env req s in
  let ms := simulated_ms (random1 env) in
  0 <= ms < 500 /\
  (inject_Z ms <= 500 * random1 env * (1 + Binary64.pow2 (-53)) /\
   500 * random1 env * (1 - Binary64.pow2 (-53)) < inject_Z ms + 1)%Q /\
  (forall m,
     0 <= m ->
     (inject_Z m * (1 + Binary64.pow2 (-52)) <= 500 * random1 env)%Q ->
     (500 * random1 env <= (inject_Z m + 1) * (1 - Binary64.pow2 (-52)))%Q ->
     ms = m) /\
  In (CSetTimeout ms) (new_calls s s') /\
  (random_failure (random2 env) = true
   <-> (random2 env < 3602879701896397 # 36028797018963968)%Q) /\
  (Qabs ((3602879701896397 # 36028797018963968) - (1 # 10)) < 1 # 100000000000000000)%Q /\
  (headers_fresh env = false -> work_response env s') /\
  if random_failure (random2 env)
  then statusCode (res s') = 500 /\
       res_body (res s')
       = Some (BJson (JObj [("ok", JBool false);
                            ("error", JStr "Random failure occurred")])) /\
       option_map span_status (span s')
       = Some (status_of ERROR (Some "Random failure"))
  else option_map span_status (span s') = Some (status_of OK None) /\
       if headers_fresh env
       then statusCode (res s') = 304 /\ res_body (res s') = Some BEmpty
       else statusCode (res s') = 200 /\
            res_body (res s')
            = Some (BJson (JObj [("ok", JBool true);
                                 ("simulated_ms", JNum (inject_Z ms))])).
Proof.
  intros Hrun Hroute Hget Hjson Hrep H0 H1. cbv zeta.
  split; [apply simulated_ms_range; assumption |].
  split; [apply simulated_ms_near; assumption |].
  split; [intros m; apply simulated_ms_interval |].
  assert (Hrej : rejected req = false) by (unfold rejected; rewrite Hroute; reflexivity).
  assert (Hrun' :
    res_finished (res (handled env req s)) = true /\
    (exists post, calls (handled env req s)
                  = calls s ++ CStartSpan "work_route"
                      :: CSetTimeout (simulated_ms (random1 env)) :: post) /\
    if random_failure (random2 env)
    then statusCode (res (handled env req s)) = 500 /\
         res_body (res (handled env req s))
         = Some (BJson (JObj [("ok", JBool false);
                              ("error", JStr "Random failure occurred")])) /\
         option_map span_status (span (handled env req s))
         = Some (status_of ERROR (Some "Random failure"))
    else option_map span_status (span (handled env req s)) = Some (status_of OK None) /\
         if headers_fresh env
         then statusCode (res (handled env req s)) = 304 /\
              res_body (res (handled env req s)) = Some BEmpty
         else statusCode (res (handled env req s)) = 200 /\
              res_body (res (handled env req s))
              = Some (BJson (JObj [("ok", JBool true);
                                   ("simulated_ms",
                                    JNum (inject_Z (simulated_ms (random1 env))))]))).
  { unfold handled, app, express_json, metrics_middleware, router, req_route.
    rewrite Hroute. js_exec. rewrite Hjson.
    destruct (random_failure (random2 env)); js_exec; rewrite ?(conditional_get env req Hget);
      try destruct (headers_fresh env); rewrite <- !app_assoc;
      (split; [reflexivity |]); (split; [eexists; reflexivity |]);
      repeat split; reflexivity. }
  destruct Hrun' as (Hfin & [post Hcalls] & Hout).
  assert (Heq : handle_request env req s
                = snd (on_finish env req (hrtime_start env) (handled env req s))).
  { rewrite handle_request_eq by exact Hrun. rewrite Hfin, Hrej. reflexivity. }
  split.
  { assert (Hnew : new_calls s (handle_request env req s)
                   = (CStartSpan "work_route" :: CSetTimeout (simulated_ms (random1 env)) :: post)
                       ++ finish_calls env req (hrtime_start env)
                            (statusCode (res (handled env req s)))).
    { apply new_calls_app. rewrite Heq, on_finish_calls, Hcalls, <- app_assoc. reflexivity. }
    rewrite Hnew. right. left. reflexivity. }
  split; [apply random_failure_iff |].
  split; [apply tenth_literal_near |].
  rewrite Heq, on_finish_res, on_finish_span. split; [| exact Hout].
  intros Hstale. unfold work_response. rewrite on_finish_res.
  destruct (random_failure (random2 env)).
  - destruct Hout as (Hstatus & Hbody & _). split; assumption.
  - destruct Hout as (_ & Hout). rewrite Hstale in Hout. exact Hout.
Qed.

Lemma work_route_behaviour_witness :
  option_map span_status
    (span (handle_request Sample.env_ok (Sample.get "/work" (Matched WorkRoute)) Sample.s0))
  = Some (status_of OK None) /\
  statusCode (res (handle_request Sample.env_ok (Sample.get "/work" (Matched WorkRoute))
                     Sample.s0)) = 200 /\
  res_body (res (handle_request Sample.env_ok (Sample.get "/work" (Matched WorkRoute))
                   Sample.s0))
  = Some (BJson (JObj [("ok", JBool true); ("simulated_ms", JNum (inject_Z 250))])).
Proof.
  assert (Hrep : Binary64.representable (random1 Sample.env_ok)) by reflexivity.
  assert (H0 : (0 <= random1 Sample.env_ok)%Q) by (vm_compute; discriminate).
  assert (H1 : (random1 Sample.env_ok < 1)%Q) by reflexivity.
  exact (proj2 (proj2 (proj2 (proj2 (proj2 (proj2 (proj2
    (work_route_behaviour Sample.env_ok (Sample.get "/work" (Matched WorkRoute)) Sample.s0
       eq_refl eq_refl eq_refl eq_refl Hrep H0 H1)))))))).
Defined.

(** C6: every GET dispatched to /error responds 500 with body {ok:false,
    error:"Simulated server error"}, sets the span status to ERROR with
    message "Forced error", increments errorRequests{route="/error"} by
    exactly one and leaves successRequests as it was. *)
Theorem error_route_behaviour env req s :
  proc s = Running -> req_dispatch req = Matched ErrorRoute ->
  json_error env = None ->
  let s' := handle_request env req s in
  statusCode (res s') = 500 /\
  res_body (res s')
  = Some (BJson (JObj [("ok", JBool false); ("error", JStr "Simulated server error")])) /\
  option_map span_status (span s') = Some (status_of ERROR (Some "Forced error")) /\
  option_map span_end_calls (span s') = Some 1%nat /\
  bumped "/error"%string (errorRequests (registry s)) (errorRequests (registry s')) /\
  untouched (successRequests (registry s)) (successRequests (registry s')).
Proof.
  intros Hrun Hroute Hjson. cbv zeta.
  assert (Hrej : rejected req = false) by (unfold rejected; rewrite Hroute; reflexivity).
  assert (Hlabel : route_label req = "/error"%string).
  { unfold route_label, req_route. rewrite Hroute. reflexivity. }
  assert (Hrun' :
    res (handled env req s)
    = {| statusCode := 500;
         res_body := Some (BJson (JObj [("ok", JBool false);
                                        ("error", JStr "Simulated server error")]));
         res_finished := true;
         res_listeners := [MetricsOnFinish (hrtime_start env)] |} /\
    span (handled env req s)
    = Some {| span_name := "error_route";
              span_status := status_of ERROR (Some "Forced error");
              span_ended := true; span_end_calls := 1 |}).
  { unfold handled, app, express_json, metrics_middleware, router, req_route.
    rewrite Hroute. js_exec. rewrite Hjson. js_exec. split; reflexivity. }
  destruct Hrun' as [Hres Hspan].
  assert (Hdone : completed env req s = true).
  { unfold completed. rewrite Hrun, handle_request_eq, Hrej by exact Hrun.
    rewrite Hres. cbn [res_finished andb negb]. rewrite on_finish_res, Hres. reflexivity. }
  destruct (recorded_request _ _ _ Hdone Hrej) as [Heq Hres'].
  assert (Hreg := recorded_registry _ _ _ Hdone Hrej).
  rewrite Hres', Hres in Hreg. cbn [statusCode] in Hreg.
  unfold record in Hreg. change (is_success 500) with false in Hreg.
  rewrite Hlabel in Hreg.
  rewrite Hres', Hres. cbn [statusCode res_body].
  split; [reflexivity |]. split; [reflexivity |].
  rewrite Heq, on_finish_span, Hspan. cbn [option_map span_status span_end_calls].
  split; [reflexivity |]. split; [reflexivity |].
  rewrite <- Heq, Hreg. cbn [errorRequests successRequests inc_errorRequests
                              observe_httpDuration inc_httpRequests].
  split; [apply inc_bumped | apply untouched_refl].
Qed.

Lemma error_route_behaviour_witness :
  bumped "/error"%string (errorRequests (registry Sample.s0))
    (errorRequests
       (registry (handle_request Sample.env_ok (Sample.get "/error" (Matched ErrorRoute))
                    Sample.s0))).
Proof.
  apply (error_route_behaviour Sample.env_ok (Sample.get "/error" (Matched ErrorRoute))
           Sample.s0); reflexivity.
Defined.

(** ** The route label *)

Lemma route_label_matched req r :
  req_dispatch req = Matched r -> route_label req = route_path r.
Proof.
  intros Hroute. unfold route_label, req_route. rewrite Hroute.
  destruct r; reflexivity.
Qed.

Lemma route_label_unmatched req :
  req_route req = None ->
  route_label req
  = match req_path req with
    | Some p => if String.eqb p EmptyString then "unknown"%string else p
    | None => "unknown"%string
    end.
Proof.
  intros Hroute. unfold route_label. rewrite Hroute. cbn [option_map].
  destruct (req_path req) as [p |]; [| reflexivity].
  unfold js_or. cbn [truthy]. destruct (String.eqb p EmptyString); reflexivity.
Qed.

Lemma unmatched_completed env req s :
  proc s = Running -> req_dispatch req = Unmatched ->
  completed env req s = true /\
  statusCode (res (handle_request env req s)) = 404.
Proof.
  intros Hrun Hroute.
  assert (Hres : res (handled env req s)
                 = {| statusCode := 404; res_body := Some (BDefault "Not Found");
                      res_finished := true;
                      res_listeners := [MetricsOnFinish (hrtime_start env)] |}).
  { unfold handled, app, express_json, metrics_middleware, router, req_route.
    rewrite Hroute. reflexivity. }
  assert (Hrej : rejected req = false) by (unfold rejected; rewrite Hroute; reflexivity).
  unfold completed. rewrite Hrun, handle_request_eq, Hrej, Hres by exact Hrun.
  cbn [res_finished andb negb]. rewrite on_finish_res, Hres. split; reflexivity.
Qed.

(** C7: the route label of a request is the pattern of the route the
    router matched, else the raw path of the request, else the literal
    "unknown"; every call on a counter or on the histogram and every line
    written to the log for the request carries this label; and a request
    that matches no route is completed with status 404 and recorded under
    its raw path. *)
Theorem route_label_resolution env req s :
  let s' := handle_request env req s in
  let status := statusCode (res s') in
  let code := JSString.Number_toString (inject_Z status) in
  route_label req
  = match req_route req with
    | Some r => route_path r
    | None =>
        match req_path req with
        | Some p => if String.eqb p EmptyString then "unknown"%string else p
        | None => "unknown"%string
        end
    end /\
  (forall metric labels,
     In (CCounterInc metric labels) (new_calls s s') ->
     labels = [req_method req; route_label req; code] \/ labels = [route_label req]) /\
  (forall metric labels v,
     In (CHistogramObserve metric labels v) (new_calls s s') ->
     labels = [req_method req; route_label req; code]) /\
  (forall chunk,
     In (CLogStreamWrite chunk) (new_calls s s') ->
     chunk
     = (JSDate.toISOString (now_ms env) ++ String " "
          (JSONText.stringify
             (JObj [("method", JStr (req_method req));
                    ("route", JStr (route_label req));
                    ("status", JNum (inject_Z status));
                    ("duration_s", JNum (duration (hrtime_start env) (hrtime_finish env)))])
           ++ String JSString.newline EmptyString))%string) /\
  (proc s = Running -> req_dispatch req = Unmatched ->
   forall p, req_path req = Some p -> p <> EmptyString ->
   completed env req s = true /\
   status = 404 /\
   route_label req = p /\
   bumped (req_method req, p, "404"%string)
          (httpRequests (registry s)) (httpRequests (registry s'))).
Proof.
  cbv zeta. split; [| split; [| split; [| split]]].
  - unfold req_route. destruct (req_dispatch req) as [st | | r] eqn:Hroute.
    + apply route_label_unmatched. unfold req_route. rewrite Hroute. reflexivity.
    + apply route_label_unmatched. unfold req_route. rewrite Hroute. reflexivity.
    + apply route_label_matched. exact Hroute.
  - intros metric labels Hin.
    destruct (telemetry_in_finish _ _ _ _ Hin eq_refl) as (_ & _ & Hfin).
    unfold finish_calls, finish_labels, labels_list in Hfin. cbn [In fst snd] in Hfin.
    destruct Hfin as [H | [H | [H | [H | [H | []]]]]]; try discriminate.
    + injection H as _ <-. left. reflexivity.
    + destruct (is_success _); injection H as _ <-; right; reflexivity.
  - intros metric labels v Hin.
    destruct (telemetry_in_finish _ _ _ _ Hin eq_refl) as (_ & _ & Hfin).
    unfold finish_calls, finish_labels, labels_list in Hfin. cbn [In fst snd] in Hfin.
    destruct Hfin as [H | [H | [H | [H | [H | []]]]]]; try discriminate.
    + injection H as _ <- _. reflexivity.
    + destruct (is_success _); discriminate.
  - intros chunk Hin.
    destruct (telemetry_in_finish _ _ _ _ Hin eq_refl) as (_ & _ & Hfin).
    unfold finish_calls in Hfin. cbn [In] in Hfin.
    destruct Hfin as [H | [H | [H | [H | [H | []]]]]]; try discriminate.
    + destruct (is_success _); discriminate.
    + injection H as <-. reflexivity.
  - intros Hrun Hroute p Hpath Hp.
    destruct (unmatched_completed env req s Hrun Hroute) as [Hdone Hstatus].
    assert (Hrej : rejected req = false) by (unfold rejected; rewrite Hroute; reflexivity).
    assert (Hlabel : route_label req = p).
    { rewrite route_label_unmatched by (unfold req_route; rewrite Hroute; reflexivity).
      rewrite Hpath. destruct (String.eqb_spec p EmptyString); [contradiction | reflexivity]. }
    split; [exact Hdone |]. split; [exact Hstatus |]. split; [exact Hlabel |].
    rewrite (recorded_registry _ _ _ Hdone Hrej), Hstatus. unfold record, finish_labels.
    rewrite Hlabel.
    change (JSString.Number_toString (inject_Z 404)) with "404"%string.
    change (is_success 404) with false. apply inc_bumped.
Qed.

Lemma route_label_resolution_witness :
  completed Sample.env_ok (Sample.get "/nowhere" Unmatched) Sample.s0 = true /\
  statusCode (res (handle_request Sample.env_ok (Sample.get "/nowhere" Unmatched) Sample.s0))
  = 404 /\
  route_label (Sample.get "/nowhere" Unmatched) = "/nowhere"%string /\
  bumped ("GET", "/nowhere", "404")%string
    (httpRequests (registry Sample.s0))
    (httpRequests
       (registry (handle_request Sample.env_ok (Sample.get "/nowhere" Unmatched) Sample.s0))).
Proof.
  apply (proj2 (proj2 (proj2 (proj2 (route_label_resolution Sample.env_ok
                         (Sample.get "/nowhere" Unmatched) Sample.s0))))
           eq_refl eq_refl "/nowhere"%string eq_refl).
  discriminate.
Defined.

(** ** A failing log write *)

Lemma handled_write_ok env req s : handled (write_ok env) req s = handled env req s.
Proof.
  unfold handled, app, express_json, metrics_middleware, router, req_route.
  destruct (req_dispatch req) as [st | | []]; reflexivity.
Qed.

(** C8 as stated fails: with the disk full, the write of the log line of
    a [GET /] ends the process. *)
Lemma log_write_failure_not_swallowed :
  write_error Sample.env_disk_full = Some "ENOSPC"%string /\
  completed Sample.env_disk_full (Sample.get "/" (Matched RootRoute)) Sample.s0 = true /\
  ~ write_failure_swallowed Sample.env_disk_full (Sample.get "/" (Matched RootRoute))
      Sample.s0.
Proof.
  split; [reflexivity |]. split; [vm_compute; reflexivity |].
  unfold write_failure_swallowed. vm_compute. discriminate.
Qed.

(** C8, as amended: a failure of the log-file write does not change the
    HTTP response of the request being logged, which has been sent before
    the write is issued; server.js registers no listener for the [error]
    event of the log stream, so the failure is not swallowed: it is
    reported on the standard error of the process, which ends.  The metrics
    of the request have been recorded by then and nothing is appended to
    the log file. *)
Theorem log_write_failure_ends_process env req s err :
  completed env req s = true -> rejected req = false ->
  write_error env = Some err ->
  let s' := handle_request env req s in
  res s' = res (handle_request (write_ok env) req s) /\
  proc s' = Crashed err /\
  stderr s' = stderr s ++ [err] /\
  fs s' = fs s /\
  registry s' = registry (handle_request (write_ok env) req s).
Proof.
  intros Hdone Hrej Hwrite. cbv zeta.
  destruct (completed_handled _ _ _ Hdone) as [Hrun Hfin].
  destruct (recorded_request _ _ _ Hdone Hrej) as [Heq Hres].
  destruct (handled_frame env req s) as (Hreg & Hfs & _ & _ & Herr).
  assert (Hok : handle_request (write_ok env) req s
                = snd (on_finish (write_ok env) req (hrtime_start env) (handled env req s))).
  { rewrite handle_request_eq by exact Hrun.
    rewrite handled_write_ok, Hfin, Hrej. reflexivity. }
  split; [rewrite Hres, Hok, on_finish_res; reflexivity |].
  split; [rewrite Heq, on_finish_proc, Hwrite; reflexivity |].
  split; [rewrite Heq, on_finish_stderr, Hwrite, Herr; reflexivity |].
  split; [rewrite Heq, on_finish_fs, Hwrite, Hfs; reflexivity |].
  rewrite Hok, Heq, !on_finish_registry. reflexivity.
Qed.

Lemma log_write_failure_ends_process_witness :
  proc (handle_request Sample.env_disk_full (Sample.get "/" (Matched RootRoute)) Sample.s0)
  = Crashed "ENOSPC".
Proof.
  apply (log_write_failure_ends_process Sample.env_disk_full
           (Sample.get "/" (Matched RootRoute)) Sample.s0 "ENOSPC");
    vm_compute; reflexivity.
Defined.

(** ** The duration *)

(** The computed duration is within ten microseconds of the elapsed
    nanoseconds divided by [10^9], for readings of a 64-bit clock. *)
Lemma duration_accuracy (start finish : Z) :
  start <= finish -> finish - start < 2 ^ 64 ->
  (0 <= duration start finish)%Q /\
  (Qabs (duration start finish - inject_Z (finish - start) / inject_Z (10 ^ 9))
   < 1 # 100000)%Q.
Proof.
  intros Hmono Hrange. unfold duration, Binary64.div, Binary64.of_bigint.
  set (ns := finish - start) in *.
  assert (Hns : (0 <= inject_Z ns)%Q).
  { change 0%Q with (inject_Z 0). rewrite <- Zle_Qle. lia. }
  assert (Hmax : (inject_Z ns < inject_Z (2 ^ 64))%Q) by (rewrite <- Zlt_Qlt; exact Hrange).
  change (inject_Z (2 ^ 64)) with 18446744073709551616%Q in Hmax.
  assert (HN := Binary64Facts.round_error _ Hns).
  assert (HN0 := Binary64Facts.round_nonneg _ Hns).
  set (N := Binary64.round (inject_Z ns)) in *.
  change (inject_Z (10 ^ 9)) with 1000000000%Q.
  assert (Hy : (0 <= N / 1000000000)%Q).
  { apply Qle_shift_div_l; [reflexivity | lra]. }
  assert (HD := Binary64Facts.round_error _ Hy).
  assert (HD0 := Binary64Facts.round_nonneg _ Hy).
  set (D := Binary64.round (N / 1000000000)) in *.
  apply Qabs_Qle_condition in HN, HD.
  rewrite pow2_53 in HN, HD.
  assert (Ediv : forall a : Q, (a / 1000000000 == a * (1 # 1000000000))%Q)
    by (intros a; field).
  rewrite Ediv in HD. rewrite (Ediv (inject_Z ns)).
  split; [exact HD0 |].
  apply Qabs_Qlt_condition. split; lra.
Qed.

(** C10: every duration recorded for a request is the difference of the
    two readings of the nanosecond clock, the one taken when the request
    entered the middleware and the one taken in the finish callback,
    converted to a Number and divided by 1e9; the histogram takes this
    value and the [duration_s] field of the log record carries it too; with
    a monotonic 64-bit clock it is non-negative and within ten microseconds
    of the elapsed time in seconds. *)
Theorem recorded_duration env req s metric labels v :
  hrtime_start env <= hrtime_finish env ->
  hrtime_finish env - hrtime_start env < 2 ^ 64 ->
  let s' := handle_request env req s in
  let status := statusCode (res s') in
  In (CHistogramObserve metric labels v) (new_calls s s') ->
  v = Binary64.div (Binary64.of_bigint (hrtime_finish env - hrtime_start env))
                   (inject_Z (10 ^ 9)) /\
  observed (finish_labels req status) v
           (httpDuration (registry s)) (httpDuration (registry s')) /\
  In (CLogger "info"
        (JObj [("method", JStr (req_method req)); ("route", JStr (route_label req));
               ("status", JNum (inject_Z status)); ("duration_s", JNum v)])
        "request_finished") (new_calls s s') /\
  (0 <= v)%Q /\
  (Qabs (v - inject_Z (hrtime_finish env - hrtime_start env) / inject_Z (10 ^ 9))
   < 1 # 100000)%Q.
Proof.
  intros Hmono Hrange. cbv zeta. intros Hin.
  destruct (telemetry_in_finish _ _ _ _ Hin eq_refl) as (Hdone & Hrej & Hfin).
  assert (Hv : v = duration (hrtime_start env) (hrtime_finish env)).
  { unfold finish_calls in Hfin. cbn [In] in Hfin.
    destruct Hfin as [H | [H | [H | [H | [H | []]]]]]; try discriminate.
    - injection H as _ _ <-. reflexivity.
    - destruct (is_success _); discriminate. }
  subst v. fold (duration (hrtime_start env) (hrtime_finish env)).
  split; [reflexivity |].
  destruct (recorded_calls _ _ _ Hdone Hrej) as [pre [Hnew _]].
  split.
  { rewrite (recorded_registry _ _ _ Hdone Hrej). unfold record.
    destruct (is_success _); apply observe_observed. }
  split.
  { rewrite Hnew. apply in_or_app. right. unfold finish_calls, logEntry. cbn [In]. tauto. }
  apply duration_accuracy; assumption.
Qed.

Lemma recorded_duration_witness :
  (0 <= duration 1000 1235567)%Q /\
  (Qabs (duration 1000 1235567 - inject_Z (1235567 - 1000) / inject_Z (10 ^ 9))
   < 1 # 100000)%Q.
Proof.
  assert (Hin :
    In (CHistogramObserve "app_http_request_duration_seconds"
          ["GET"; "/"; "200"]%string (duration 1000 1235567))
       (new_calls Sample.s0
          (handle_request Sample.env_ok (Sample.get "/" (Matched RootRoute)) Sample.s0))).
  { vm_compute. do 5 right. left. reflexivity. }
  assert (Hmono : hrtime_start Sample.env_ok <= hrtime_finish Sample.env_ok)
    by (vm_compute; discriminate).
  assert (Hrange : hrtime_finish Sample.env_ok - hrtime_start Sample.env_ok < 2 ^ 64)
    by reflexivity.
  exact (proj2 (proj2 (proj2
    (recorded_duration Sample.env_ok (Sample.get "/" (Matched RootRoute)) Sample.s0
       _ _ _ Hmono Hrange Hin)))).
Defined.

(** ** The log file *)

Lemma split_go_slash (a b cur : string) :
  Path.split_go (a ++ String Path.slash b) cur
  = Path.split_go a cur ++ Path.split_go b EmptyString.
Proof.
  revert cur. induction a as [| c a IH]; intros cur.
  - change (Path.split_go (String Path.slash b) cur
            = [cur] ++ Path.split_go b EmptyString).
    cbn [Path.split_go]. rewrite Ascii.eqb_refl. reflexivity.
  - change (Path.split_go (String c (a ++ String Path.slash b)) cur
            = Path.split_go (String c a) cur ++ Path.split_go b EmptyString).
    cbn [Path.split_go].
    destruct (Ascii.eqb c Path.slash); rewrite IH; reflexivity.
Qed.

Lemma isAbsolute_append (d rest : string) :
  d <> EmptyString -> Path.isAbsolute (d ++ rest) = Path.isAbsolute d.
Proof. destruct d; [contradiction | reflexivity]. Qed.

(** The file of [path.join(path.resolve(d), 'app.log')] is the file that
    the path [d/app.log] names. *)
Lemma resolve_app_log (cwd : list string) (d : string) :
  d <> EmptyString ->
  Path.join (Path.resolve cwd d) "app.log"
  = Path.resolve cwd (d ++ "/app.log").
Proof.
  intros Hd. unfold Path.join, Path.resolve.
  rewrite (isAbsolute_append d "/app.log" Hd).
  change "/app.log"%string with (String Path.slash "app.log").
  unfold Path.split. rewrite split_go_slash.
  unfold Path.normalize.
  destruct (Path.isAbsolute d); rewrite fold_left_app; reflexivity.
Qed.

Lemma join_app_log (dir : list string) : Path.join dir "app.log" = dir ++ ["app.log"%string].
Proof. reflexivity. Qed.

Lemma logs_dir_name_nonempty L : logs_dir_name L <> EmptyString.
Proof.
  unfold logs_dir_name. destruct L as [d |]; [| discriminate].
  destruct (String.eqb_spec d EmptyString); [discriminate | assumption].
Qed.

Lemma logsDir_name L cwd : logsDir L cwd = Path.resolve cwd (logs_dir_name L).
Proof.
  unfold logsDir, logs_dir_name, js_or, truthy.
  destruct L as [d |]; [| reflexivity].
  destruct (String.eqb d EmptyString); reflexivity.
Qed.

(** After a start that leaves the process running, the log file is
    [<LOGS_DIR>/app.log], its directory exists and so does the file. *)
Lemma start_log_file L cwd disk s0 :
  start L cwd disk = Some s0 ->
  logFile s0 = Path.resolve cwd (logs_dir_name L ++ "/app.log") /\
  (proc s0 = Running ->
   Fs.is_dir (Path.resolve cwd (logs_dir_name L)) (fs s0) = true /\
   Fs.is_file (logFile s0) (fs s0) = true).
Proof.
  rewrite <- resolve_app_log by apply logs_dir_name_nonempty.
  rewrite <- logsDir_name. unfold start. cbv zeta.
  set (dir := logsDir L cwd).
  destruct (if Fs.existsSync dir disk then Some disk else Fs.mkdirSync_recursive dir disk)
    as [disk1 |]; [| discriminate].
  cbn [mbind option_bind].
  destruct (Fs.open_append (Path.join dir "app.log") disk1) as [disk2 |] eqn:Hopen.
  - intros [= <-]. cbn [logFile initial_state fs proc]. split; [reflexivity |].
    intros _. unfold Fs.open_append in Hopen.
    rewrite join_app_log, removelast_last in Hopen.
    destruct (Fs.is_dir dir disk1) eqn:Hdir; [| discriminate].
    destruct (Fs.is_dir (dir ++ ["app.log"%string]) disk1); [discriminate |].
    cbn [andb negb] in Hopen. injection Hopen as <-.
    split; [exact Hdir |].
    unfold Fs.is_file. cbn [fs_files]. rewrite join_app_log, lookup_insert_eq.
    apply bool_decide_eq_true. eexists. reflexivity.
  - intros [= <-]. cbn [logFile initial_state fs proc emit_error logStream_error_listeners
                         modify snd with_crash].
    split; [reflexivity | discriminate].
Qed.

Lemma chars_app (a b : string) : chars (a ++ b) = chars a ++ chars b.
Proof.
  induction a as [| c a IH]; [reflexivity |].
  change (chars (String c (a ++ b)) = (c :: chars a) ++ chars b).
  cbn [chars]. rewrite IH. reflexivity.
Qed.

Lemma string_append_assoc (a b c : string) :
  ((a ++ b) ++ c = a ++ (b ++ c))%string.
Proof.
  induction a as [| x a IH]; [reflexivity |].
  change (String x ((a ++ b) ++ c) = String x (a ++ (b ++ c)))%string.
  rewrite IH. reflexivity.
Qed.

Lemma plain_app (a b : string) : plain a -> plain b -> plain (a ++ b).
Proof. unfold plain. rewrite chars_app, in_app_iff. tauto. Qed.

Lemma plain_cons (c : ascii) (s : string) :
  c <> JSString.newline -> plain s -> plain (String c s).
Proof. unfold plain. cbn [chars In]. intros Hc Hs [H | H]; [congruence | tauto]. Qed.

Lemma plain_empty : plain EmptyString.
Proof. intros []. Qed.

Lemma quote_char_plain (c : ascii) : plain (JSString.quote_char c).
Proof.
  destruct c as [[] [] [] [] [] [] [] []]; vm_compute;
    intuition discriminate.
Qed.

Lemma quote_plain (s : string) : plain (JSString.quote s).
Proof.
  unfold JSString.quote. apply plain_cons; [discriminate |].
  apply plain_app; [| apply plain_cons; [discriminate | apply plain_empty]].
  induction s as [| c s IH]; cbn [JSString.quote_chars]; [apply plain_empty |].
  apply plain_app; [apply quote_char_plain | exact IH].
Qed.

Lemma digit_char_plain (z : Z) : JSString.digit_char (z mod 10) <> JSString.newline.
Proof.
  assert (H := Z.mod_pos_bound z 10 eq_refl).
  assert (Hd : z mod 10 = 0 \/ z mod 10 = 1 \/ z mod 10 = 2 \/ z mod 10 = 3 \/
               z mod 10 = 4 \/ z mod 10 = 5 \/ z mod 10 = 6 \/ z mod 10 = 7 \/
               z mod 10 = 8 \/ z mod 10 = 9) by lia.
  repeat (destruct Hd as [-> | Hd]; [discriminate |]). rewrite Hd. discriminate.
Qed.

Lemma digits_go_plain (fuel : nat) (z : Z) (acc : string) :
  plain acc -> plain (JSString.digits_go fuel z acc).
Proof.
  revert z acc. induction fuel as [| fuel IH]; intros z acc Hacc; cbn [JSString.digits_go];
    [exact Hacc |].
  assert (Hstep : plain (String (JSString.digit_char (z mod 10)) acc))
    by (apply plain_cons; [apply digit_char_plain | exact Hacc]).
  destruct (z / 10 =? 0); [exact Hstep | apply IH, Hstep].
Qed.

Lemma digits_plain (z : Z) : plain (JSString.digits z).
Proof. apply digits_go_plain, plain_empty. Qed.

Lemma zeros_plain (n : nat) : plain (JSString.zeros n).
Proof.
  induction n as [| n IH]; cbn [JSString.zeros]; [apply plain_empty |].
  apply plain_cons; [discriminate | exact IH].
Qed.

Lemma substring_plain (n m : nat) (s : string) : plain s -> plain (String.substring n m s).
Proof.
  revert n m. induction s as [| c s IH]; intros n m Hs.
  - destruct n, m; apply plain_empty.
  - assert (Hc : c <> JSString.newline) by (intros ->; apply Hs; left; reflexivity).
    assert (Hs' : plain s) by (intros H; apply Hs; right; exact H).
    destruct n as [| n]; cbn [String.substring].
    + destruct m as [| m]; [apply plain_empty |].
      apply plain_cons; [exact Hc | apply IH, Hs'].
    + apply IH, Hs'.
Qed.

Lemma exponent_part_plain (n : Z) : plain (JSString.exponent_part n).
Proof.
  unfold JSString.exponent_part. apply plain_cons; [discriminate |].
  apply plain_cons; [destruct (0 <=? n - 1); discriminate | apply digits_plain].
Qed.

Lemma Number_toString_pos_plain (v : Q) : plain (JSString.Number_toString_pos v).
Proof.
  unfold JSString.Number_toString_pos, JSString.take, JSString.drop.
  destruct (JSString.shortest 17 v 1) as [[k s] n].
  assert (Hd := digits_plain s).
  repeat match goal with
         | |- plain (if ?b then _ else _) => destruct b
         end;
    repeat first [ exact Hd | apply exponent_part_plain | apply zeros_plain
                 | apply substring_plain | apply plain_app
                 | apply plain_cons; [discriminate |] | apply plain_empty ].
Qed.

Lemma Number_toString_plain (v : Q) : plain (JSString.Number_toString v).
Proof.
  unfold JSString.Number_toString. destruct (Qcompare v 0).
  - apply plain_cons; [discriminate | apply plain_empty].
  - apply plain_cons; [discriminate | apply Number_toString_pos_plain].
  - apply Number_toString_pos_plain.
Qed.

(** ** The timestamp *)

Lemma civil_ranges (days : Z) :
  0 <= days <= 2932896 ->
  let '(y, m, d) := JSDate.civil days in
  1970 <= y <= 9999 /\ 1 <= m <= 12 /\ 1 <= d <= 31.
Proof.
  intros Hdays. unfold JSDate.civil. cbv zeta.
  set (z := days + 719468).
  set (era := z / 146097).
  set (doe := z - era * 146097).
  assert (Hera : 4 <= era <= 24 /\ 0 <= doe <= 146096 /\
                 (era = 24 -> doe <= 146036) /\ (era = 4 -> 135080 <= doe)).
  { subst doe era z. Z.div_mod_to_equations. lia. }
  clearbody doe. clearbody era. clear z Hdays.
  set (yoe := (doe - doe / 1460 + doe / 36524 - doe / 146096) / 365).
  set (doy := doe - (365 * yoe + yoe / 4 - yoe / 100)).
  assert (Hyoe : 0 <= yoe <= 399 /\ 0 <= doy <= 365 /\
                 (doe <= 146036 -> yoe = 399 -> doy <= 305) /\
                 (135080 <= doe -> 369 <= yoe /\ (yoe = 369 -> 306 <= doy))).
  { subst doy yoe. Z.div_mod_to_equations. lia. }
  clearbody doy. clearbody yoe.
  set (mp := (5 * doy + 2) / 153).
  assert (Hmp : 0 <= mp <= 11 /\ (doy <= 305 -> mp <= 9) /\ (306 <= doy -> 10 <= mp) /\
                1 <= doy - (153 * mp + 2) / 5 + 1 <= 31).
  { subst mp. Z.div_mod_to_equations. lia. }
  clearbody mp.
  destruct (mp <? 10) eqn:Hlt; [apply Z.ltb_lt in Hlt | apply Z.ltb_ge in Hlt].
  - destruct (mp + 3 <=? 2) eqn:Hm; [apply Z.leb_le in Hm; lia | lia].
  - destruct (mp - 9 <=? 2) eqn:Hm; [| apply Z.leb_gt in Hm; lia]. lia.
Qed.

Lemma below_forallb (f : Z -> bool) (n : Z) :
  forallb f (seqZ 0 n) = true ->
  forall z, 0 <= z < n -> f z = true.
Proof.
  intros Hall z Hz. rewrite forallb_forall in Hall.
  apply Hall, list_elem_of_In, elem_of_seqZ. lia.
Qed.

Lemma pad2_field (z : Z) : 0 <= z < 100 -> digits_field 2 (JSDate.pad 2 z) = true.
Proof.
  apply (below_forallb (fun z => digits_field 2 (JSDate.pad 2 z)) 100).
  vm_compute. reflexivity.
Qed.

Lemma pad3_field (z : Z) : 0 <= z < 1000 -> digits_field 3 (JSDate.pad 3 z) = true.
Proof.
  apply (below_forallb (fun z => digits_field 3 (JSDate.pad 3 z)) 1000).
  vm_compute. reflexivity.
Qed.

Lemma pad4_field (z : Z) : 0 <= z < 10000 -> digits_field 4 (JSDate.pad 4 z) = true.
Proof.
  apply (below_forallb (fun z => digits_field 4 (JSDate.pad 4 z)) 10000).
  vm_compute. reflexivity.
Qed.

(** Between 1970 and the end of the year 9999 the text of [toISOString]
    is [YYYY-MM-DDTHH:mm:ss.sssZ]. *)
Lemma toISOString_shape (t : Z) :
  0 <= t < 253402300800000 -> iso8601_utc (JSDate.toISOString t).
Proof.
  intros Ht. unfold JSDate.toISOString.
  assert (Hdays : 0 <= t / 86400000 <= 2932896) by (Z.div_mod_to_equations; lia).
  assert (Hcivil := civil_ranges _ Hdays).
  destruct (JSDate.civil (t / 86400000)) as [[y m] d].
  destruct Hcivil as (Hy & Hm & Hd).
  assert (Hday := Z.mod_pos_bound t 86400000 eq_refl).
  set (r := t mod 86400000) in *.
  unfold JSDate.year_string.
  replace ((0 <=? y) && (y <=? 9999)) with true
    by (symmetry; apply andb_true_intro; split; apply Z.leb_le; lia).
  exists (JSDate.pad 4 y), (JSDate.pad 2 m), (JSDate.pad 2 d),
    (JSDate.pad 2 (r / 3600000)), (JSDate.pad 2 (r / 60000 mod 60)),
    (JSDate.pad 2 (r / 1000 mod 60)), (JSDate.pad 3 (r mod 1000)).
  repeat split;
    first [ reflexivity
          | apply pad4_field; lia
          | apply pad3_field; Z.div_mod_to_equations; lia
          | apply pad2_field; Z.div_mod_to_equations; lia ].
Qed.

Lemma pad_plain (width : nat) (z : Z) : plain (JSDate.pad width z).
Proof. unfold JSDate.pad. apply plain_app; [apply zeros_plain | apply digits_plain]. Qed.

Lemma toISOString_plain (t : Z) : plain (JSDate.toISOString t).
Proof.
  unfold JSDate.toISOString, JSDate.year_string.
  destruct (JSDate.civil (t / 86400000)) as [[y m] d].
  destruct ((0 <=? y) && (y <=? 9999));
    repeat first [ apply pad_plain | apply plain_app
                 | apply plain_cons; [first [discriminate | destruct (y <? 0); discriminate] |]
                 | apply plain_empty ].
Qed.

(** JSON.stringify escapes every line break of the strings of the log
    record: its text has none. *)
Lemma logEntry_plain (method route : string) (status : Z) (delta : Q) :
  plain (JSONText.stringify (logEntry method route status delta)).
Proof.
  unfold logEntry. cbn [JSONText.stringify map JSONText.commas fst snd].
  repeat first [ apply quote_plain | apply Number_toString_plain | apply plain_app
               | apply plain_cons; [discriminate |] | apply plain_empty ].
Qed.

(** The log file of the process never changes. *)
Lemma handle_request_logFile env req s :
  logFile (handle_request env req s) = logFile s.
Proof.
  destruct (proc s) eqn:Hrun.
  - rewrite handle_request_eq by exact Hrun.
    destruct (handled_frame env req s) as (_ & _ & Hfile & _).
    destruct (_ && _); [rewrite on_finish_logFile |]; exact Hfile.
  - unfold handle_request. rewrite Hrun. reflexivity.
Qed.

Lemma serve_logFile history s : logFile (serve history s) = logFile s.
Proof.
  revert s. induction history as [| [env req] history IH]; intros s; cbn [serve];
    [reflexivity |].
  rewrite IH. apply handle_request_logFile.
Qed.

Lemma prefixes_prefix (p q : list string) : q ∈ Fs.prefixes p -> q `prefix_of` p.
Proof.
  revert q. induction p as [| seg rest IH]; intros q; cbn [Fs.prefixes].
  - intros H. apply elem_of_nil in H as [].
  - rewrite elem_of_cons, list_elem_of_fmap. intros [-> | (q' & -> & Hq')].
    + exists rest. reflexivity.
    + apply prefix_cons, IH, Hq'.
Qed.

Lemma prefixes_self (p : list string) : p <> [] -> p ∈ Fs.prefixes p.
Proof.
  induction p as [| seg rest IH]; [congruence |]. intros _. cbn [Fs.prefixes].
  destruct rest as [| seg' rest']; [left |].
  right. apply list_elem_of_fmap. exists (seg' :: rest'). split; [reflexivity |].
  apply IH. discriminate.
Qed.

Lemma is_dir_prefix_self (dir : list string) (d : FS) :
  Fs.is_dir dir {| fs_dirs := fs_dirs d ∪ list_to_set (Fs.prefixes dir);
                   fs_files := fs_files d |} = true.
Proof.
  unfold Fs.is_dir. apply bool_decide_eq_true. cbn [fs_dirs].
  destruct dir as [| seg rest]; [left; reflexivity | right].
  apply elem_of_union_r, elem_of_list_to_set, prefixes_self. discriminate.
Qed.

(** The start on a disk where no file stands on the path of the log
    directory and no directory stands in the place of the log file: the
    directory is created with its parents when it is absent, the file is
    created empty when it is absent and keeps its text otherwise, and the
    process runs. *)
Lemma start_creates L cwd disk :
  Forall (fun q => Fs.is_file q disk = false) (Fs.prefixes (logsDir L cwd)) ->
  Fs.is_dir (Path.join (logsDir L cwd) "app.log") disk = false ->
  exists s0,
    start L cwd disk = Some s0 /\ proc s0 = Running /\
    logFile s0 = Path.join (logsDir L cwd) "app.log" /\
    Fs.is_dir (logsDir L cwd) (fs s0) = true /\
    (Fs.existsSync (logsDir L cwd) disk = false ->
     Forall (fun q => q ∈ fs_dirs (fs s0)) (Fs.prefixes (logsDir L cwd))) /\
    fs_files (fs s0) !! logFile s0 = Some (Fs.read (logFile s0) disk).
Proof.
  intros Hfiles Hnodir. unfold start. cbv zeta.
  set (dir := logsDir L cwd) in *. rewrite join_app_log in *.
  destruct (Fs.existsSync dir disk) eqn:Hexists; cbn [mbind option_bind].
  - assert (Hdir : Fs.is_dir dir disk = true).
    { unfold Fs.existsSync in Hexists. apply orb_prop in Hexists as [H | H]; [exact H |].
      destruct dir as [| seg rest] eqn:Hd; [reflexivity |].
      rewrite Forall_forall in Hfiles.
      rewrite (Hfiles (seg :: rest)) in H; [discriminate |].
      apply prefixes_self. discriminate. }
    unfold Fs.open_append. rewrite removelast_last, Hdir, Hnodir. cbn [andb negb].
    eexists. split; [reflexivity |]. cbn [initial_state proc logFile fs fs_dirs fs_files].
    split; [reflexivity |]. split; [reflexivity |]. split; [exact Hdir |].
    split; [discriminate |]. rewrite lookup_insert_eq. reflexivity.
  - unfold Fs.mkdirSync_recursive.
    assert (Hnone : existsb (fun q => Fs.is_file q disk) (Fs.prefixes dir) = false).
    { apply not_true_is_false. intros H. apply existsb_exists in H as (q & Hq & Hfile).
      rewrite Forall_forall in Hfiles. apply list_elem_of_In in Hq.
      rewrite (Hfiles q Hq) in Hfile. discriminate. }
    rewrite Hnone. cbn [mbind option_bind].
    unfold Fs.open_append. rewrite removelast_last, is_dir_prefix_self.
    assert (Hnodir' :
      Fs.is_dir (dir ++ ["app.log"%string])
        {| fs_dirs := fs_dirs disk ∪ list_to_set (Fs.prefixes dir);
           fs_files := fs_files disk |} = false).
    { unfold Fs.is_dir in *. apply bool_decide_eq_false. cbn [fs_dirs].
      apply bool_decide_eq_false in Hnodir. intros [H | H].
      - destruct dir; discriminate.
      - apply elem_of_union in H as [H | H]; [apply Hnodir; right; exact H |].
        apply elem_of_list_to_set, prefixes_prefix in H.
        exact (prefix_snoc_not _ _ H). }
    rewrite Hnodir'. cbn [andb negb].
    eexists. split; [reflexivity |]. cbn [initial_state proc logFile fs fs_dirs fs_files].
    split; [reflexivity |]. split; [reflexivity |].
    split; [apply is_dir_prefix_self |]. split.
    + intros _. apply Forall_forall. intros q Hq.
      apply elem_of_union_r, elem_of_list_to_set, Hq.
    + rewrite lookup_insert_eq. reflexivity.
Qed.

Lemma string_append_cons (c : ascii) (a b : string) :
  (String c a ++ b = String c (a ++ b))%string.
Proof. reflexivity. Qed.

(** A string of characters that need no escape is quoted as it stands. *)
Lemma quote_verbatim (text : string) :
  verbatim text = true -> JSString.quote text = in_quotes text.
Proof.
  intros Hv. unfold JSString.quote, in_quotes. f_equal. f_equal.
  induction text as [| c text IH]; [reflexivity |].
  unfold verbatim in Hv. cbn [chars forallb] in Hv. apply andb_prop in Hv as [Hc Hv].
  cbn [JSString.quote_chars]. rewrite (IH Hv).
  assert (Hchar : JSString.quote_char c = String c EmptyString).
  { clear - Hc. destruct c as [[] [] [] [] [] [] [] []];
      first [discriminate Hc | reflexivity]. }
  rewrite Hchar. reflexivity.
Qed.

(** JSON.stringify writes the log record as the object of its four fields
    in the order of the source, each name between quotes. *)
Lemma logEntry_text (method route : string) (status : Z) (delta : Q) :
  JSONText.stringify (logEntry method route status delta)
  = log_json (JSString.quote method) (JSString.quote route)
             (JSString.Number_toString (inject_Z status)) (JSString.Number_toString delta).
Proof.
  unfold logEntry, log_json. cbn [JSONText.stringify map JSONText.commas fst snd].
  rewrite (quote_verbatim "method" eq_refl), (quote_verbatim "route" eq_refl),
    (quote_verbatim "status" eq_refl), (quote_verbatim "duration_s" eq_refl).
  repeat first [rewrite string_append_assoc | rewrite string_append_cons].
  reflexivity.
Qed.

(** The status of a response that server.js ends, when it does not come
    from the body parser: 200, 304, 404 or 500. *)
Lemma handled_status_text env req s :
  rejected req = false -> res_finished (res (handled env req s)) = true ->
  JSString.Number_toString (inject_Z (statusCode (res (handled env req s))))
  = three_digits (statusCode (res (handled env req s))).
Proof.
  handler_cases env req; intros Hrej Hfin;
    first [discriminate | vm_compute; reflexivity].
Qed.

(** C9: the log file is [<LOGS_DIR>/app.log], with [LOGS_DIR] defaulting
    to [/app/logs]; the start creates the directory, with its parents,
    when it is absent, and the file when it is absent, and keeps the text
    of a file that is there; after a start that leaves the process running
    the directory exists; and every log write that does not fail appends
    to this file, and changes nothing else on the disk, the text
    ["<timestamp> <json>\n"] where [timestamp] is the ISO-8601 text of
    [toISOString] ([YYYY-MM-DDTHH:mm:ss.sssZ] between 1970 and 9999) and
    [json] is the JSON object
    [{"method":<method>,"route":<route>,"status":<status>,"duration_s":<duration>}],
    the method and the route between quotes (as they stand when they need
    no escape), the status as its three digits, the duration as JavaScript
    prints the number: exactly one line.  This holds in every state the
    process reaches by serving requests. *)
Theorem log_file_line L cwd disk :
  (Forall (fun q => Fs.is_file q disk = false) (Fs.prefixes (logsDir L cwd)) ->
   Fs.is_dir (Path.join (logsDir L cwd) "app.log") disk = false ->
   exists s0,
     start L cwd disk = Some s0 /\ proc s0 = Running /\
     logFile s0 = Path.join (logsDir L cwd) "app.log" /\
     Fs.is_dir (logsDir L cwd) (fs s0) = true /\
     (Fs.existsSync (logsDir L cwd) disk = false ->
      Forall (fun q => q ∈ fs_dirs (fs s0)) (Fs.prefixes (logsDir L cwd))) /\
     fs_files (fs s0) !! logFile s0 = Some (Fs.read (logFile s0) disk)) /\
  forall s0 history env req,
  start L cwd disk = Some s0 -> proc s0 = Running ->
  let s := serve history s0 in
  completed env req s = true -> rejected req = false ->
  write_error env = None ->
  let s' := handle_request env req s in
  let line :=
    (JSDate.toISOString (now_ms env) ++ String " "
       (log_json (JSString.quote (req_method req)) (JSString.quote (route_label req))
                 (three_digits (statusCode (res s')))
                 (JSString.Number_toString
                    (duration (hrtime_start env) (hrtime_finish env)))
        ++ String JSString.newline EmptyString))%string in
  logs_dir_name None = "/app/logs"%string /\
  logsDir L cwd = Path.resolve cwd (logs_dir_name L) /\
  logFile s0 = Path.resolve cwd (logs_dir_name L ++ "/app.log") /\
  Fs.is_dir (Path.resolve cwd (logs_dir_name L)) (fs s0) = true /\
  Fs.is_file (logFile s0) (fs s0) = true /\
  line
  = (JSDate.toISOString (now_ms env) ++ String " "
       (JSONText.stringify
          (JObj [("method", JStr (req_method req));
                 ("route", JStr (route_label req));
                 ("status", JNum (inject_Z (statusCode (res s'))));
                 ("duration_s", JNum (duration (hrtime_start env) (hrtime_finish env)))])
        ++ String JSString.newline EmptyString))%string /\
  (verbatim (req_method req) = true ->
   JSString.quote (req_method req) = in_quotes (req_method req)) /\
  (verbatim (route_label req) = true ->
   JSString.quote (route_label req) = in_quotes (route_label req)) /\
  fs s' = Fs.append (logFile s0) line (fs s) /\
  Fs.read (logFile s0) (fs s') = (Fs.read (logFile s0) (fs s) ++ line)%string /\
  one_line line /\
  (0 <= now_ms env < 253402300800000 -> iso8601_utc (JSDate.toISOString (now_ms env))).
Proof.
  split; [apply start_creates |].
  intros s0 history env req Hstart Hrun0 s Hdone Hrej Hwrite. cbv zeta.
  assert (Hfile : logFile s = logFile s0) by apply serve_logFile.
  destruct (start_log_file _ _ _ _ Hstart) as [Hpath Hdirs].
  destruct (Hdirs Hrun0) as [Hdir Hexists].
  split; [reflexivity |]. split; [apply logsDir_name |]. split; [exact Hpath |].
  split; [exact Hdir |]. split; [exact Hexists |].
  destruct (recorded_request _ _ _ Hdone Hrej) as [Heq Hres].
  destruct (completed_handled _ _ _ Hdone) as [Hrun Hfin].
  destruct (handled_frame env req s) as (_ & Hfs & Hfile' & _).
  assert (Hline :
    (JSDate.toISOString (now_ms env) ++ String " "
       (log_json (JSString.quote (req_method req)) (JSString.quote (route_label req))
                 (three_digits (statusCode (res (handle_request env req s))))
                 (JSString.Number_toString
                    (duration (hrtime_start env) (hrtime_finish env)))
        ++ String JSString.newline EmptyString))%string
    = log_line env req (hrtime_start env) (statusCode (res (handle_request env req s)))).
  { unfold log_line. rewrite logEntry_text, Hres.
    rewrite (handled_status_text env req s Hrej Hfin). reflexivity. }
  rewrite Hline.
  split; [reflexivity |].
  split; [apply quote_verbatim |]. split; [apply quote_verbatim |].
  assert (Happend :
    fs (handle_request env req s)
    = Fs.append (logFile s0)
        (log_line env req (hrtime_start env) (statusCode (res (handle_request env req s))))
        (fs s)).
  { rewrite Hres. rewrite Heq at 1.
    rewrite on_finish_fs, Hwrite, Hfile', Hfile, Hfs. reflexivity. }
  split; [exact Happend |].
  split; [rewrite Happend; apply read_append |].
  split; [| apply toISOString_shape].
  unfold one_line.
  exists (JSDate.toISOString (now_ms env) ++ String " "
            (JSONText.stringify
               (logEntry (req_method req) (route_label req)
                  (statusCode (res (handle_request env req s)))
                  (duration (hrtime_start env) (hrtime_finish env)))))%string.
  split.
  - rewrite string_append_assoc. reflexivity.
  - apply plain_app; [apply toISOString_plain |].
    apply plain_cons; [discriminate | apply logEntry_plain].
Qed.

Lemma log_file_line_witness :
  (exists s0,
     start None [] Sample.disk = Some s0 /\ proc s0 = Running /\
     Forall (fun q => q ∈ fs_dirs (fs s0)) [["app"]; ["app"; "logs"]]%string /\
     fs_files (fs s0) !! ["app"; "logs"; "app.log"]%string = Some EmptyString) /\
  Path.to_string (logFile Sample.s0) = "/app/logs/app.log"%string /\
  Fs.read (logFile Sample.s0)
    (fs (handle_request Sample.env_ok (Sample.get "/" (Matched RootRoute))
           (serve [(Sample.env_fail, Sample.get "/work" (Matched WorkRoute))] Sample.s0)))
  = (Fs.read (logFile Sample.s0)
       (fs (serve [(Sample.env_fail, Sample.get "/work" (Matched WorkRoute))] Sample.s0))
     ++ "2024-01-01T00:00:00.000Z {"
     ++ in_quotes "method" ++ ":" ++ in_quotes "GET" ++ ","
     ++ in_quotes "route" ++ ":" ++ in_quotes "/" ++ ","
     ++ in_quotes "status" ++ ":200,"
     ++ in_quotes "duration_s" ++ ":0.001234567}"
     ++ String JSString.newline EmptyString)%string.
Proof.
  assert (Hstart : start None [] Sample.disk = Some Sample.s0) by (vm_compute; reflexivity).
  assert (Hdone :
    completed Sample.env_ok (Sample.get "/" (Matched RootRoute))
      (serve [(Sample.env_fail, Sample.get "/work" (Matched WorkRoute))] Sample.s0) = true)
    by (vm_compute; reflexivity).
  destruct (log_file_line None [] Sample.disk) as [Hcreate Hline].
  split.
  - destruct Hcreate as (s0 & Hs0 & Hrun & Hfile & _ & Hdirs & Htext);
      [repeat constructor | vm_compute; reflexivity |].
    exists s0. split; [exact Hs0 |]. split; [exact Hrun |].
    split; [apply Hdirs; vm_compute; reflexivity |].
    rewrite Hfile in Htext. exact Htext.
  - assert (H := Hline Sample.s0
                   [(Sample.env_fail, Sample.get "/work" (Matched WorkRoute))]
                   Sample.env_ok (Sample.get "/" (Matched RootRoute))
                   Hstart eq_refl Hdone eq_refl eq_refl).
    cbv zeta in H. destruct H as (_ & _ & _ & _ & _ & _ & _ & _ & _ & Hread & _).
    split; [vm_compute; reflexivity |].
    etransitivity; [exact Hread |]. vm_compute. reflexivity.
Defined.

(** * Further properties *)

(** ** What one request changes *)

Lemma completed_running env req s :
  proc s = Running ->
  completed env req s = res_finished (res (handled env req s)).
Proof.
  intros Hrun. unfold completed. rewrite Hrun, handle_request_eq by exact Hrun.
  destruct (res_finished (res (handled env req s)) && negb (rejected req)) eqn:Hrec;
    [| reflexivity].
  rewrite on_finish_res. reflexivity.
Qed.

Lemma recorded_running env req s :
  proc s = Running ->
  recorded env req s = res_finished (res (handled env req s)) && negb (rejected req).
Proof. intros Hrun. unfold recorded. rewrite completed_running by exact Hrun. reflexivity. Qed.

Lemma recorded_crashed env req s err : proc s = Crashed err -> recorded env req s = false.
Proof. intros Hrun. unfold recorded, completed. rewrite Hrun. reflexivity. Qed.

Lemma recorded_true env req s :
  recorded env req s = true -> completed env req s = true /\ rejected req = false.
Proof.
  unfold recorded. intros H. apply andb_prop in H as [Hdone Hrej].
  apply negb_true_iff in Hrej. split; assumption.
Qed.

(** A request that does not run the finish callback leaves the state its
    handlers left. *)
Lemma unrecorded_request env req s :
  proc s = Running -> recorded env req s = false ->
  handle_request env req s = handled env req s.
Proof.
  intros Hrun Hrec. rewrite recorded_running in Hrec by exact Hrun.
  rewrite handle_request_eq, Hrec by exact Hrun. reflexivity.
Qed.

(** The registry, the disk and the process after one request. *)
Lemma handle_request_effect env req s :
  let s' := handle_request env req s in
  let line := log_line env req (hrtime_start env) (statusCode (res s')) in
  registry s'
  = (if recorded env req s
     then record req (statusCode (res s'))
            (duration (hrtime_start env) (hrtime_finish env)) (registry s)
     else registry s) /\
  fs s'
  = (if recorded env req s
     then match write_error env with
          | None => Fs.append (logFile s) line (fs s)
          | Some _ => fs s
          end
     else fs s) /\
  proc s'
  = (if recorded env req s
     then match write_error env with
          | None => proc s
          | Some err => Crashed err
          end
     else proc s).
Proof.
  cbv zeta. destruct (proc s) eqn:Hrun.
  - destruct (recorded env req s) eqn:Hrec.
    + destruct (recorded_true _ _ _ Hrec) as [Hdone Hrej].
      destruct (recorded_request _ _ _ Hdone Hrej) as [Heq Hres].
      destruct (handled_frame env req s) as (Hreg & Hfs & Hfile & Hproc & _).
      split; [apply recorded_registry; assumption |].
      rewrite Hres. rewrite Heq at 1. rewrite Heq at 1.
      rewrite on_finish_fs, on_finish_proc, Hfs, Hfile, Hproc, Hrun.
      split; reflexivity.
    + rewrite (unrecorded_request _ _ _ Hrun Hrec).
      destruct (handled_frame env req s) as (Hreg & Hfs & _ & Hproc & _).
      rewrite Hreg, Hfs, Hproc, Hrun. repeat split; reflexivity.
  - rewrite (recorded_crashed _ _ _ _ Hrun).
    unfold handle_request. rewrite Hrun. repeat split; assumption.
Qed.

Lemma serve_crashed history s err : proc s = Crashed err -> serve history s = s.
Proof.
  intros Hrun. induction history as [| [env req] history IH]; [reflexivity |].
  cbn [serve]. unfold handle_request at 1. rewrite Hrun. exact IH.
Qed.

Lemma serve_running history env req s :
  proc (serve history (handle_request env req s)) = Running -> proc s = Running.
Proof.
  intros Hfinal. destruct (proc s) eqn:Hrun; [reflexivity |].
  unfold handle_request in Hfinal. rewrite Hrun in Hfinal.
  rewrite (serve_crashed _ _ _ Hrun), Hrun in Hfinal. discriminate.
Qed.

(** ** Counters never go down *)

Lemma grows_refl `{Countable K} (m : gmap K Z) : grows m m.
Proof. intros r. lia. Qed.

Lemma grows_trans `{Countable K} (a b c : gmap K Z) : grows a b -> grows b c -> grows a c.
Proof. intros Hab Hbc r. specialize (Hab r). specialize (Hbc r). lia. Qed.

Lemma inc_grows `{Countable K} (k : K) (m : gmap K Z) : grows m (Prom.inc k m).
Proof. intros r. rewrite (inc_bumped k m r). destruct (decide (r = k)); lia. Qed.

Lemma observe_count (k r : Labels) (v : Q) (m : gmap Labels Histogram) :
  hist_count (Prom.series r (Prom.observe k v m))
  = hist_count (Prom.series r m) + (if decide (r = k) then 1 else 0).
Proof.
  destruct (observe_observed k v m) as [Hsame Hother].
  destruct (decide (r = k)) as [-> | Hne].
  - rewrite Hsame. reflexivity.
  - rewrite (Hother r Hne). lia.
Qed.

Lemma record_grows req status delta r :
  grows (httpRequests r) (httpRequests (record req status delta r)) /\
  grows (successRequests r) (successRequests (record req status delta r)) /\
  grows (errorRequests r) (errorRequests (record req status delta r)) /\
  forall k, hist_count (Prom.series k (httpDuration r))
            <= hist_count (Prom.series k (httpDuration (record req status delta r))).
Proof.
  unfold record.
  destruct (is_success status);
    cbn [httpRequests successRequests errorRequests httpDuration
         inc_successRequests inc_errorRequests observe_httpDuration inc_httpRequests];
    repeat split;
    first [ apply inc_grows | apply grows_refl
          | intros k; rewrite observe_count; destruct (decide _); lia ].
Qed.

(** X1: whatever requests are served, in whatever state, no series of the
    request counter, of the success counter or of the error counter goes
    down, and no series of the histogram loses an observation: the code
    increments and observes, and never resets. *)
Theorem instruments_never_decrease history s :
  let s' := serve history s in
  grows (httpRequests (registry s)) (httpRequests (registry s')) /\
  grows (successRequests (registry s)) (successRequests (registry s')) /\
  grows (errorRequests (registry s)) (errorRequests (registry s')) /\
  forall k, hist_count (Prom.series k (httpDuration (registry s)))
            <= hist_count (Prom.series k (httpDuration (registry s'))).
Proof.
  cbv zeta. revert s. induction history as [| [env req] history IH]; intros s; cbn [serve].
  - repeat split; first [apply grows_refl | intros; lia].
  - destruct (IH (handle_request env req s)) as (H1 & H2 & H3 & H4).
    destruct (handle_request_effect env req s) as (Hreg & _).
    assert (Hstep :
      grows (httpRequests (registry s)) (httpRequests (registry (handle_request env req s))) /\
      grows (successRequests (registry s))
            (successRequests (registry (handle_request env req s))) /\
      grows (errorRequests (registry s)) (errorRequests (registry (handle_request env req s))) /\
      forall k, hist_count (Prom.series k (httpDuration (registry s)))
                <= hist_count (Prom.series k (httpDuration (registry (handle_request env req s))))).
    { rewrite Hreg. destruct (recorded env req s); [apply record_grows |].
      repeat split; first [apply grows_refl | intros; lia]. }
    destruct Hstep as (G1 & G2 & G3 & G4).
    repeat split; try (eapply grows_trans; eassumption).
    intros k. specialize (G4 k). specialize (H4 k). lia.
Qed.

(** ** The counters add up *)

Lemma weighted_empty `{Countable K} {A : Type} (w : K -> A -> Z) :
  weighted w (∅ : gmap K A) = 0.
Proof. unfold weighted. apply map_fold_empty. Qed.

Lemma weighted_insert `{Countable K} {A : Type} (w : K -> A -> Z) (k : K) (x : A)
      (m : gmap K A) :
  weighted w (<[k:=x]> m)
  = weighted w m - match m !! k with Some y => w k y | None => 0 end + w k x.
Proof.
  unfold weighted. destruct (m !! k) as [y |] eqn:Hk.
  - rewrite <- insert_delete_eq.
    rewrite map_fold_insert_L; [| intros; lia | apply lookup_delete_eq].
    rewrite (map_fold_delete_L _ _ k y m); [lia | intros; lia | exact Hk].
  - rewrite map_fold_insert_L; [lia | intros; lia | exact Hk].
Qed.

Lemma total_inc `{Countable K} (k : K) (m : gmap K Z) :
  total (Prom.inc k m) = total m + 1.
Proof.
  unfold total, Prom.inc. rewrite weighted_insert. destruct (m !! k); cbn [from_option id]; lia.
Qed.

Lemma observations_observe (k : Labels) (v : Q) (m : gmap Labels Histogram) :
  observations (Prom.observe k v m) = observations m + 1.
Proof.
  unfold observations, Prom.observe, Labels in *. rewrite weighted_insert.
  destruct (m !! k); cbn [from_option id Prom.observe_one hist_count Prom.empty_histogram]; lia.
Qed.

Lemma route_total_inc (r : string) (k : Labels) (m : gmap Labels Z) :
  route_total r (Prom.inc k m)
  = route_total r m + (if decide (snd (fst k) = r) then 1 else 0).
Proof.
  unfold route_total, Prom.inc, Labels in *. rewrite weighted_insert. cbv beta.
  destruct (m !! k); cbn [from_option id]; destruct (decide (snd (fst k) = r)); lia.
Qed.

Lemma balanced_empty : balanced empty_registry.
Proof.
  unfold balanced, empty_registry, total, observations, route_total.
  cbn [httpRequests successRequests errorRequests httpDuration].
  rewrite !weighted_empty. repeat split.
Qed.

Lemma balanced_record req status delta r :
  balanced r -> balanced (record req status delta r).
Proof.
  intros (Htotal & Hobs & Hroute). unfold balanced, record.
  destruct (is_success status);
    cbn [httpRequests successRequests errorRequests httpDuration
         inc_successRequests inc_errorRequests observe_httpDuration inc_httpRequests];
    rewrite !total_inc, observations_observe;
    (split; [lia |]); (split; [lia |]);
    intros route; rewrite route_total_inc, Hroute;
    unfold finish_labels; cbn [fst snd];
    rewrite (inc_bumped (route_label req) _ route);
    destruct (decide (route_label req = route)) as [-> | Hne];
    destruct (decide (route = _)); try congruence; lia.
Qed.

Lemma balanced_request env req s :
  balanced (registry s) -> balanced (registry (handle_request env req s)).
Proof.
  intros Hbal. destruct (handle_request_effect env req s) as (Hreg & _).
  rewrite Hreg. destruct (recorded env req s); [apply balanced_record |]; exact Hbal.
Qed.

Lemma balanced_serve history s :
  balanced (registry s) -> balanced (registry (serve history s)).
Proof.
  revert s. induction history as [| [env req] history IH]; intros s Hbal; cbn [serve];
    [exact Hbal |].
  apply IH, balanced_request, Hbal.
Qed.

Lemma start_registry L cwd disk s0 :
  start L cwd disk = Some s0 ->
  registry s0 = empty_registry /\ calls s0 = [] /\ stdout s0 = [] /\ rejections s0 = [].
Proof.
  unfold start. cbv zeta.
  destruct (if Fs.existsSync _ disk then Some disk else _) as [disk1 |]; [| discriminate].
  cbn [mbind option_bind].
  destruct (Fs.open_append _ disk1) as [disk2 |]; intros [= <-]; repeat split; reflexivity.
Qed.

(** X2: in every state the process reaches from its start, the request
    counter, summed over all its series, equals the success counter plus
    the error counter, and equals the number of observations of the
    histogram. *)
Theorem requests_add_up L cwd disk s0 history :
  start L cwd disk = Some s0 ->
  let r := registry (serve history s0) in
  total (httpRequests r) = total (successRequests r) + total (errorRequests r) /\
  observations (httpDuration r) = total (httpRequests r).
Proof.
  intros Hstart. cbv zeta.
  destruct (start_registry _ _ _ _ Hstart) as (Hreg & _).
  assert (Hbal : balanced (registry (serve history s0))).
  { apply balanced_serve. rewrite Hreg. apply balanced_empty. }
  destruct Hbal as (H1 & H2 & _). split; assumption.
Qed.

Lemma requests_add_up_witness :
  total (httpRequests (registry (serve More.mixed Sample.s0))) = 3 /\
  total (successRequests (registry (serve More.mixed Sample.s0)))
  + total (errorRequests (registry (serve More.mixed Sample.s0))) = 3.
Proof.
  assert (Hstart : start None [] Sample.disk = Some Sample.s0) by (vm_compute; reflexivity).
  destruct (requests_add_up None [] Sample.disk Sample.s0 More.mixed Hstart) as [H _].
  cbv zeta in H. split; [vm_compute; reflexivity | rewrite <- H; vm_compute; reflexivity].
Defined.

(** X3: in every state the process reaches from its start, and for every
    route label, the series of the request counter with that route sum to
    the success counter plus the error counter of the route. *)
Theorem routes_add_up L cwd disk s0 history route :
  start L cwd disk = Some s0 ->
  let r := registry (serve history s0) in
  route_total route (httpRequests r)
  = Prom.value route (successRequests r) + Prom.value route (errorRequests r).
Proof.
  intros Hstart. cbv zeta.
  destruct (start_registry _ _ _ _ Hstart) as (Hreg & _).
  assert (Hbal : balanced (registry (serve history s0))).
  { apply balanced_serve. rewrite Hreg. apply balanced_empty. }
  destruct Hbal as (_ & _ & H). apply H.
Qed.

Lemma routes_add_up_witness :
  route_total "/work" (httpRequests (registry (serve More.mixed Sample.s0)))
  = Prom.value "/work"%string (successRequests (registry (serve More.mixed Sample.s0)))
    + Prom.value "/work"%string (errorRequests (registry (serve More.mixed Sample.s0))).
Proof.
  apply (routes_add_up None [] Sample.disk Sample.s0 More.mixed "/work").
  vm_compute. reflexivity.
Defined.

(** ** The log file *)

Lemma string_append_empty (a : string) : (a ++ EmptyString)%string = a.
Proof.
  induction a as [| c a IH]; [reflexivity |].
  change (String c (a ++ EmptyString) = String c a)%string. rewrite IH. reflexivity.
Qed.

Lemma line_count_app (a b : string) :
  line_count (a ++ b) = line_count a + line_count b.
Proof.
  induction a as [| c a IH]; [reflexivity |].
  change (line_count (String c (a ++ b)) = line_count (String c a) + line_count b).
  cbn [line_count]. rewrite IH. lia.
Qed.

Lemma line_count_nonneg (a : string) : 0 <= line_count a.
Proof.
  induction a as [| c a IH]; cbn [line_count]; [lia |].
  destruct (Ascii.eqb c JSString.newline); lia.
Qed.

Lemma plain_line_count (a : string) : plain a -> line_count a = 0.
Proof.
  unfold plain. induction a as [| c a IH]; [reflexivity |].
  cbn [chars In line_count]. intros H.
  destruct (Ascii.eqb_spec c JSString.newline) as [-> | _]; [tauto |].
  rewrite IH; [reflexivity | tauto].
Qed.

Lemma one_line_count (text : string) : one_line text -> line_count text = 1.
Proof.
  intros (body & -> & Hbody). rewrite line_count_app, (plain_line_count _ Hbody).
  reflexivity.
Qed.

Lemma log_line_one_line env req start status : one_line (log_line env req start status).
Proof.
  unfold log_line.
  set (stamp := JSDate.toISOString (now_ms env)).
  set (json := JSONText.stringify _).
  exists (stamp ++ String " " json)%string. split.
  - rewrite string_append_assoc. reflexivity.
  - apply plain_app; [apply toISOString_plain |].
    apply plain_cons; [discriminate | apply logEntry_plain].
Qed.

Lemma appended_to_refl p d : appended_to p d d.
Proof.
  repeat split; [tauto |]. exists EmptyString. rewrite string_append_empty. reflexivity.
Qed.

Lemma appended_to_trans p a b c :
  appended_to p a b -> appended_to p b c -> appended_to p a c.
Proof.
  intros (Hd1 & Ho1 & Hs1 & x & Hx) (Hd2 & Ho2 & Hs2 & y & Hy).
  split; [congruence |]. split; [intros q Hq; rewrite Ho2, Ho1 by exact Hq; reflexivity |].
  split; [tauto |]. exists (x ++ y)%string.
  rewrite Hy, Hx. apply string_append_assoc.
Qed.

Lemma append_appended_to p chunk d : appended_to p d (Fs.append p chunk d).
Proof.
  split; [reflexivity |]. split; [| split].
  - intros q Hq. unfold Fs.append. cbn [fs_files]. apply lookup_insert_ne. congruence.
  - intros _. unfold Fs.append. cbn [fs_files]. rewrite lookup_insert_eq. eexists. reflexivity.
  - exists chunk. apply read_append.
Qed.

Lemma handle_request_appended env req s :
  appended_to (logFile s) (fs s) (fs (handle_request env req s)).
Proof.
  destruct (handle_request_effect env req s) as (_ & Hfs & _). rewrite Hfs.
  destruct (recorded env req s); [| apply appended_to_refl].
  destruct (write_error env); [apply appended_to_refl | apply append_appended_to].
Qed.

(** The directories stay, and so does the log file once it exists. *)
Lemma serve_keeps_log history s :
  is_Some (fs_files (fs s) !! logFile s) ->
  fs_dirs (fs (serve history s)) = fs_dirs (fs s) /\
  is_Some (fs_files (fs (serve history s)) !! logFile s).
Proof.
  revert s. induction history as [| [env req] history IH]; intros s Hsome; cbn [serve];
    [split; [reflexivity | exact Hsome] |].
  destruct (handle_request_appended env req s) as (Hdirs & _ & Hkeep & _).
  specialize (IH (handle_request env req s)).
  rewrite handle_request_logFile, Hdirs in IH. apply IH, Hkeep, Hsome.
Qed.

(** X4: serving requests only ever appends to the log file: the text the
    file had is a prefix of the text it has afterwards, and no directory
    and no other file is created, removed or changed. *)
Theorem log_file_append_only history s :
  appended_to (logFile s) (fs s) (fs (serve history s)).
Proof.
  revert s. induction history as [| [env req] history IH]; intros s; cbn [serve].
  - apply appended_to_refl.
  - eapply appended_to_trans; [apply handle_request_appended |].
    rewrite <- (handle_request_logFile env req s). apply IH.
Qed.

(** The requests counted and the lines written by one request. *)
Lemma request_lines env req s :
  let s' := handle_request env req s in
  let counted := total (httpRequests (registry s')) - total (httpRequests (registry s)) in
  let written := line_count (Fs.read (logFile s) (fs s'))
                 - line_count (Fs.read (logFile s) (fs s)) in
  written <= counted /\ (write_error env = None -> written = counted).
Proof.
  cbv zeta. destruct (handle_request_effect env req s) as (Hreg & Hfs & _).
  rewrite Hreg, Hfs. destruct (recorded env req s); [| split; lia].
  assert (Hone : total (httpRequests (record req (statusCode (res (handle_request env req s)))
                   (duration (hrtime_start env) (hrtime_finish env)) (registry s)))
                 = total (httpRequests (registry s)) + 1).
  { unfold record. destruct (is_success _);
      cbn [httpRequests inc_successRequests inc_errorRequests observe_httpDuration
           inc_httpRequests];
      rewrite total_inc; lia. }
  rewrite Hone. destruct (write_error env); [split; [lia | discriminate] |].
  rewrite read_append, line_count_app, (one_line_count _ (log_line_one_line _ _ _ _)).
  split; lia.
Qed.

Lemma serve_lines history s :
  let s' := serve history s in
  let counted := total (httpRequests (registry s')) - total (httpRequests (registry s)) in
  let written := line_count (Fs.read (logFile s) (fs s'))
                 - line_count (Fs.read (logFile s) (fs s)) in
  written <= counted /\
  (Forall (fun er : Env * Request => write_error er.1 = None) history -> written = counted).
Proof.
  cbv zeta. revert s. induction history as [| [env req] history IH]; intros s; cbn [serve].
  - split; lia.
  - destruct (request_lines env req s) as (Hle1 & Heq1).
    destruct (IH (handle_request env req s)) as (Hle & Heq).
    rewrite handle_request_logFile in Hle, Heq.
    split; [lia |]. intros Hok. apply Forall_cons in Hok as [Hw Hok]. cbn [fst] in Hw.
    specialize (Heq1 Hw). specialize (Heq Hok). lia.
Qed.

(** The start keeps what the disk holds. *)
Lemma start_disk L cwd disk s0 :
  start L cwd disk = Some s0 ->
  fs_dirs disk ⊆ fs_dirs (fs s0) /\
  (forall p text, fs_files disk !! p = Some text -> fs_files (fs s0) !! p = Some text) /\
  (forall p, p <> logFile s0 -> fs_files (fs s0) !! p = fs_files disk !! p).
Proof.
  unfold start. cbv zeta. set (dir := logsDir L cwd).
  assert (Hmk : forall disk1,
    (if Fs.existsSync dir disk then Some disk else Fs.mkdirSync_recursive dir disk)
    = Some disk1 ->
    fs_dirs disk ⊆ fs_dirs disk1 /\ fs_files disk1 = fs_files disk).
  { intros disk1. destruct (Fs.existsSync dir disk).
    - intros [= <-]. split; reflexivity.
    - unfold Fs.mkdirSync_recursive. destruct (existsb _ _); [discriminate |].
      intros [= <-]. cbn [fs_dirs fs_files]. split; [set_solver | reflexivity]. }
  destruct (if Fs.existsSync dir disk then Some disk else Fs.mkdirSync_recursive dir disk)
    as [disk1 |]; [| discriminate].
  destruct (Hmk disk1 eq_refl) as [Hdirs Hfiles]. cbn [mbind option_bind].
  unfold Fs.open_append. destruct (_ && _).
  - intros [= <-]. cbn [initial_state fs logFile fs_dirs fs_files]. rewrite Hfiles.
    split; [exact Hdirs |]. split.
    + intros p text Hp. destruct (decide (p = Path.join dir "app.log")) as [-> | Hne].
      * rewrite lookup_insert_eq, Hp. reflexivity.
      * rewrite lookup_insert_ne by congruence. exact Hp.
    + intros p Hne. apply lookup_insert_ne. congruence.
  - intros [= <-]. cbn. rewrite Hfiles. repeat split; [exact Hdirs | tauto].
Qed.

Lemma start_new_dirs L cwd disk s0 :
  start L cwd disk = Some s0 ->
  forall d, d ∈ fs_dirs (fs s0) -> d ∈ fs_dirs disk \/ d `prefix_of` logFile s0.
Proof.
  unfold start. cbv zeta. set (dir := logsDir L cwd).
  assert (Hmk : forall disk1,
    (if Fs.existsSync dir disk then Some disk else Fs.mkdirSync_recursive dir disk)
    = Some disk1 ->
    forall d, d ∈ fs_dirs disk1 -> d ∈ fs_dirs disk \/ d `prefix_of` dir).
  { intros disk1. destruct (Fs.existsSync dir disk).
    - intros [= <-] d Hd. left. exact Hd.
    - unfold Fs.mkdirSync_recursive. destruct (existsb _ _); [discriminate |].
      intros [= <-] d. cbn [fs_dirs]. rewrite elem_of_union, elem_of_list_to_set.
      intros [Hd | Hd]; [left; exact Hd | right; apply prefixes_prefix, Hd]. }
  destruct (if Fs.existsSync dir disk then Some disk else Fs.mkdirSync_recursive dir disk)
    as [disk1 |]; [| discriminate].
  specialize (Hmk disk1 eq_refl). cbn [mbind option_bind].
  assert (Hfile : dir `prefix_of` Path.join dir "app.log").
  { rewrite join_app_log. apply prefix_app_r. reflexivity. }
  unfold Fs.open_append. destruct (_ && _); intros [= <-] d Hd;
    (destruct (Hmk d Hd) as [H | H]; [left; exact H | right]);
    etrans; [exact H | exact Hfile | exact H | exact Hfile].
Qed.

Lemma start_read L cwd disk s0 :
  start L cwd disk = Some s0 -> Fs.read (logFile s0) (fs s0) = Fs.read (logFile s0) disk.
Proof.
  unfold start. cbv zeta. set (dir := logsDir L cwd).
  assert (Hmk : forall disk1,
    (if Fs.existsSync dir disk then Some disk else Fs.mkdirSync_recursive dir disk)
    = Some disk1 -> fs_files disk1 = fs_files disk).
  { intros disk1. destruct (Fs.existsSync dir disk).
    - intros [= <-]. reflexivity.
    - unfold Fs.mkdirSync_recursive. destruct (existsb _ _); [discriminate |].
      intros [= <-]. reflexivity. }
  destruct (if Fs.existsSync dir disk then Some disk else Fs.mkdirSync_recursive dir disk)
    as [disk1 |]; [| discriminate].
  specialize (Hmk disk1 eq_refl). cbn [mbind option_bind].
  unfold Fs.open_append, Fs.read. destruct (_ && _).
  - intros [= <-]. cbn [initial_state fs logFile fs_dirs fs_files].
    rewrite lookup_insert_eq, Hmk. reflexivity.
  - intros [= <-]. cbn. rewrite Hmk. reflexivity.
Qed.

(** X5: every line of the log file belongs to a request the counters
    count: after any requests served from the start, the number of line
    breaks added to [app.log] never exceeds the total of the request
    counter, and it equals that total when no write to the log stream has
    failed. *)
Theorem log_lines_match_requests L cwd disk s0 history :
  start L cwd disk = Some s0 ->
  let s := serve history s0 in
  let counted := total (httpRequests (registry s)) in
  let written := line_count (Fs.read (logFile s0) (fs s))
                 - line_count (Fs.read (logFile s0) disk) in
  written <= counted /\
  (Forall (fun er : Env * Request => write_error er.1 = None) history -> written = counted).
Proof.
  intros Hstart. cbv zeta.
  destruct (serve_lines history s0) as [Hle Heq].
  destruct (start_registry _ _ _ _ Hstart) as (Hreg & _).
  rewrite (start_read _ _ _ _ Hstart) in Hle, Heq.
  rewrite Hreg in Hle, Heq.
  change (total (httpRequests empty_registry)) with 0 in Hle, Heq.
  split; [| intros Hok; specialize (Heq Hok)]; lia.
Qed.

Lemma log_lines_match_requests_witness :
  line_count (Fs.read (logFile Sample.s0) (fs (serve More.mixed Sample.s0)))
  - line_count (Fs.read (logFile Sample.s0) Sample.disk)
  = total (httpRequests (registry (serve More.mixed Sample.s0))).
Proof.
  apply (log_lines_match_requests None [] Sample.disk Sample.s0 More.mixed);
    [vm_compute; reflexivity | repeat constructor].
Defined.

(** ** The other routes *)

(** A request whose response its handlers end, and that the body parser
    let through, is recorded on top of what the handlers left. *)
Lemma finished_request env req s :
  proc s = Running -> rejected req = false ->
  res_finished (res (handled env req s)) = true ->
  let s' := handle_request env req s in
  completed env req s = true /\
  res s' = res (handled env req s) /\
  span s' = span (handled env req s) /\
  registry s'
  = record req (statusCode (res (handled env req s)))
      (duration (hrtime_start env) (hrtime_finish env)) (registry s) /\
  calls s'
  = calls (handled env req s)
    ++ finish_calls env req (hrtime_start env) (statusCode (res (handled env req s))).
Proof.
  intros Hrun Hrej Hfin. cbv zeta.
  assert (Heq : handle_request env req s
                = snd (on_finish env req (hrtime_start env) (handled env req s))).
  { rewrite handle_request_eq, Hfin, Hrej by exact Hrun. reflexivity. }
  destruct (handled_frame env req s) as (Hreg & _).
  split.
  - rewrite completed_running by exact Hrun. exact Hfin.
  - rewrite Heq, on_finish_res, on_finish_span, on_finish_registry, on_finish_calls, Hreg.
    repeat split; reflexivity.
Qed.

(** A request that is not recorded stays as its handlers left it. *)
Lemma unfinished_request env req s :
  proc s = Running ->
  res_finished (res (handled env req s)) && negb (rejected req) = false ->
  handle_request env req s = handled env req s.
Proof. intros Hrun Hrec. rewrite handle_request_eq, Hrec by exact Hrun. reflexivity. Qed.

Lemma rejected_of_dispatch req :
  rejected req = match req_dispatch req with Rejected _ => true | _ => false end.
Proof. reflexivity. Qed.

Lemma label_200 : JSString.Number_toString (inject_Z 200) = "200"%string.
Proof. vm_compute. reflexivity. Qed.

Lemma label_304 : JSString.Number_toString (inject_Z 304) = "304"%string.
Proof. vm_compute. reflexivity. Qed.

Lemma root_run env req s :
  proc s = Running -> req_dispatch req = Matched RootRoute ->
  req_method req = "GET"%string -> json_error env = None ->
  res (handled env req s)
  = {| statusCode := if headers_fresh env then 304 else 200;
       res_body := Some (if headers_fresh env then BEmpty
                         else BJson (JObj [("ok", JBool true);
                                           ("message", JStr "Hello from demo app")]));
       res_finished := true;
       res_listeners := [MetricsOnFinish (hrtime_start env)] |} /\
  span (handled env req s)
  = Some {| span_name := "root_route"; span_status := status_of OK None;
            span_ended := true; span_end_calls := 1 |}.
Proof.
  intros Hrun Hroute Hget Hjson.
  unfold handled, app, express_json, metrics_middleware, router, req_route.
  rewrite Hroute. js_exec. rewrite Hjson. js_exec.
  rewrite (conditional_get env req Hget).
  destruct (headers_fresh env); split; reflexivity.
Qed.

(** X6: every GET dispatched to / for which [res.json] does not throw
    responds 200 with body {ok:true, message:"Hello from demo app"}, or,
    when the GET is conditional and its validators match the response,
    304 with no body; either way it sets the status of its span to OK and
    ends the span once, is counted in the series of its status code (200
    or 304) of the request counter, increments successRequests{route="/"}
    by exactly one and leaves errorRequests as it was. *)
Theorem root_route_behaviour env req s :
  proc s = Running -> req_dispatch req = Matched RootRoute ->
  req_method req = "GET"%string -> json_error env = None ->
  let s' := handle_request env req s in
  (if headers_fresh env
   then statusCode (res s') = 304 /\ res_body (res s') = Some BEmpty
   else statusCode (res s') = 200 /\
        res_body (res s')
        = Some (BJson (JObj [("ok", JBool true);
                             ("message", JStr "Hello from demo app")]))) /\
  span s' = Some {| span_name := "root_route"; span_status := status_of OK None;
                    span_ended := true; span_end_calls := 1 |} /\
  bumped ("GET", "/", if headers_fresh env then "304" else "200")%string
         (httpRequests (registry s)) (httpRequests (registry s')) /\
  bumped "/"%string (successRequests (registry s)) (successRequests (registry s')) /\
  untouched (errorRequests (registry s)) (errorRequests (registry s')).
Proof.
  intros Hrun Hroute Hget Hjson. cbv zeta.
  destruct (root_run env req s Hrun Hroute Hget Hjson) as [Hres Hspan].
  assert (Hrej : rejected req = false) by (rewrite rejected_of_dispatch, Hroute; reflexivity).
  assert (Hfin : res_finished (res (handled env req s)) = true) by (rewrite Hres; reflexivity).
  destruct (finished_request env req s Hrun Hrej Hfin) as (_ & Hres' & Hspan' & Hreg & _).
  assert (Hlabel : route_label req = "/"%string).
  { unfold route_label, req_route. rewrite Hroute. reflexivity. }
  rewrite Hres', Hspan', Hreg, Hres, Hspan. cbn [statusCode res_body].
  unfold record, finish_labels. rewrite Hlabel, Hget.
  destruct (headers_fresh env);
    [rewrite label_304; change (is_success 304) with true
    | rewrite label_200; change (is_success 200) with true];
    cbv iota;
    cbn [httpRequests successRequests errorRequests
         inc_successRequests observe_httpDuration inc_httpRequests];
    (split; [split; reflexivity |]); (split; [reflexivity |]);
    repeat split; first [apply inc_bumped | apply untouched_refl].
Qed.

Lemma root_route_behaviour_witness :
  statusCode (res (handle_request Sample.env_conditional (Sample.get "/" (Matched RootRoute))
                     Sample.s0)) = 304 /\
  res_body (res (handle_request Sample.env_conditional (Sample.get "/" (Matched RootRoute))
                   Sample.s0)) = Some BEmpty.
Proof.
  exact (proj1 (root_route_behaviour Sample.env_conditional
                  (Sample.get "/" (Matched RootRoute)) Sample.s0
                  eq_refl eq_refl eq_refl eq_refl)).
Defined.

Lemma metrics_run env req s :
  req_dispatch req = Matched MetricsRoute ->
  res (handled env req s)
  = {| statusCode := 200; res_body := Some (BMetrics (registry s));
       res_finished := true;
       res_listeners := [MetricsOnFinish (hrtime_start env)] |} /\
  span (handled env req s) = None /\
  calls (handled env req s) = calls s ++ [CResEnd].
Proof.
  intros Hroute.
  unfold handled, app, express_json, metrics_middleware, router, req_route.
  rewrite Hroute. js_exec. repeat split; reflexivity.
Qed.

(** X7: every GET dispatched to /metrics responds 200 with the
    instruments of server.js as they stood when the request arrived: the
    scrape does not count itself.  The handler opens no span and calls no
    [res.json]; the request is then recorded as a success of the route
    /metrics like any other. *)
Theorem metrics_route_behaviour env req s :
  proc s = Running -> req_dispatch req = Matched MetricsRoute ->
  let s' := handle_request env req s in
  statusCode (res s') = 200 /\
  res_body (res s') = Some (BMetrics (registry s)) /\
  span s' = None /\
  count is_span_start (new_calls s s') = 0%nat /\
  bumped (req_method req, "/metrics", "200")%string
         (httpRequests (registry s)) (httpRequests (registry s')) /\
  bumped "/metrics"%string (successRequests (registry s)) (successRequests (registry s')) /\
  untouched (errorRequests (registry s)) (errorRequests (registry s')).
Proof.
  intros Hrun Hroute. cbv zeta.
  destruct (metrics_run env req s Hroute) as (Hres & Hspan & Hcalls).
  assert (Hrej : rejected req = false) by (rewrite rejected_of_dispatch, Hroute; reflexivity).
  assert (Hfin : res_finished (res (handled env req s)) = true) by (rewrite Hres; reflexivity).
  destruct (finished_request env req s Hrun Hrej Hfin)
    as (_ & Hres' & Hspan' & Hreg & Hcalls').
  assert (Hlabel : route_label req = "/metrics"%string).
  { unfold route_label, req_route. rewrite Hroute. reflexivity. }
  assert (Hnew : new_calls s (handle_request env req s)
                 = CResEnd :: finish_calls env req (hrtime_start env) 200).
  { apply new_calls_app. rewrite Hcalls', Hcalls, Hres, <- app_assoc. reflexivity. }
  rewrite Hres', Hspan', Hreg, Hres, Hspan, Hnew. cbn [statusCode res_body].
  unfold record, finish_labels. rewrite Hlabel, label_200.
  change (is_success 200) with true. cbv iota.
  cbn [httpRequests successRequests errorRequests
       inc_successRequests observe_httpDuration inc_httpRequests].
  do 4 (split; [reflexivity |]).
  repeat split; first [apply inc_bumped | apply untouched_refl].
Qed.

Lemma metrics_route_behaviour_witness :
  res_body (res (handle_request Sample.env_ok (Sample.get "/metrics" (Matched MetricsRoute))
                   (handle_request Sample.env_ok (Sample.get "/" (Matched RootRoute))
                      Sample.s0)))
  = Some (BMetrics (registry (handle_request Sample.env_ok
                                (Sample.get "/" (Matched RootRoute)) Sample.s0))).
Proof.
  apply (metrics_route_behaviour Sample.env_ok (Sample.get "/metrics" (Matched MetricsRoute))
           (handle_request Sample.env_ok (Sample.get "/" (Matched RootRoute)) Sample.s0));
    vm_compute; reflexivity.
Defined.

(** X8: a request whose body the JSON parser rejects is answered by the
    default error handler with the status of the rejection, whatever its
    path and method; no middleware and no route of server.js runs for it:
    no call is made, no metric moves, nothing is logged on the standard
    output or in the log file. *)
Theorem rejected_body_behaviour env req s status :
  proc s = Running -> req_dispatch req = Rejected status ->
  let s' := handle_request env req s in
  completed env req s = true /\
  statusCode (res s') = status /\
  res_listeners (res s') = [] /\
  new_calls s s' = [] /\
  registry s' = registry s /\
  fs s' = fs s /\
  stdout s' = stdout s /\
  span s' = None.
Proof.
  intros Hrun Hroute. cbv zeta.
  assert (Hrej : rejected req = true) by (rewrite rejected_of_dispatch, Hroute; reflexivity).
  assert (Hrec : res_finished (res (handled env req s)) && negb (rejected req) = false).
  { rewrite Hrej. apply andb_false_r. }
  rewrite completed_running, (unfinished_request _ _ _ Hrun Hrec) by exact Hrun.
  unfold new_calls, handled, app, express_json. rewrite Hroute. js_exec.
  rewrite drop_all. repeat split; reflexivity.
Qed.

Lemma rejected_body_behaviour_witness :
  statusCode (res (handle_request Sample.env_ok Sample.bad_body Sample.s0)) = 400.
Proof.
  apply (rejected_body_behaviour Sample.env_ok Sample.bad_body Sample.s0 400); reflexivity.
Defined.

(** ** When [res.json] throws *)

Lemma on_finish_rejections env req start s :
  rejections (snd (on_finish env req start s)) = rejections s.
Proof. finish_cases env. Qed.

Lemma on_finish_stdout env req start s :
  stdout (snd (on_finish env req start s))
  = stdout s ++ [("info"%string,
                  logEntry (req_method req) (route_label req) (statusCode (res s))
                           (duration start (hrtime_finish env)),
                  "request_finished"%string)].
Proof. finish_cases env. Qed.

Lemma handled_finished env req s :
  res_finished (res (handled env req s)) = negb (json_fails env req).
Proof.
  unfold json_fails, answers_json. handler_cases env req; reflexivity.
Qed.

Lemma handled_rejections env req s :
  rejections (handled env req s)
  = rejections s ++ (if json_fails env req then option_list (json_error env) else []).
Proof.
  unfold json_fails, answers_json.
  handler_cases env req; cbn [option_list andb bool_decide]; rewrite ?app_nil_r; reflexivity.
Qed.

(** X9: when the handlers of server.js return, they have ended the
    response of every request but one: a request whose handler calls
    [res.json] when [res.json] throws.  Every other request leaves no
    promise rejected.  That one rejects the promise of its handler with
    the error, and at that point the finish listener is registered but the
    response has not been ended and nothing has been recorded: the
    registry and the log file are as they were, with no call on a metric
    and no log write.  (Whether the finish event follows the end of a
    response, and what becomes of the rejected promise, is not stated
    here.) *)
Theorem handlers_answer_unless_json_throws env req s :
  let s1 := handled env req s in
  res_finished (res s1) = negb (json_fails env req) /\
  (json_fails env req = false -> rejections s1 = rejections s) /\
  (forall err,
     json_fails env req = true -> json_error env = Some err ->
     rejections s1 = rejections s ++ [err] /\
     res_listeners (res s1) = [MetricsOnFinish (hrtime_start env)] /\
     registry s1 = registry s /\
     fs s1 = fs s /\
     filter (fun c => is_telemetry c = true) (new_calls s s1) = []).
Proof.
  cbv zeta. split; [apply handled_finished |]. split.
  - intros Hok. rewrite handled_rejections, Hok. apply app_nil_r.
  - intros err Hfails Hjson.
    destruct (handled_frame env req s) as (Hreg & Hfs & _).
    destruct (handled_calls env req s) as (pre & Hpre & Hquiet).
    rewrite handled_rejections, Hfails, Hjson, Hreg, Hfs, handled_listeners.
    rewrite (new_calls_app _ _ _ Hpre).
    assert (Hrej : rejected req = false).
    { unfold json_fails, answers_json, req_route in Hfails. unfold rejected.
      destruct (req_dispatch req); [discriminate | reflexivity | reflexivity]. }
    rewrite Hrej. repeat split. apply quiet_filter, Hquiet.
Qed.

Lemma handlers_answer_unless_json_throws_witness :
  res_finished (res (handled More.env_json_throws (Sample.get "/" (Matched RootRoute))
                       Sample.s0)) = false /\
  rejections (handled More.env_json_throws (Sample.get "/" (Matched RootRoute)) Sample.s0)
  = ["ERR_STREAM_DESTROYED"%string] /\
  res_finished (res (handled More.env_json_throws
                       (Sample.get "/metrics" (Matched MetricsRoute)) Sample.s0)) = true.
Proof.
  split; [| split].
  - apply (handlers_answer_unless_json_throws More.env_json_throws
             (Sample.get "/" (Matched RootRoute)) Sample.s0).
  - apply (proj2 (proj2 (handlers_answer_unless_json_throws More.env_json_throws
                           (Sample.get "/" (Matched RootRoute)) Sample.s0))
             "ERR_STREAM_DESTROYED"%string); reflexivity.
  - apply (handlers_answer_unless_json_throws More.env_json_throws
             (Sample.get "/metrics" (Matched MetricsRoute)) Sample.s0).
Defined.

(** X10: [GET /] and [GET /error] end their span on the straight path
    only: when [res.json] throws, the span they started is never ended and
    its status is never set, and [GET /error] has logged its error and set
    the status 500 of a response it never sends. *)
Theorem json_failure_leaves_span_open env req s err :
  proc s = Running ->
  req_dispatch req = Matched RootRoute \/ req_dispatch req = Matched ErrorRoute ->
  json_error env = Some err ->
  let s' := handle_request env req s in
  count is_span_start (new_calls s s') = 1%nat /\
  count is_span_end (new_calls s s') = 0%nat /\
  option_map span_ended (span s') = Some false /\
  option_map span_status (span s') = Some (status_of UNSET None) /\
  res_finished (res s') = false /\
  (req_dispatch req = Matched ErrorRoute ->
   statusCode (res s') = 500 /\
   stdout s' = stdout s ++ [("error"%string, JObj [("path", JStr "/error")],
                             "forced_error"%string)]).
Proof.
  intros Hrun Hroute Hjson. cbv zeta.
  unfold handle_request; rewrite Hrun.
  unfold new_calls, handled, app, express_json, metrics_middleware, router, req_route.
  destruct Hroute as [Hroute | Hroute]; rewrite Hroute; js_exec; rewrite Hjson; js_exec;
    rewrite <- ?app_assoc, drop_app_length;
    repeat split; discriminate.
Qed.

Lemma json_failure_leaves_span_open_witness :
  option_map span_ended
    (span (handle_request More.env_json_throws (Sample.get "/error" (Matched ErrorRoute))
             Sample.s0))
  = Some false.
Proof.
  apply (json_failure_leaves_span_open More.env_json_throws
           (Sample.get "/error" (Matched ErrorRoute)) Sample.s0 "ERR_STREAM_DESTROYED");
    [reflexivity | right; reflexivity | reflexivity].
Defined.

(** X11: when [res.json] throws in [GET /work], the [catch] block sets the
    status of the span to ERROR with the message of the exception and
    rethrows it, and the [finally] block ends the span.  On the success
    branch the span carries that status and is ended once; on the failure
    branch the span had been ended before [res.json] was called, so it
    keeps the status "Random failure" and [end()] is called twice. *)
Theorem work_json_failure env req s err :
  proc s = Running -> req_dispatch req = Matched WorkRoute ->
  json_error env = Some err ->
  let s' := handle_request env req s in
  In (CSetStatus (status_of ERROR (Some err))) (new_calls s s') /\
  rejections s' = rejections s ++ [err] /\
  option_map span_ended (span s') = Some true /\
  option_map span_status (span s')
  = Some (status_of ERROR
            (Some (if random_failure (random2 env) then "Random failure"%string else err))) /\
  option_map span_end_calls (span s')
  = Some (if random_failure (random2 env) then 2%nat else 1%nat).
Proof.
  intros Hrun Hroute Hjson. cbv zeta.
  unfold handle_request; rewrite Hrun.
  unfold new_calls, handled, app, express_json, metrics_middleware, router, req_route.
  rewrite Hroute. js_exec. rewrite Hjson.
  destruct (random_failure (random2 env)); js_exec;
    rewrite <- ?app_assoc, drop_app_length;
    (split; [cbn [In app]; repeat first [left; reflexivity | right] |]);
    repeat split; reflexivity.
Qed.

Lemma work_json_failure_witness :
  option_map span_status
    (span (handle_request More.env_json_throws (Sample.get "/work" (Matched WorkRoute))
             Sample.s0))
  = Some (status_of ERROR (Some "ERR_STREAM_DESTROYED"%string)).
Proof.
  apply (work_json_failure More.env_json_throws (Sample.get "/work" (Matched WorkRoute))
           Sample.s0 "ERR_STREAM_DESTROYED"); reflexivity.
Defined.

(** ** Traces and metrics agree *)

Lemma handle_request_res_span env req s :
  proc s = Running ->
  res (handle_request env req s) = res (handled env req s) /\
  span (handle_request env req s) = span (handled env req s).
Proof.
  intros Hrun. rewrite handle_request_eq by exact Hrun.
  destruct (_ && _); [rewrite on_finish_res, on_finish_span |]; split; reflexivity.
Qed.

(** X12: the span of a completed request has been ended, and its status
    agrees with the outcome counter the request is counted in: OK when the
    status of the response is counted as a success, ERROR when it is
    counted as an error, never left unset. *)
Theorem span_agrees_with_status env req s sp :
  completed env req s = true ->
  let s' := handle_request env req s in
  span s' = Some sp ->
  span_ended sp = true /\
  code (span_status sp) = (if is_success (statusCode (res s')) then OK else ERROR).
Proof.
  intros Hdone. cbv zeta.
  destruct (completed_handled _ _ _ Hdone) as [Hrun Hfin].
  destruct (handle_request_res_span env req s Hrun) as [-> ->].
  revert Hfin. handler_cases env req; intros Hfin Hsp;
    first [discriminate | injection Hsp as <-; split; reflexivity].
Qed.

Lemma span_agrees_with_status_witness :
  code (status_of ERROR (Some "Random failure"%string))
  = (if is_success (statusCode (res (handle_request Sample.env_fail
                                       (Sample.get "/work" (Matched WorkRoute)) Sample.s0)))
     then OK else ERROR).
Proof.
  apply (span_agrees_with_status Sample.env_fail (Sample.get "/work" (Matched WorkRoute))
           Sample.s0
           {| span_name := "work_route";
              span_status := status_of ERROR (Some "Random failure"%string);
              span_ended := true; span_end_calls := 2 |});
    vm_compute; reflexivity.
Defined.

(** ** The standard output *)

Lemma finished_lines_app (a b : list (string * JSON * string)) :
  finished_lines (a ++ b) = finished_lines a + finished_lines b.
Proof. unfold finished_lines. rewrite filter_app, length_app. lia. Qed.

Lemma handled_stdout env req s :
  finished_lines (stdout (handled env req s)) = finished_lines (stdout s).
Proof.
  handler_cases env req; rewrite ?finished_lines_app;
    change (finished_lines [_]) with 0; lia.
Qed.

Lemma record_total req status delta r :
  total (httpRequests (record req status delta r)) = total (httpRequests r) + 1.
Proof.
  unfold record. destruct (is_success status);
    cbn [httpRequests inc_successRequests inc_errorRequests observe_httpDuration
         inc_httpRequests];
    rewrite total_inc; lia.
Qed.

Lemma request_stdout env req s :
  finished_lines (stdout (handle_request env req s)) - finished_lines (stdout s)
  = total (httpRequests (registry (handle_request env req s)))
    - total (httpRequests (registry s)).
Proof.
  destruct (proc s) eqn:Hrun.
  - rewrite handle_request_eq by exact Hrun.
    destruct (handled_frame env req s) as (Hreg & _).
    destruct (_ && _).
    + rewrite on_finish_stdout, on_finish_registry, finished_lines_app, handled_stdout,
        record_total, Hreg.
      change (finished_lines [_]) with 1. lia.
    + rewrite handled_stdout, Hreg. lia.
  - unfold handle_request. rewrite Hrun. lia.
Qed.

Lemma serve_stdout history s :
  finished_lines (stdout (serve history s)) - finished_lines (stdout s)
  = total (httpRequests (registry (serve history s))) - total (httpRequests (registry s)).
Proof.
  revert s. induction history as [| [env req] history IH]; intros s; cbn [serve]; [lia |].
  specialize (IH (handle_request env req s)).
  assert (Hstep := request_stdout env req s). lia.
Qed.

(** X13: the standard output carries exactly one line [request_finished]
    for every request the request counter counts, also for the request
    whose log write ended the process: the line is logged before the
    write. *)
Theorem stdout_lines_match_requests L cwd disk s0 history :
  start L cwd disk = Some s0 ->
  finished_lines (stdout (serve history s0))
  = total (httpRequests (registry (serve history s0))).
Proof.
  intros Hstart. destruct (start_registry _ _ _ _ Hstart) as (Hreg & _ & Hout & _).
  assert (H := serve_stdout history s0). rewrite Hreg, Hout in H.
  change (finished_lines []) with 0 in H.
  change (total (httpRequests empty_registry)) with 0 in H. lia.
Qed.

Lemma stdout_lines_match_requests_witness :
  finished_lines (stdout (serve More.crashing Sample.s0)) = 2 /\
  total (httpRequests (registry (serve More.crashing Sample.s0))) = 2.
Proof.
  assert (Hstart : start None [] Sample.disk = Some Sample.s0) by (vm_compute; reflexivity).
  assert (H := stdout_lines_match_requests None [] Sample.disk Sample.s0 More.crashing Hstart).
  split; [vm_compute; reflexivity | rewrite <- H; vm_compute; reflexivity].
Defined.

(** ** Start and restart *)

(** X14: the start of the process keeps what the disk holds: every
    directory and every file is still there with its content, [app.log]
    included, which is opened for appending; nothing but [app.log] and the
    directories of its path is created. *)
Theorem start_keeps_disk L cwd disk s0 :
  start L cwd disk = Some s0 ->
  fs_dirs disk ⊆ fs_dirs (fs s0) /\
  (forall p text, fs_files disk !! p = Some text -> fs_files (fs s0) !! p = Some text) /\
  (forall p, p <> logFile s0 -> fs_files (fs s0) !! p = fs_files disk !! p) /\
  (forall d, d ∈ fs_dirs (fs s0) -> d ∈ fs_dirs disk \/ d `prefix_of` logFile s0) /\
  Fs.read (logFile s0) (fs s0) = Fs.read (logFile s0) disk.
Proof.
  intros Hstart. destruct (start_disk _ _ _ _ Hstart) as (Hdirs & Hkeep & Hother).
  split; [exact Hdirs |]. split; [exact Hkeep |]. split; [exact Hother |].
  split; [| apply (start_read _ _ _ _ Hstart)].
  apply (start_new_dirs _ _ _ _ Hstart).
Qed.

Lemma start_keeps_disk_witness :
  Fs.read (logFile More.s1) (fs More.s1) = "old line"%string.
Proof.
  rewrite (proj2 (proj2 (proj2 (proj2
    (start_keeps_disk None [] More.used_disk More.s1 eq_refl))))).
  vm_compute. reflexivity.
Defined.

(** What a start that leaves the process running has found or made. *)
Lemma start_running L cwd disk s0 :
  start L cwd disk = Some s0 -> proc s0 = Running ->
  logFile s0 = logsDir L cwd ++ ["app.log"%string] /\
  Fs.is_dir (logsDir L cwd) (fs s0) = true /\
  Fs.is_dir (logFile s0) (fs s0) = false /\
  is_Some (fs_files (fs s0) !! logFile s0).
Proof.
  unfold start. cbv zeta. set (dir := logsDir L cwd).
  destruct (if Fs.existsSync dir disk then Some disk else Fs.mkdirSync_recursive dir disk)
    as [disk1 |]; [| discriminate].
  cbn [mbind option_bind]. rewrite join_app_log.
  unfold Fs.open_append.
  destruct (Fs.is_dir (removelast (dir ++ ["app.log"%string])) disk1
            && negb (Fs.is_dir (dir ++ ["app.log"%string]) disk1)) eqn:Hopen.
  - intros [= <-] _. cbn [initial_state fs logFile].
    apply andb_prop in Hopen as [Hdir Hfile]. rewrite removelast_last in Hdir.
    apply negb_true_iff in Hfile.
    split; [reflexivity |]. split; [exact Hdir |]. split; [exact Hfile |].
    cbn [fs_files]. rewrite lookup_insert_eq. eexists. reflexivity.
  - intros [= <-]. cbn. discriminate.
Qed.

Lemma is_dir_dirs p d d' : fs_dirs d' = fs_dirs d -> Fs.is_dir p d' = Fs.is_dir p d.
Proof. intros H. unfold Fs.is_dir. rewrite H. reflexivity. Qed.

(** X15: the process can be started again on the disk that any run has
    left: the start finds the log directory and reopens [app.log] for
    appending, leaves the disk exactly as it is, the lines of earlier runs
    included, and starts from an empty registry.  The log file outlives
    the process; the metrics do not. *)
Theorem restart_keeps_log L cwd disk s0 history :
  start L cwd disk = Some s0 -> proc s0 = Running ->
  exists s1,
    start L cwd (fs (serve history s0)) = Some s1 /\
    proc s1 = Running /\
    logFile s1 = logFile s0 /\
    fs s1 = fs (serve history s0) /\
    registry s1 = empty_registry.
Proof.
  intros Hstart Hrun.
  destruct (start_running _ _ _ _ Hstart Hrun) as (Hfile & Hdir & Hnodir & Hsome).
  destruct (serve_keeps_log history s0 Hsome) as (Hdirs & text & Htext).
  set (final := fs (serve history s0)) in *.
  exists (initial_state final (logFile s0) Running).
  split; [| repeat split].
  unfold start. cbv zeta. unfold Fs.existsSync.
  rewrite (is_dir_dirs _ _ _ Hdirs), Hdir. cbn [orb mbind option_bind].
  rewrite join_app_log, <- Hfile. unfold Fs.open_append.
  rewrite (is_dir_dirs (logFile s0) _ _ Hdirs), Hnodir.
  rewrite Hfile at 1. rewrite removelast_last, (is_dir_dirs _ _ _ Hdirs), Hdir.
  cbn [andb negb]. rewrite Htext. cbn [default from_option id].
  rewrite insert_id by exact Htext. destruct final. reflexivity.
Qed.

Lemma restart_keeps_log_witness :
  exists s1,
    start None [] (fs (serve More.mixed Sample.s0)) = Some s1 /\
    proc s1 = Running /\
    logFile s1 = logFile Sample.s0 /\
    fs s1 = fs (serve More.mixed Sample.s0) /\
    registry s1 = empty_registry.
Proof.
  apply (restart_keeps_log None [] Sample.disk Sample.s0 More.mixed); vm_compute; reflexivity.
Defined.

(** ** The path of the log directory *)

Lemma clean_removelast (p : list string) :
  Forall clean_segment p -> Forall clean_segment (removelast p).
Proof.
  induction p as [| seg [| seg' rest] IH]; intros H; cbn [removelast];
    [constructor | constructor |].
  inversion H; subst. constructor; [assumption | apply IH; assumption].
Qed.

Lemma clean_step (acc : list string) (seg : string) :
  Forall clean_segment acc -> Forall clean_segment (Path.step acc seg).
Proof.
  intros Hacc. unfold Path.step.
  destruct (String.eqb_spec seg EmptyString) as [_ | Hne]; [exact Hacc |].
  destruct (String.eqb_spec seg ".") as [_ | Hdot]; [exact Hacc |].
  destruct (String.eqb_spec seg "..") as [_ | Hup]; [apply clean_removelast, Hacc |].
  apply Forall_app. split; [exact Hacc |].
  constructor; [| constructor]. repeat split; assumption.
Qed.

Lemma clean_normalize (base segs : list string) :
  Forall clean_segment base -> Forall clean_segment (Path.normalize base segs).
Proof.
  unfold Path.normalize. revert base.
  induction segs as [| seg segs IH]; intros base Hbase; cbn [fold_left];
    [exact Hbase | apply IH, clean_step, Hbase].
Qed.

(** X16: the log directory and the log file are normalized absolute
    paths: whatever [LOGS_DIR] holds (doubled slashes, [.] and [..], a
    relative path, the empty string), no segment of the resolved path is
    empty, [.] or [..], provided the working directory is itself
    normalized; and the file is the entry [app.log] of the directory. *)
Theorem log_paths_normalized L cwd :
  Forall clean_segment cwd ->
  Forall clean_segment (logsDir L cwd) /\
  Forall clean_segment (Path.join (logsDir L cwd) "app.log") /\
  Path.join (logsDir L cwd) "app.log" = logsDir L cwd ++ ["app.log"%string].
Proof.
  intros Hcwd.
  assert (Hdir : Forall clean_segment (logsDir L cwd)).
  { unfold logsDir, Path.resolve.
    destruct (Path.isAbsolute _); apply clean_normalize; [constructor | exact Hcwd]. }
  split; [exact Hdir |]. split; [| apply join_app_log].
  unfold Path.join. apply clean_normalize, Hdir.
Qed.

Lemma log_paths_normalized_witness :
  Forall clean_segment (logsDir (Some "../var//log/./demo/"%string) ["srv"; "app"]%string).
Proof.
  apply (log_paths_normalized (Some "../var//log/./demo/"%string) ["srv"; "app"]%string).
  repeat constructor; discriminate.
Defined.

(** ** The label of the status code *)

Lemma status_label_check :
  forallb (fun z =>
             String.eqb (JSString.Number_toString (inject_Z (z + 100)))
               (String (JSString.digit_char ((z + 100) / 100))
                  (String (JSString.digit_char ((z + 100) / 10 mod 10))
                     (String (JSString.digit_char ((z + 100) mod 10)) EmptyString))))
          (seqZ 0 900) = true.
Proof. vm_compute. reflexivity. Qed.

(** X17: the label [status_code] of a request is the decimal numeral of
    the status of the response: for every status from 100 to 999, the
    three digits of the status, with no sign, exponent or fraction; so
    two statuses never share a series. *)
Theorem status_label_decimal req status :
  100 <= status < 1000 ->
  snd (finish_labels req status)
  = String (JSString.digit_char (status / 100))
      (String (JSString.digit_char (status / 10 mod 10))
         (String (JSString.digit_char (status mod 10)) EmptyString)).
Proof.
  intros Hstatus. unfold finish_labels. cbn [snd].
  assert (H := below_forallb _ _ status_label_check (status - 100) ltac:(lia)).
  cbv beta in H. replace (status - 100 + 100) with status in H by lia.
  apply String.eqb_eq, H.
Qed.

Lemma status_label_decimal_witness :
  snd (finish_labels (Sample.get "/" (Matched RootRoute)) 404) = "404"%string.
Proof.
  rewrite (status_label_decimal (Sample.get "/" (Matched RootRoute)) 404 ltac:(lia)).
  reflexivity.
Defined.

(** ** Every simulated delay occurs *)

Lemma simulated_ms_check :
  forallb (fun m =>
             let u := Binary64.literal ((2 * m + 1) # 1000) in
             Qeq_bool (Binary64.round u) u && Qle_bool 0 u && Binary64.Qltb u 1
             && (simulated_ms u =? m))
          (seqZ 0 500) = true.
Proof. vm_compute. reflexivity. Qed.

(** X18: every integer of [0, 500) is the delay of [GET /work] for some
    draw: there is a binary64 [u] of [0, 1) with [floor(u * 500) = m]. *)
Theorem simulated_ms_onto (m : Z) :
  0 <= m < 500 ->
  exists u, Binary64.representable u /\ (0 <= u)%Q /\ (u < 1)%Q /\ simulated_ms u = m.
Proof.
  intros Hm. assert (H := below_forallb _ _ simulated_ms_check m Hm).
  cbv beta zeta in H.
  apply andb_prop in H as [H Hms]. apply andb_prop in H as [H Hlt].
  apply andb_prop in H as [Hrep Hle].
  exists (Binary64.literal ((2 * m + 1) # 1000)).
  split; [apply Qeq_bool_iff, Hrep |].
  split; [apply Qle_bool_iff, Hle |].
  split; [| apply Z.eqb_eq, Hms].
  unfold Binary64.Qltb in Hlt. apply negb_true_iff in Hlt.
  apply Qnot_le_lt. intros Hge. apply Qle_bool_iff in Hge. congruence.
Qed.

Lemma simulated_ms_onto_witness :
  exists u, Binary64.representable u /\ (0 <= u)%Q /\ (u < 1)%Q /\ simulated_ms u = 499.
Proof. apply (simulated_ms_onto 499). lia. Defined.

(** ** Rounding keeps the order *)

Module Binary64Order.
Import Binary64 Binary64Facts.
Local Open Scope Q_scope.

Lemma rne_compat (a b : Q) : a == b -> rne a = rne b.
Proof.
intros Hab. unfold rne. rewrite (Qfloor_comp _ _ Hab).
assert (E : a - inject_Z (Qfloor b) == b - inject_Z (Qfloor b)) by (rewrite Hab; reflexivity).
rewrite (Qcompare_comp _ _ E _ _ (Qeq_refl (1 # 2))). reflexivity.
Qed.

Lemma rne_mono (a b : Q) : a <= b -> (rne a <= rne b)%Z.
Proof.
intros Hab.
destruct (Z_le_gt_dec (rne a) (rne b)) as [Hle | Hgt]; [exact Hle |].
assert (Ha := rne_error a). assert (Hb := rne_error b).
apply Qabs_Qle_condition in Ha, Hb.
assert (Hz : inject_Z (rne b) + 1 <= inject_Z (rne a)).
{ change 1 with (inject_Z 1). rewrite <- inject_Z_plus, <- Zle_Qle. lia. }
assert (E : a == b) by lra.
rewrite (rne_compat _ _ E). lia.
Qed.

Lemma rne_Z (n : Z) : rne (inject_Z n) = n.
Proof.
unfold rne. rewrite Qfloor_Z.
assert (E : inject_Z n - inject_Z n == 0) by ring.
rewrite (Qcompare_comp _ _ E _ _ (Qeq_refl (1 # 2))). reflexivity.
Qed.

Lemma pow2_mono (a b : Z) : (a <= b)%Z -> pow2 a <= pow2 b.
Proof. intros Hab. unfold pow2. apply Qpower_le_compat_l; [exact Hab | discriminate]. Qed.

Lemma pow2_52 : pow2 52 == inject_Z (2 ^ 52).
Proof. reflexivity. Qed.

Lemma pow2_succ (e : Z) : pow2 (e + 1) == 2 * pow2 e.
Proof. rewrite pow2_add. change (pow2 1) with 2. ring. Qed.

Lemma ulp_binade (q : Q) : pow2 (binade q) == inject_Z (2 ^ 52) * ulp q.
Proof.
unfold ulp, mantissa_bits. rewrite <- pow2_52, <- pow2_add.
replace (52 + (binade q - 52))%Z with (binade q) by lia. reflexivity.
Qed.

(** The rounding of [q > 0] stays in the closure of the binade of [q]. *)
Lemma round_pos_binade (q : Q) :
  0 < q -> pow2 (binade q) <= round_pos q /\ round_pos q <= pow2 (binade q + 1).
Proof.
intros Hq. destruct (binade_spec q Hq) as [Hlo Hhi].
assert (Hu := ulp_pos q). assert (Hb := ulp_binade q).
rewrite pow2_succ in Hhi |- *. rewrite round_pos_eq, Hb.
assert (H1 : inject_Z (2 ^ 52) <= q / ulp q).
{ apply Qle_shift_div_l; [exact Hu | rewrite <- Hb; exact Hlo]. }
assert (H2 : q / ulp q <= inject_Z (2 ^ 53)).
{ apply Qle_shift_div_r; [exact Hu |].
  change (inject_Z (2 ^ 53)) with (2 * inject_Z (2 ^ 52)).
  rewrite <- Qmult_assoc, <- Hb. lra. }
apply rne_mono in H1, H2. rewrite rne_Z in H1, H2.
split.
- apply Qmult_le_compat_r; [rewrite <- Zle_Qle; exact H1 | lra].
- rewrite Qmult_assoc. change (2 * inject_Z (2 ^ 52)) with (inject_Z (2 ^ 53)).
  apply Qmult_le_compat_r; [rewrite <- Zle_Qle; exact H2 | lra].
Qed.

Lemma binade_mono (x y : Q) : 0 < x -> x <= y -> (binade x <= binade y)%Z.
Proof.
intros Hx Hxy. assert (Hy : 0 < y) by lra.
destruct (binade_spec x Hx) as [Hlo _]. destruct (binade_spec y Hy) as [_ Hhi].
assert (H : pow2 (binade x) < pow2 (binade y + 1)) by lra.
apply pow2_lt_inv in H. lia.
Qed.

Lemma round_pos_mono (x y : Q) : 0 < x -> x <= y -> round_pos x <= round_pos y.
Proof.
intros Hx Hxy. assert (Hy : 0 < y) by lra.
assert (He := binade_mono x y Hx Hxy).
destruct (Z.eq_dec (binade x) (binade y)) as [Heq | Hne].
- rewrite !round_pos_eq. unfold ulp. rewrite Heq.
  fold (ulp y). assert (Hu := ulp_pos y).
  apply Qmult_le_compat_r; [| lra].
  rewrite <- Zle_Qle. apply rne_mono.
  apply Qle_shift_div_l; [exact Hu |].
  assert (E : x / ulp y * ulp y == x) by (field; lra). rewrite E. exact Hxy.
- destruct (round_pos_binade x Hx) as [_ Hhi].
  destruct (round_pos_binade y Hy) as [Hlo _].
  assert (Hp : pow2 (binade x + 1) <= pow2 (binade y)) by (apply pow2_mono; lia).
  lra.
Qed.

Lemma round_mono (x y : Q) : 0 <= x -> x <= y -> round x <= round y.
Proof.
intros Hx Hxy. assert (Hy : 0 <= y) by lra.
assert (Hry := round_nonneg y Hy).
unfold round in *.
destruct (Qcompare_spec x 0) as [_ | Hl | Hg]; [exact Hry | lra |].
destruct (Qcompare_spec y 0) as [He | Hl | Hg']; [lra | lra |].
apply round_pos_mono; assumption.
Qed.

End Binary64Order.

(** X19: the recorded duration keeps the order of the clock: of two
    requests that started at the same reading, the one whose finish
    callback reads the later time never records the smaller duration; the
    two roundings to binary64 do not swap them. *)
Theorem duration_keeps_order (start finish1 finish2 : Z) :
  start <= finish1 -> finish1 <= finish2 ->
  (duration start finish1 <= duration start finish2)%Q.
Proof.
  intros H1 H2. unfold duration, Binary64.div, Binary64.of_bigint.
  assert (Ha : (0 <= inject_Z (finish1 - start))%Q).
  { change 0%Q with (inject_Z 0). rewrite <- Zle_Qle. lia. }
  assert (Hab : (inject_Z (finish1 - start) <= inject_Z (finish2 - start))%Q).
  { rewrite <- Zle_Qle. lia. }
  assert (HN := Binary64Order.round_mono _ _ Ha Hab).
  assert (HN0 := Binary64Facts.round_nonneg _ Ha).
  set (N1 := Binary64.round (inject_Z (finish1 - start))) in *.
  set (N2 := Binary64.round (inject_Z (finish2 - start))) in *.
  change (inject_Z (10 ^ 9)) with 1000000000%Q.
  assert (Ediv : forall a : Q, (a / 1000000000 == a * (1 # 1000000000))%Q)
    by (intros a; field).
  apply Binary64Order.round_mono; rewrite !Ediv; lra.
Qed.

Lemma duration_keeps_order_witness :
  (duration 1000 1235567 <= duration 1000 1235568)%Q.
Proof. apply (duration_keeps_order 1000 1235567 1235568); lia. Defined.

(** ** What ends the process *)

Lemma request_crash env req s err :
  proc s = Running -> proc (handle_request env req s) = Crashed err ->
  recorded env req s = true /\ write_error env = Some err.
Proof.
  intros Hrun Hcrash. destruct (handle_request_effect env req s) as (_ & _ & Hproc).
  rewrite Hproc, Hrun in Hcrash.
  destruct (recorded env req s); [| discriminate].
  destruct (write_error env) as [e |]; [| discriminate].
  injection Hcrash as ->. split; reflexivity.
Qed.

Lemma request_no_rejection env req s :
  json_error env = None -> rejections (handle_request env req s) = rejections s.
Proof.
  intros Hjson. destruct (proc s) eqn:Hrun.
  - assert (Hok : json_fails env req = false).
    { unfold json_fails. rewrite Hjson. apply andb_false_r. }
    rewrite handle_request_eq by exact Hrun.
    destruct (_ && _); [rewrite on_finish_rejections |];
      rewrite handled_rejections, Hok; apply app_nil_r.
  - unfold handle_request. rewrite Hrun. reflexivity.
Qed.

(** X20: a run in which [res.json] never throws leaves no promise of a
    handler rejected, and it can end the process in one way only: if the
    process has crashed with an error after the run, some request of the
    run had its write to the log stream fail with that error.  No response
    status and no branch of a handler ends the process. *)
Theorem process_ends_only_on_write_failure history s err :
  proc s = Running ->
  Forall (fun er : Env * Request => json_error er.1 = None) history ->
  rejections (serve history s) = rejections s /\
  (proc (serve history s) = Crashed err ->
   exists env req, In (env, req) history /\ write_error env = Some err).
Proof.
  intros Hrun Hjson. revert s Hrun.
  induction Hjson as [| [env req] history Hok Hjson IH]; intros s Hrun; cbn [serve];
    [split; [reflexivity | congruence] |].
  cbn [fst] in Hok. destruct (proc (handle_request env req s)) eqn:Hstep.
  - destruct (IH _ Hstep) as [Hrej Hcrash].
    rewrite Hrej, (request_no_rejection _ _ _ Hok). split; [reflexivity |].
    intros Hfinal. destruct (Hcrash Hfinal) as (env' & req' & Hin & Hw).
    exists env', req'. split; [right; exact Hin | exact Hw].
  - rewrite (serve_crashed _ _ _ Hstep), Hstep, (request_no_rejection _ _ _ Hok).
    split; [reflexivity |]. intros [= ->].
    destruct (request_crash _ _ _ _ Hrun Hstep) as [_ Hw].
    exists env, req. split; [left; reflexivity | exact Hw].
Qed.

Lemma process_ends_only_on_write_failure_witness :
  exists env req, In (env, req) More.crashing /\ write_error env = Some "ENOSPC"%string.
Proof.
  apply (process_ends_only_on_write_failure More.crashing Sample.s0 "ENOSPC");
    [vm_compute; reflexivity | repeat constructor | vm_compute; reflexivity].
Defined.

(** ** Responses and counters do not depend on the past *)

Lemma handled_status env req s1 s2 :
  statusCode (res (handled env req s1)) = statusCode (res (handled env req s2)) /\
  res_finished (res (handled env req s1)) = res_finished (res (handled env req s2)).
Proof. handler_cases env req; split; reflexivity. Qed.

Lemma handled_stateless env req s1 s2 :
  req_dispatch req <> Matched MetricsRoute ->
  res (handled env req s1) = res (handled env req s2) /\
  span (handled env req s1) = span (handled env req s2).
Proof.
  intros Hroute. revert Hroute. handler_cases env req; intros Hroute;
    first [split; reflexivity | congruence].
Qed.

(** X21: the handlers keep no state of their own: the response to a
    request and its span depend on the request and on the draws of the
    request only, not on the requests served before; the one exception is
    [GET /metrics], whose body is the registry. *)
Theorem response_independent_of_history env req s1 s2 :
  proc s1 = Running -> proc s2 = Running ->
  req_dispatch req <> Matched MetricsRoute ->
  res (handle_request env req s1) = res (handle_request env req s2) /\
  span (handle_request env req s1) = span (handle_request env req s2).
Proof.
  intros Hrun1 Hrun2 Hroute.
  destruct (handle_request_res_span env req s1 Hrun1) as [-> ->].
  destruct (handle_request_res_span env req s2 Hrun2) as [-> ->].
  apply handled_stateless, Hroute.
Qed.

Lemma response_independent_of_history_witness :
  res (handle_request Sample.env_fail (Sample.get "/work" (Matched WorkRoute)) Sample.s0)
  = res (handle_request Sample.env_fail (Sample.get "/work" (Matched WorkRoute))
           (serve More.mixed Sample.s0)).
Proof.
  apply (response_independent_of_history Sample.env_fail
           (Sample.get "/work" (Matched WorkRoute)) Sample.s0 (serve More.mixed Sample.s0));
    [vm_compute; reflexivity | vm_compute; reflexivity | discriminate].
Defined.

Lemma same_counts_refl r : same_counts r r.
Proof. repeat split. Qed.

Lemma same_counts_trans a b c : same_counts a b -> same_counts b c -> same_counts a c.
Proof.
  intros (H1 & H2 & H3 & H4) (G1 & G2 & G3 & G4).
  split; [congruence |]. split; [congruence |]. split; [congruence |].
  intros k. destruct (H4 k) as [-> ->]. apply G4.
Qed.

Lemma series_observe (k r : Labels) (v : Q) (m : gmap Labels Histogram) :
  Prom.series r (Prom.observe k v m)
  = if decide (r = k) then Prom.observe_one v (Prom.series r m) else Prom.series r m.
Proof.
  destruct (observe_observed k v m) as [Hsame Hother].
  destruct (decide (r = k)) as [-> | Hne]; [exact Hsame | apply Hother, Hne].
Qed.

Lemma inc_comm `{Countable K} (k1 k2 : K) (m : gmap K Z) :
  Prom.inc k1 (Prom.inc k2 m) = Prom.inc k2 (Prom.inc k1 m).
Proof.
  unfold Prom.inc. destruct (decide (k1 = k2)) as [-> | Hne]; [reflexivity |].
  rewrite !lookup_insert_ne by congruence. apply insert_insert_ne. congruence.
Qed.

Lemma observe_one_buckets_comm (v1 v2 : Q) (h : Histogram) :
  hist_buckets (Prom.observe_one v1 (Prom.observe_one v2 h))
  = hist_buckets (Prom.observe_one v2 (Prom.observe_one v1 h)).
Proof.
  cbn [Prom.observe_one hist_buckets]. rewrite !map_map. apply map_ext.
  intros [ub n]. cbn [fst snd].
  destruct (Qle_bool v1 ub) eqn:H1; destruct (Qle_bool v2 ub) eqn:H2;
    cbn [fst snd]; rewrite ?H1, ?H2; reflexivity.
Qed.

Lemma record_same_counts req status delta r1 r2 :
  same_counts r1 r2 ->
  same_counts (record req status delta r1) (record req status delta r2).
Proof.
  intros (H1 & H2 & H3 & H4). unfold record.
  destruct (is_success status);
    (split; [| split; [| split]];
     cbn [httpRequests successRequests errorRequests httpDuration
          inc_successRequests inc_errorRequests observe_httpDuration inc_httpRequests];
     [congruence | congruence | congruence |]);
    intros k; rewrite !series_observe; destruct (H4 k) as [Hb Hc];
    destruct (decide _); cbn [Prom.observe_one hist_buckets hist_count];
    rewrite ?Hb, ?Hc; split; reflexivity.
Qed.

Lemma record_comm req1 status1 delta1 req2 status2 delta2 r :
  same_counts (record req1 status1 delta1 (record req2 status2 delta2 r))
              (record req2 status2 delta2 (record req1 status1 delta1 r)).
Proof.
  unfold record.
  destruct (is_success status1); destruct (is_success status2);
    (split; [| split; [| split]];
     cbn [httpRequests successRequests errorRequests httpDuration
          inc_successRequests inc_errorRequests observe_httpDuration inc_httpRequests];
     [first [apply inc_comm | reflexivity] ..|]);
    intros k; rewrite !series_observe;
    destruct (decide (k = finish_labels req1 status1));
    destruct (decide (k = finish_labels req2 status2));
    (split; [first [apply observe_one_buckets_comm | reflexivity]
            | cbn [Prom.observe_one hist_count]; reflexivity]).
Qed.

(** The registry after a request that is served, as a function of the
    registry before it. *)
Lemma request_registry env req s :
  proc s = Running ->
  registry (handle_request env req s)
  = (if res_finished (res (handled env req s)) && negb (rejected req)
     then record req (statusCode (res (handled env req s)))
            (duration (hrtime_start env) (hrtime_finish env))
     else id) (registry s).
Proof.
  intros Hrun. rewrite handle_request_eq by exact Hrun.
  destruct (handled_frame env req s) as (Hreg & _).
  destruct (_ && _); [rewrite on_finish_registry |]; rewrite Hreg; reflexivity.
Qed.

Lemma request_stays_running env req s :
  proc s = Running -> write_error env = None -> proc (handle_request env req s) = Running.
Proof.
  intros Hrun Hw. destruct (handle_request_effect env req s) as (_ & _ & Hproc).
  rewrite Hproc, Hw, Hrun. destruct (recorded env req s); reflexivity.
Qed.

Lemma step_counts env req s1 s2 :
  proc s1 = Running -> proc s2 = Running ->
  same_counts (registry s1) (registry s2) ->
  same_counts (registry (handle_request env req s1)) (registry (handle_request env req s2)).
Proof.
  intros Hrun1 Hrun2 Hsame.
  rewrite !request_registry by assumption.
  destruct (handled_status env req s1 s2) as [-> ->].
  destruct (_ && _); [apply record_same_counts, Hsame | exact Hsame].
Qed.

Lemma swap_counts env1 req1 env2 req2 s :
  proc s = Running -> write_error env1 = None -> write_error env2 = None ->
  same_counts
    (registry (handle_request env1 req1 (handle_request env2 req2 s)))
    (registry (handle_request env2 req2 (handle_request env1 req1 s))).
Proof.
  intros Hrun Hw1 Hw2.
  assert (Hrun1 := request_stays_running env1 req1 s Hrun Hw1).
  assert (Hrun2 := request_stays_running env2 req2 s Hrun Hw2).
  rewrite (request_registry env1 req1 _ Hrun2), (request_registry env2 req2 _ Hrun1).
  rewrite (request_registry env1 req1 s Hrun), (request_registry env2 req2 s Hrun).
  destruct (handled_status env1 req1 (handle_request env2 req2 s) s) as [-> ->].
  destruct (handled_status env2 req2 (handle_request env1 req1 s) s) as [-> ->].
  destruct (res_finished (res (handled env1 req1 s)) && negb (rejected req1));
    destruct (res_finished (res (handled env2 req2 s)) && negb (rejected req2));
    first [apply record_comm | apply same_counts_refl].
Qed.

Lemma serve_counts history s1 s2 :
  Forall (fun er : Env * Request => write_error er.1 = None) history ->
  proc s1 = Running -> proc s2 = Running ->
  same_counts (registry s1) (registry s2) ->
  same_counts (registry (serve history s1)) (registry (serve history s2)).
Proof.
  intros Hok. revert s1 s2.
  induction Hok as [| [env req] history Hw Hok IH]; intros s1 s2 Hrun1 Hrun2 Hsame;
    cbn [serve]; [exact Hsame |].
  apply IH; [apply request_stays_running; assumption ..|].
  apply step_counts; assumption.
Qed.

Lemma permuted_counts h1 h2 :
  h1 ≡ₚ h2 ->
  Forall (fun er : Env * Request => write_error er.1 = None) h1 ->
  forall s1 s2,
    proc s1 = Running -> proc s2 = Running ->
    same_counts (registry s1) (registry s2) ->
    same_counts (registry (serve h1 s1)) (registry (serve h2 s2)).
Proof.
  induction 1 as [| [env req] l l' Hperm IH | [env1 req1] [env2 req2] l | l l' l'' H1 IH1 H2 IH2];
    intros Hok s1 s2 Hrun1 Hrun2 Hsame.
  - exact Hsame.
  - apply Forall_cons in Hok as [Hw Hok]. cbn [serve].
    apply IH; [exact Hok | apply request_stays_running; assumption ..|].
    apply step_counts; assumption.
  - apply Forall_cons in Hok as [Hw1 Hok]. apply Forall_cons in Hok as [Hw2 Hok].
    cbn [fst] in Hw1, Hw2. cbn [serve].
    apply serve_counts; [exact Hok | repeat apply request_stays_running; assumption ..|].
    eapply same_counts_trans; [| apply swap_counts; assumption].
    apply step_counts; [apply request_stays_running; assumption ..|].
    apply step_counts; assumption.
  - assert (Hok' : Forall (fun er : Env * Request => write_error er.1 = None) l')
      by (rewrite <- H1; exact Hok).
    eapply same_counts_trans; [apply (IH1 Hok s1 s2); assumption |].
    apply (IH2 Hok' s2 s2); [assumption .. | apply same_counts_refl].
Qed.

(** X22: the counts do not depend on the order in which the requests
    arrive: two runs that serve the same requests in different orders,
    with every log write succeeding, end with the same request, success
    and error counters and, in every series of the histogram, the same
    bucket counts and number of observations. *)
Theorem counts_ignore_order h1 h2 s :
  h1 ≡ₚ h2 ->
  Forall (fun er : Env * Request => write_error er.1 = None) h1 ->
  proc s = Running ->
  same_counts (registry (serve h1 s)) (registry (serve h2 s)).
Proof.
  intros Hperm Hok Hrun.
  apply (permuted_counts h1 h2 Hperm Hok s s Hrun Hrun), same_counts_refl.
Qed.

Lemma counts_ignore_order_witness :
  same_counts (registry (serve More.mixed Sample.s0))
              (registry (serve (rev More.mixed) Sample.s0)).
Proof.
  apply (counts_ignore_order More.mixed (rev More.mixed) Sample.s0).
  - apply Permutation_rev.
  - repeat constructor.
  - vm_compute. reflexivity.
Defined.
